(** * Hikrobot headless acquisition: a shallow embedding of
      [collect_images_headless.py] and the properties of its camera session.

    The class [HikrobotCamera] drives a vendor SDK object ([MvCamera]).  The
    SDK is not part of the repository: here it is an oracle that answers every
    call from the history of the calls made so far, and every call the Python
    code makes is appended, with its status code, to a log.  Python integers
    are [Z]; unsigned C fields filled in by the SDK ([c_uint], [c_ushort],
    [c_ubyte]) are [N]; a Python float is a binary64 [PrimFloat.float].  What
    the host does when the program asks for memory or for a pause is a second
    oracle.  Console output ([print]) is not modelled. *)

From Stdlib Require Import PrimFloat.
From Stdlib Require Import ZArith NArith Ascii String DecimalString List Bool Lia.
From Stdlib Require DecimalN DecimalPos.
Import ListNotations.
Open Scope string_scope.
Open Scope list_scope.
Open Scope Z_scope.

(** ** Python outcomes *)

Module Py.

(** The exceptions the embedded code can raise.  The text of a message is
    kept only as far as it names the failing step and its status code. *)
Inductive RuntimeMsg : Type :=
| CameraNotFound                      (* "未找到相机: {ip}" *)
| CreateHandleFailed (ret : Z)        (* "创建句柄失败: 0x{ret:08X}" *)
| OpenDeviceFailed (ret : Z)          (* "打开设备失败: 0x{ret:08X}" *)
| StartGrabbingFailed (ret : Z).      (* "开始取流失败: 0x{ret:08X}" *)

Inductive ValueMsg : Type :=
| UnknownTriggerMode (mode : string)  (* "未知触发模式: {mode}" *)
| NegativeArrayLength                 (* ctypes: Array length must be >= 0 *)
| NotANumber                          (* time.sleep: Invalid value NaN (not a number) *)
| NegativeSleep                       (* time.sleep: sleep length must be non-negative *)
| BufferTooSmall                      (* np.frombuffer: buffer is smaller than requested size *)
| CannotView                          (* ndarray.view: size not divisible by the new item size *)
| CannotReshape.                      (* ndarray.reshape: cannot reshape array of size n into shape s *)

Inductive OverflowMsg : Type :=
| IndexSized                          (* cannot fit 'int' into an index-sized integer *)
| TimestampTooLarge.                  (* timestamp too large to convert to C _PyTime_t *)

Inductive exn : Type :=
| RuntimeError (m : RuntimeMsg)
| ValueError (m : ValueMsg)
| OverflowError (m : OverflowMsg)
| MemoryError                         (* the host refused the memory *)
| OSError (errno : Z)                 (* a system call failed *)
| AttributeError                      (* attribute access on None *)
| TypeError                           (* ctypes.byref / sizeof on None *)
| cv2_error.                          (* raised inside cv2.cvtColor *)

Inductive result (A : Type) : Type :=
| Ok (a : A)
| Raise (e : exn).
Arguments Ok {A} a.
Arguments Raise {A} e.

Definition raises {A} (r : result A) : bool :=
  match r with Ok _ => false | Raise _ => true end.

End Py.
Import Py.

(** ** The vendor SDK as an oracle *)

Module SDK.

(** Constants of [CameraParams_header] (values as in [test_sdk.py]). *)
Definition MV_GIGE_DEVICE : N := 0x00000001.
Definition MV_USB_DEVICE : N := 0x00000004.
Definition MV_ACCESS_Exclusive : N := 1.

(** [MV_CC_DEVICE_INFO], restricted to the fields the code reads. *)
Record MV_CC_DEVICE_INFO : Type := {
  nTLayerType : N;
  nCurrentIp : N            (* SpecialInfo.stGigEInfo.nCurrentIp *)
}.

(** [MV_FRAME_OUT_INFO_EX], restricted to the fields the code reads. *)
Record MV_FRAME_OUT_INFO_EX : Type := {
  nWidth : N;
  nHeight : N;
  enPixelType : N
}.

(** One SDK entry point invoked on the [MvCamera] object number [o]. *)
Inductive Call : Type :=
| MV_CC_EnumDevices (tlayer : N)
| MV_CC_CreateHandle (o : nat) (dev : MV_CC_DEVICE_INFO)
| MV_CC_OpenDevice (o : nat) (access : N) (key : N)
| MV_CC_CloseDevice (o : nat)
| MV_CC_DestroyHandle (o : nat)
| MV_CC_GetIntValue (o : nat) (name : string)
| MV_CC_GetEnumValue (o : nat) (name : string)
| MV_CC_SetIntValue (o : nat) (name : string) (v : Z)
| MV_CC_SetEnumValue (o : nat) (name : string) (v : Z)
| MV_CC_SetCommandValue (o : nat) (name : string)
| MV_CC_StartGrabbing (o : nat)
| MV_CC_StopGrabbing (o : nat)
| MV_CC_GetOneFrameTimeout (o : nat) (nDataSize : Z) (nMsec : Z).

(** A call together with the status code it returned. *)
Definition Event : Type := (Call * Z)%type.

(** What one successful or failed frame fetch leaves behind: the frame
    header and the bytes written at the start of the caller's buffer. *)
Record FrameReply : Type := {
  info : MV_FRAME_OUT_INFO_EX;
  data : list N
}.

(** The SDK and the device behind it.  Each answer may depend on all the
    calls made so far. *)
Record Oracle : Type := {
  status : list Event -> Call -> Z;
  devices : list Event -> list MV_CC_DEVICE_INFO;
  nCurValue : list Event -> Call -> N;
  frame : list Event -> FrameReply
}.

End SDK.
Import SDK.

(** ** The camera object and the world it lives in *)

(** Fields of [HikrobotCamera]; [None] is Python's [None].  [pixel_format]
    does not exist before [connect] assigns it.  The fields live in a module
    so that [Self.width me] can be told from a parameter named [width]. *)
Module Self.
Record HikrobotCamera : Type := mkCamera {
  camera_ip : string;
  cam : option nat;
  dev_info : option MV_CC_DEVICE_INFO;
  width : Z;
  height : Z;
  payload_size : Z;
  pixel_format : option Z;
  pData : option (list N);
  pDataBGR : option (list N);
  stFrameInfo : option MV_FRAME_OUT_INFO_EX
}.
End Self.
Import Self.

(** [HikrobotCamera.__init__] *)
Definition __init__ (ip : string) : HikrobotCamera :=
  {| camera_ip := ip; cam := None; dev_info := None;
     width := 0; height := 0; payload_size := 0; pixel_format := None;
     pData := None; pDataBGR := None; stFrameInfo := None |}.

Definition set_cam (v : option nat) (c : HikrobotCamera) : HikrobotCamera :=
mkCamera (camera_ip c) v (dev_info c) (width c) (height c) (payload_size c)
         (pixel_format c) (pData c) (pDataBGR c) (stFrameInfo c).
Definition set_dev_info (v : option MV_CC_DEVICE_INFO) (c : HikrobotCamera) : HikrobotCamera :=
mkCamera (camera_ip c) (cam c) v (width c) (height c) (payload_size c)
         (pixel_format c) (pData c) (pDataBGR c) (stFrameInfo c).
Definition set_width (v : Z) (c : HikrobotCamera) : HikrobotCamera :=
mkCamera (camera_ip c) (cam c) (dev_info c) v (height c) (payload_size c)
         (pixel_format c) (pData c) (pDataBGR c) (stFrameInfo c).
Definition set_height (v : Z) (c : HikrobotCamera) : HikrobotCamera :=
mkCamera (camera_ip c) (cam c) (dev_info c) (width c) v (payload_size c)
         (pixel_format c) (pData c) (pDataBGR c) (stFrameInfo c).
Definition set_payload_size (v : Z) (c : HikrobotCamera) : HikrobotCamera :=
mkCamera (camera_ip c) (cam c) (dev_info c) (width c) (height c) v
         (pixel_format c) (pData c) (pDataBGR c) (stFrameInfo c).
Definition set_pixel_format (v : option Z) (c : HikrobotCamera) : HikrobotCamera :=
mkCamera (camera_ip c) (cam c) (dev_info c) (width c) (height c) (payload_size c)
           v (pData c) (pDataBGR c) (stFrameInfo c).
Definition set_pData (v : option (list N)) (c : HikrobotCamera) : HikrobotCamera :=
mkCamera (camera_ip c) (cam c) (dev_info c) (width c) (height c) (payload_size c)
         (pixel_format c) v (pDataBGR c) (stFrameInfo c).
Definition set_pDataBGR (v : option (list N)) (c : HikrobotCamera) : HikrobotCamera :=
mkCamera (camera_ip c) (cam c) (dev_info c) (width c) (height c) (payload_size c)
         (pixel_format c) (pData c) v (stFrameInfo c).
Definition set_stFrameInfo (v : option MV_FRAME_OUT_INFO_EX) (c : HikrobotCamera) : HikrobotCamera :=
mkCamera (camera_ip c) (cam c) (dev_info c) (width c) (height c) (payload_size c)
         (pixel_format c) (pData c) (pDataBGR c) v.

(** The camera object, the chronological log of SDK calls, and the number
    the next [MvCamera()] object will get. *)
Record World : Type := mkWorld {
  self : HikrobotCamera;
  log : list Event;
  fresh : nat
}.

Definition calls (w : World) : list Call := map fst (log w).

(** ** A state monad whose exceptions keep the state reached so far *)

Definition M (A : Type) : Type := World -> result A * World.

Definition ret {A} (a : A) : M A := fun w => (Ok a, w).
Definition raise {A} (e : exn) : M A := fun w => (Raise e, w).
Definition bind {A B} (m : M A) (k : A -> M B) : M B :=
fun w => match m w with
           | (Ok a, w') => k a w'
           | (Raise e, w') => (Raise e, w')
           end.

Declare Scope py_scope.
Delimit Scope py_scope with py.
Notation "x <- m ;; k" := (bind m (fun x => k))
(at level 61, m at next level, right associativity) : py_scope.
Notation "m ;; k" := (bind m (fun _ => k))
(at level 61, right associativity) : py_scope.
Open Scope py_scope.

Definition get_self : M HikrobotCamera := fun w => (Ok (self w), w).
Definition update (f : HikrobotCamera -> HikrobotCamera) : M unit :=
fun w => (Ok tt, mkWorld (f (self w)) (log w) (fresh w)).

(** [MvCamera()]: a new SDK object. *)
Definition MvCamera : M nat :=
fun w => (Ok (fresh w), mkWorld (self w) (log w) (S (fresh w))).

(** ** The host as an oracle *)

(** What the machine answers when CPython asks it for the [n] bytes of a new
    ctypes array ([true]: granted), and what comes of a pause of [secs]
    seconds once [time.sleep] has accepted the duration.  The answers may
    depend on everything the program has done so far. *)
Record Host : Type := {
  malloc : World -> Z -> bool;
  clock_nanosleep : World -> PrimFloat.float -> result unit
}.

(** ** The numpy and OpenCV operations used by the decoder *)

Module np.

Inductive dtype : Type := uint8 | uint16 | int64 | float64.

(** A C-contiguous array: element type, shape, and the elements in row-major
    order, each as the unsigned value of its bit pattern. *)
Record ndarray : Type := mk_ndarray {
  dt : dtype;
  shape : list N;
  items : list N
}.

Definition numel (shape : list N) : N := fold_right N.mul 1%N shape.

(** [np.frombuffer(buf, dtype=np.uint8, count=count)] on a ctypes array. *)
Definition frombuffer_uint8 (buf : list N) (count : N) : result ndarray :=
  if (N.of_nat (length buf) <? count)%N then Raise (ValueError BufferTooSmall)
  else Ok (mk_ndarray uint8 [count] (firstn (N.to_nat count) buf)).

(** [np.ctypeslib.as_array(obj)] where [obj] is a Python list of ints: it is
    [np.asarray(obj)], an array of the default integer type (8 bytes per
    element), or of [float64] when the list is empty. *)
Definition as_array (obj : list N) : ndarray :=
  mk_ndarray (match obj with [] => float64 | _ => int64 end)
             [N.of_nat (length obj)] obj.

(** The [k] little-endian 16-bit words of one element. *)
Definition words16 (k : nat) (x : N) : list N :=
  map (fun i => N.land (N.shiftr x (16 * N.of_nat i)) 0xFFFF) (seq 0 k).

(** Consecutive byte pairs as little-endian 16-bit words. *)
Fixpoint pair_bytes (l : list N) : option (list N) :=
  match l with
  | [] => Some []
  | lo :: hi :: rest => option_map (cons (lo + 256 * hi)%N) (pair_bytes rest)
  | _ => None
  end.

(** [a.view(np.uint16)] on a one-dimensional array: the same memory read as
    16-bit words. *)
Definition view_uint16 (a : ndarray) : result ndarray :=
  match dt a with
  | uint8 =>
      match pair_bytes (items a) with
      | Some ws => Ok (mk_ndarray uint16 [N.of_nat (length ws)] ws)
      | None => Raise (ValueError CannotView)
      end
  | uint16 => Ok a
  | int64 | float64 =>
      let ws := flat_map (words16 4) (items a) in
      Ok (mk_ndarray uint16 [N.of_nat (length ws)] ws)
  end.

(** [a.reshape(shape)] *)
Definition reshape (a : ndarray) (shape : list N) : result ndarray :=
  if (N.of_nat (length (items a)) =? numel shape)%N
  then Ok (mk_ndarray (dt a) shape (items a))
  else Raise (ValueError CannotReshape).

(** [a >> k] on an unsigned array. *)
Definition rshift (a : ndarray) (k : N) : ndarray :=
  mk_ndarray (dt a) (shape a) (map (fun x => N.shiftr x k) (items a)).

(** [a.astype(np.uint8)]: each element reduced modulo 256. *)
Definition astype_uint8 (a : ndarray) : ndarray :=
  mk_ndarray uint8 (shape a) (map (fun x => x mod 256)%N (items a)).

End np.

Module cv2.

Inductive ColorConversionCode : Type := COLOR_BAYER_RG2BGR | COLOR_GRAY2BGR.

(** What [get_frame] hands back: the result of a colour conversion, kept
    symbolic (the interpolation itself is OpenCV's), or a copy of an array. *)
Inductive image : Type :=
| converted (code : ColorConversionCode) (src : np.ndarray)
| copy (src : np.ndarray).

(** [cv2.cvtColor(src, code)]: OpenCV rejects an empty source and any depth
    other than 8 or 16 bit unsigned (32-bit float does not occur here). *)
Definition cvtColor (src : np.ndarray) (code : ColorConversionCode) : result image :=
  match np.dt src with
  | np.uint8 | np.uint16 =>
      if (np.numel (np.shape src) =? 0)%N then Raise cv2_error
      else Ok (converted code src)
  | _ => Raise cv2_error
  end.

End cv2.

Section Camera.

Variable sdk : Oracle.
Variable host : Host.

(** A call into the SDK: the oracle answers, the log grows. *)
Definition invoke (c : Call) : M Z :=
  fun w => let r := status sdk (log w) c in
           (Ok r, mkWorld (self w) (log w ++ [(c, r)]) (fresh w)).

(** [self.cam.<method>(...)]: attribute access on [None] raises. *)
Definition on_cam (c : nat -> Call) : M Z :=
  me <- get_self ;;
  match cam me with
  | None => raise AttributeError
  | Some o => invoke (c o)
  end.

(** [self.cam.MV_CC_Get*Value(name, st)] followed by [st.nCurValue].  The
    status code is ignored by every caller; the value read is whatever the
    SDK left in the structure. *)
Definition read_value (c : nat -> Call) : M Z :=
  me <- get_self ;;
  match cam me with
  | None => raise AttributeError
  | Some o =>
      fun w => let v := nCurValue sdk (log w) (c o) in
               (Ok (Z.of_N v), snd (invoke (c o) w))
  end.

(** *** [_find_camera_by_ip] *)

(** [f"{(ip_int>>24)&0xFF}.{(ip_int>>16)&0xFF}.{(ip_int>>8)&0xFF}.{ip_int&0xFF}"] *)
Definition decimal (n : N) : string := NilZero.string_of_uint (N.to_uint n).
Definition ip_to_str (ip_int : N) : string :=
  (decimal (N.land (N.shiftr ip_int 24) 0xFF) ++ "." ++
   decimal (N.land (N.shiftr ip_int 16) 0xFF) ++ "." ++
   decimal (N.land (N.shiftr ip_int 8) 0xFF) ++ "." ++
   decimal (N.land ip_int 0xFF))%string.

(** The [for] loop over the enumerated devices: first GigE device whose
    address prints as [camera_ip]. *)
Fixpoint scan_devices (camera_ip : string) (l : list MV_CC_DEVICE_INFO)
  : option MV_CC_DEVICE_INFO :=
  match l with
  | [] => None
  | dev_info :: rest =>
      if (nTLayerType dev_info =? MV_GIGE_DEVICE)%N
      then if String.eqb (ip_to_str (nCurrentIp dev_info)) camera_ip
           then Some dev_info
           else scan_devices camera_ip rest
      else scan_devices camera_ip rest
  end.

Definition _find_camera_by_ip (camera_ip : string) : M (option MV_CC_DEVICE_INFO) :=
  fun w => let device_list := devices sdk (log w) in
           (Ok (scan_devices camera_ip device_list),
            snd (invoke (MV_CC_EnumDevices (N.lor MV_GIGE_DEVICE MV_USB_DEVICE)) w)).

(** *** [connect] *)

Definition BAYER_RG8 : Z := 0x01080009.

Definition connect : M unit :=
  me <- get_self ;;
  found <- _find_camera_by_ip (camera_ip me) ;;
  update (set_dev_info found) ;;
  match found with
  | None => raise (RuntimeError CameraNotFound)
  | Some dev =>
      o <- MvCamera ;;
      update (set_cam (Some o)) ;;
      r <- on_cam (fun o => MV_CC_CreateHandle o dev) ;;
      if negb (r =? 0) then raise (RuntimeError (CreateHandleFailed r)) else
      r <- on_cam (fun o => MV_CC_OpenDevice o MV_ACCESS_Exclusive 0) ;;
      if negb (r =? 0) then
        on_cam MV_CC_DestroyHandle ;;
        raise (RuntimeError (OpenDeviceFailed r))
      else
      stWidth <- read_value (fun o => MV_CC_GetIntValue o "Width") ;;
      stHeight <- read_value (fun o => MV_CC_GetIntValue o "Height") ;;
      stPayload <- read_value (fun o => MV_CC_GetIntValue o "PayloadSize") ;;
      stPixel <- read_value (fun o => MV_CC_GetEnumValue o "PixelFormat") ;;
      update (set_width stWidth) ;;
      update (set_height stHeight) ;;
      update (set_payload_size stPayload) ;;
      update (set_pixel_format (Some stPixel)) ;;
      if negb (stPixel =? BAYER_RG8) then
        r <- on_cam (fun o => MV_CC_SetEnumValue o "PixelFormat" BAYER_RG8) ;;
        if r =? 0 then
          update (set_pixel_format (Some BAYER_RG8)) ;;
          stPayload <- read_value (fun o => MV_CC_GetIntValue o "PayloadSize") ;;
          update (set_payload_size stPayload)
        else ret tt
      else ret tt
  end.

(** *** [set_roi] *)

Definition set_roi (width height : Z) (offset_x offset_y : option Z) : M unit :=
  me <- get_self ;;
  let orig_w := Self.width me in
  let orig_h := Self.height me in
  let offset_x := match offset_x with
                  | None => (orig_w - width) / 2
                  | Some x => x
                  end in
  let offset_y := match offset_y with
                  | None => (orig_h - height) / 2
                  | Some y => y
                  end in
  let offset_x := Z.max 0 (Z.min offset_x (orig_w - width)) in
  let offset_y := Z.max 0 (Z.min offset_y (orig_h - height)) in
  on_cam (fun o => MV_CC_SetIntValue o "Width" width) ;;
  on_cam (fun o => MV_CC_SetIntValue o "Height" height) ;;
  on_cam (fun o => MV_CC_SetIntValue o "OffsetX" offset_x) ;;
  on_cam (fun o => MV_CC_SetIntValue o "OffsetY" offset_y) ;;
  stPayload <- read_value (fun o => MV_CC_GetIntValue o "PayloadSize") ;;
  update (set_payload_size stPayload) ;;
  update (set_width width) ;;
  update (set_height height).

(** *** [set_trigger_mode] *)

Definition set_trigger_mode (mode : string) : M unit :=
  if String.eqb mode "continuous" then
    on_cam (fun o => MV_CC_SetEnumValue o "TriggerMode" 0) ;;
    ret tt
  else if String.eqb mode "software" then
    on_cam (fun o => MV_CC_SetEnumValue o "TriggerMode" 1) ;;
    on_cam (fun o => MV_CC_SetEnumValue o "TriggerSource" 7) ;;
    ret tt
  else if String.eqb mode "hardware" then
    on_cam (fun o => MV_CC_SetEnumValue o "TriggerMode" 1) ;;
    on_cam (fun o => MV_CC_SetEnumValue o "TriggerSource" 0) ;;
    on_cam (fun o => MV_CC_SetEnumValue o "TriggerActivation" 0) ;;
    ret tt
  else raise (ValueError (UnknownTriggerMode mode)).

(** *** [start_grabbing] *)

(** [sys.maxsize] of a 64-bit CPython: the largest [Py_ssize_t]. *)
Definition sys_maxsize : Z := 2 ^ 63 - 1.

(** [(ctypes.c_ubyte * n)()].  The multiplication converts [n] to a
    [Py_ssize_t] and raises [OverflowError] when it does not fit, then
    [ValueError] when it is negative; the call of the array type asks the
    host for the bytes and raises [MemoryError] when they are refused.  The
    new array is filled with zeros. *)
Definition c_ubyte_array (n : Z) : M (list N) :=
  if (n <? - sys_maxsize - 1) || (sys_maxsize <? n) then raise (OverflowError IndexSized)
  else if n <? 0 then raise (ValueError NegativeArrayLength)
  else fun w => if malloc host w n then (Ok (repeat 0%N (Z.to_nat n)), w)
                else (Raise MemoryError, w).

Definition start_grabbing : M unit :=
  me <- get_self ;;
  buf <- c_ubyte_array (payload_size me) ;;
  update (set_pData (Some buf)) ;;
  bgr <- c_ubyte_array (Self.width me * Self.height me * 3) ;;
  update (set_pDataBGR (Some bgr)) ;;
  update (set_stFrameInfo (Some {| nWidth := 0; nHeight := 0; enPixelType := 0 |})) ;;
  r <- on_cam MV_CC_StartGrabbing ;;
  if negb (r =? 0) then raise (RuntimeError (StartGrabbingFailed r))
  else ret tt.

(** *** [software_trigger] *)

Definition software_trigger : M bool :=
  r <- on_cam (fun o => MV_CC_SetCommandValue o "TriggerSoftware") ;;
  ret (r =? 0).

(** *** [get_frame] *)

(** [self.pData[:n]]: slicing a ctypes array gives a Python list of ints. *)
Definition slice_to (buf : list N) (n : N) : list N := firstn (N.to_nat n) buf.

(** What the buffer holds after the SDK wrote [written] at its start. *)
Definition overwrite (buf written : list N) : list N :=
  firstn (length buf) (written ++ skipn (length written) buf).

(** Lift a pure library outcome into the monad. *)
Definition lift {A} (r : result A) : M A := fun w => (r, w).

(** Lines 222-223: the 16-bit grid shifted right by four and narrowed. *)
Definition to_8bit (data16 : np.ndarray) : np.ndarray :=
  np.astype_uint8 (np.rshift data16 4).

(** Lines 208-240: the dispatch on the pixel type reported for the frame. *)
Definition decode (pData : list N) (h w pixel_type : N) : result (option cv2.image) :=
  if (pixel_type =? 0x01080009)%N then
    match np.frombuffer_uint8 pData (h * w) with
    | Raise e => Raise e
    | Ok flat =>
        match np.reshape flat [h; w] with
        | Raise e => Raise e
        | Ok data =>
            match cv2.cvtColor data cv2.COLOR_BAYER_RG2BGR with
            | Raise e => Raise e
            | Ok bgr => Ok (Some bgr)
            end
        end
    end
  else if existsb (N.eqb pixel_type) [0x0110000D; 0x010C0027; 0x01100011; 0x010C002B]%N then
    match np.view_uint16 (np.as_array (slice_to pData (h * w * 2))) with
    | Raise e => Raise e
    | Ok words =>
        match np.reshape words [h; w] with
        | Raise e => Raise e
        | Ok data16 =>
            let data8 := to_8bit data16 in
            match cv2.cvtColor data8 cv2.COLOR_BAYER_RG2BGR with
            | Raise e => Raise e
            | Ok bgr => Ok (Some bgr)
            end
        end
    end
  else if (pixel_type =? 0x01080001)%N then
    match np.reshape (np.as_array (slice_to pData (h * w))) [h; w] with
    | Raise e => Raise e
    | Ok data =>
        match cv2.cvtColor data cv2.COLOR_GRAY2BGR with
        | Raise e => Raise e
        | Ok bgr => Ok (Some bgr)
        end
    end
  else if (pixel_type =? 0x02180014)%N then
    match np.reshape (np.as_array (slice_to pData (h * w * 3))) [h; w; 3%N] with
    | Raise e => Raise e
    | Ok data => Ok (Some (cv2.copy data))
    end
  else Ok None.

(** The pixel-type codes [decode] has a branch for: BayerRG8, BayerRG10,
    BayerRG10Packed, BayerRG12, BayerRG12Packed, Mono8, BGR8Packed. *)
Definition listed_formats : list N :=
  [0x01080009; 0x0110000D; 0x010C0027; 0x01100011; 0x010C002B;
   0x01080001; 0x02180014]%N.

Definition get_frame (timeout_ms : Z) : M (option cv2.image) :=
  me <- get_self ;;
  match stFrameInfo me with
  | None => raise TypeError                    (* byref(None) *)
  | Some _ =>
      update (set_stFrameInfo (Some {| nWidth := 0; nHeight := 0; enPixelType := 0 |})) ;;
      match cam me, pData me with
      | None, _ => raise AttributeError
      | Some _, None => raise TypeError         (* no buffer to hand to the SDK *)
      | Some _, Some buf =>
          fun w =>
            let reply := frame sdk (log w) in
            (r <- on_cam (fun o => MV_CC_GetOneFrameTimeout o (payload_size me) timeout_ms) ;;
             update (set_pData (Some (overwrite buf (data reply)))) ;;
             update (set_stFrameInfo (Some (info reply))) ;;
             if negb (r =? 0) then ret None
             else
               let h := nHeight (info reply) in
               let w := nWidth (info reply) in
               let pixel_type := enPixelType (info reply) in
               lift (decode (overwrite buf (data reply)) h w pixel_type)) w
      end
  end.

(** *** [stop_grabbing], [disconnect], [__enter__], [__exit__] *)

Definition stop_grabbing : M unit :=
  me <- get_self ;;
  match cam me with
  | Some _ => on_cam MV_CC_StopGrabbing ;; ret tt
  | None => ret tt
  end.

Definition disconnect : M unit :=
  me <- get_self ;;
  match cam me with
  | Some _ =>
      on_cam MV_CC_CloseDevice ;;
      on_cam MV_CC_DestroyHandle ;;
      update (set_cam None)
  | None => ret tt
  end.

Definition __enter__ : M unit := connect.

Definition __exit__ : M unit := stop_grabbing ;; disconnect.

(** *** The acquisition loop of [collect_images] *)

(** [time.sleep(secs)] for a float, as CPython 3.11 does it.  The duration is
    turned into nanoseconds, [secs * 1e9] in binary64: NaN is a [ValueError];
    a product below -2^63 or above 2^63, infinities included, is an
    [OverflowError]; a negative product is the [ValueError] 'sleep length
    must be non-negative' (minus zero is not negative).  Only then is the
    host asked to wait; what comes of that, an interrupted or refused wait
    and the conversion of exactly 2^63 included, is the host's answer.  The
    pause itself changes nothing in the session. *)
Definition time_sleep (secs : PrimFloat.float) : M unit :=
  if PrimFloat.is_nan secs then raise (ValueError NotANumber)
  else
    let ns := PrimFloat.mul secs 1e9%float in
    if PrimFloat.ltb ns (-0x1p63)%float || PrimFloat.ltb 0x1p63%float ns
    then raise (OverflowError TimestampTooLarge)
    else if PrimFloat.ltb ns 0%float then raise (ValueError NegativeSleep)
    else fun w => (clock_nanosleep host w secs, w).

(** Lines 318-328 (resize, file name, [cv2.imwrite]) belong to the image
    sink, taken here as a parameter. *)
Variable save_frame : nat -> cv2.image -> M unit.

(** One pass of the [for] body, for index [i] of [range(count)]; returns the
    new [saved_count].  The pause of lines 332-333 follows every pass but the
    last one, in continuous mode only. *)
Definition loop_body (trigger : string) (timeout : Z) (interval : PrimFloat.float)
           (count : Z) (i saved_count : nat) : M nat :=
  (if String.eqb trigger "software" then software_trigger ;; ret tt else ret tt) ;;
  frame <- get_frame timeout ;;
  saved_count' <- match frame with
                  | Some f => save_frame i f ;; ret (S saved_count)
                  | None => ret saved_count
                  end ;;
  (if (Z.of_nat i <? count - 1) && String.eqb trigger "continuous"
   then time_sleep interval else ret tt) ;;
  ret saved_count'.

(** [for i in range(count)], with [n] passes left to run from index [i]. *)
Fixpoint acquisition_loop (trigger : string) (timeout : Z) (interval : PrimFloat.float)
         (count : Z) (n i saved_count : nat) : M nat :=
  match n with
  | O => ret saved_count
  | S n' =>
      saved_count' <- loop_body trigger timeout interval count i saved_count ;;
      acquisition_loop trigger timeout interval count n' (S i) saved_count'
  end.

End Camera.

(** ** What the log says about the device *)

Module Log.

(** Handles acquired ([MV_CC_CreateHandle] returned 0) and not yet destroyed,
    after each event in turn. *)
Definition handle_step (held : list nat) (e : Event) : list nat :=
  match e with
  | (MV_CC_CreateHandle o _, r) => if r =? 0 then o :: held else held
  | (MV_CC_DestroyHandle o, _) => remove Nat.eq_dec o held
  | _ => held
  end.

Definition handles_held (l : list Event) : list nat := fold_left handle_step l [].

(** Whether the device is grabbing: started successfully and not stopped,
    closed or destroyed since. *)
Definition grabbing_step (g : bool) (e : Event) : bool :=
  match e with
  | (MV_CC_StartGrabbing _, r) => if r =? 0 then true else g
  | (MV_CC_StopGrabbing _, _) => false
  | (MV_CC_CloseDevice _, _) => false
  | (MV_CC_DestroyHandle _, _) => false
  | _ => g
  end.

Definition grabbing (l : list Event) : bool := fold_left grabbing_step l false.

Definition is_release (c : Call) : bool :=
  match c with
  | MV_CC_CloseDevice _ | MV_CC_DestroyHandle _ => true
  | _ => false
  end.

Definition is_destroy (c : Call) : bool :=
  match c with
  | MV_CC_DestroyHandle _ => true
  | _ => false
  end.

(** Whether a call reads or writes a named device parameter. *)
Definition is_parameter_access (c : Call) : bool :=
  match c with
  | MV_CC_GetIntValue _ _ | MV_CC_GetEnumValue _ _
  | MV_CC_SetIntValue _ _ _ | MV_CC_SetEnumValue _ _ _ => true
  | _ => false
  end.

(** Whether a call writes a device parameter. *)
Definition is_write (c : Call) : bool :=
  match c with
  | MV_CC_SetIntValue _ _ _ | MV_CC_SetEnumValue _ _ _ | MV_CC_SetCommandValue _ _ => true
  | _ => false
  end.

End Log.

(** The session states of the design, read off the camera object and the
    log: no SDK object at all; an object that is not grabbing; an object that
    is grabbing with its transfer buffers in place. *)
Inductive SessionState : Type := Disconnected | Connected | Streaming.

Definition session_state (w : World) : SessionState :=
  match cam (self w) with
  | None => Disconnected
  | Some _ =>
      if Log.grabbing (log w) then
        match pData (self w), stFrameInfo (self w) with
        | Some _, Some _ => Streaming
        | _, _ => Connected
        end
      else Connected
  end.

(** Run [n] calls of a method one after the other, stopping at the first
    exception. *)
Fixpoint repeat_call (m : M unit) (n : nat) : M unit :=
  match n with
  | O => ret tt
  | S n' => m ;; repeat_call m n'
  end.

(** ** Scripted devices for concrete runs *)

Module Demo.

(** A GigE camera at 192.168.2.124. *)
Definition device : MV_CC_DEVICE_INFO :=
  {| nTLayerType := MV_GIGE_DEVICE; nCurrentIp := 0xC0A8027C |}.

(** A device that answers every call with the status [st] chooses, reports
    the parameter values [value], and delivers [reply] to every fetch. *)
Definition scripted (st : Call -> Z) (value : string -> N) (reply : FrameReply) : Oracle :=
  {| status := fun _ c => st c;
     devices := fun _ => [device];
     nCurValue := fun _ c =>
       match c with
       | MV_CC_GetIntValue _ name | MV_CC_GetEnumValue _ name => value name
       | _ => 0%N
       end;
     frame := fun _ => reply |}.

Definition always_ok (c : Call) : Z := 0.

Definition no_frame : FrameReply :=
  {| info := {| nWidth := 0; nHeight := 0; enPixelType := 0 |}; data := [] |}.

(** A 1920 x 1200 sensor. *)
Definition sensor_1920x1200 (name : string) : N :=
  if String.eqb name "Width" then 1920%N
  else if String.eqb name "Height" then 1200%N
  else if String.eqb name "PayloadSize" then 2304000%N
  else 0x01080009%N.

(** A 2 x 2 sensor delivering the given pixel format, with [payload] bytes
    per frame. *)
Definition sensor_2x2 (pixel_format payload : N) (name : string) : N :=
  if String.eqb name "Width" then 2%N
  else if String.eqb name "Height" then 2%N
  else if String.eqb name "PayloadSize" then payload
  else pixel_format.

(** A host with room for every buffer, on which every pause returns. *)
Definition host : Host :=
  {| malloc := fun _ _ => true; clock_nanosleep := fun _ _ => Ok tt |}.

(** A host without room for buffers of more than 1 MiB. *)
Definition small_host : Host :=
  {| malloc := fun _ n => n <=? 1048576; clock_nanosleep := fun _ _ => Ok tt |}.

Definition start : World := mkWorld (__init__ "192.168.2.124") [] 0.

(** The world reached by running [m] from [w], whatever the outcome. *)
Definition after {A} (m : M A) (w : World) : World := snd (m w).

(** [connect], [set_trigger_mode mode], [start_grabbing] in a row. *)
Definition streaming_world (sdk : Oracle) (mode : string) : World :=
  after (start_grabbing sdk host)
        (after (set_trigger_mode sdk mode) (after (connect sdk) start)).

(** A 2 x 2 BayerRG8 camera that delivers one frame per fetch. *)
Definition bayer8_sdk : Oracle :=
  scripted always_ok (sensor_2x2 0x01080009 4)
           {| info := {| nWidth := 2; nHeight := 2; enPixelType := 0x01080009 |};
              data := [10; 20; 30; 40]%N |}.

(** The same camera when no frame arrives in time: the fetch returns
    MV_E_NODATA. *)
Definition nodata_sdk : Oracle :=
  scripted (fun c => match c with
                     | MV_CC_GetOneFrameTimeout _ _ _ => 0x80000007
                     | _ => 0
                     end)
           (sensor_2x2 0x01080009 4) no_frame.

(** A camera whose frames carry BayerGR8 (0x01080008), a format the decoder
    does not list. *)
Definition unlisted_format_sdk : Oracle :=
  scripted always_ok (sensor_2x2 0x01080009 4)
           {| info := {| nWidth := 2; nHeight := 2; enPixelType := 0x01080008 |};
              data := [1; 2; 3; 4]%N |}.

(** A BayerRG12Packed camera that refuses the switch to BayerRG8: six bytes
    per 2 x 2 frame. *)
Definition packed12_sdk : Oracle :=
  scripted (fun c => match c with
                     | MV_CC_SetEnumValue _ "PixelFormat" _ => 0x80000100
                     | _ => 0
                     end)
           (sensor_2x2 0x010C002B 6)
           {| info := {| nWidth := 2; nHeight := 2; enPixelType := 0x010C002B |};
              data := [0xF0; 0xFF; 0x00; 0x0F; 0xF0; 0xFF]%N |}.

(** A camera that is already opened elsewhere: [MV_CC_OpenDevice] fails. *)
Definition open_fails_sdk : Oracle :=
  scripted (fun c => match c with
                     | MV_CC_OpenDevice _ _ _ => 0x80000203
                     | _ => 0
                     end)
           (sensor_2x2 0x01080009 4) no_frame.

(** A BayerRG10 camera that refuses the switch to BayerRG8: two bytes per
    sample, every sample at the 10-bit maximum 0x3FF. *)
Definition bayer10_sdk : Oracle :=
  scripted (fun c => match c with
                     | MV_CC_SetEnumValue _ "PixelFormat" _ => 0x80000100
                     | _ => 0
                     end)
           (sensor_2x2 0x0110000D 8)
           {| info := {| nWidth := 2; nHeight := 2; enPixelType := 0x0110000D |};
              data := [0xFF; 0x03; 0xFF; 0x03; 0xFF; 0x03; 0xFF; 0x03]%N |}.

(** A BayerRG12 camera that refuses the switch to BayerRG8: two bytes per
    sample, low byte first, every sample 0x0FF0. *)
Definition bayer12_sdk : Oracle :=
  scripted (fun c => match c with
                     | MV_CC_SetEnumValue _ "PixelFormat" _ => 0x80000100
                     | _ => 0
                     end)
           (sensor_2x2 0x01100011 8)
           {| info := {| nWidth := 2; nHeight := 2; enPixelType := 0x01100011 |};
              data := [0xF0; 0x0F; 0xF0; 0x0F; 0xF0; 0x0F; 0xF0; 0x0F]%N |}.

End Demo.

(** ** [collect_images]: the whole session *)

(** The command-line arguments [collect_images] reads from the SDK side.
    [size] is [None] when the option is absent. *)
Record Args : Type := {
  ip : string;
  size : option string;
  trigger : string;
  count : Z;
  interval : PrimFloat.float;
  timeout : Z
}.

(** [if args.size:] is false for [None] and for the empty string. *)
Definition truthy (s : option string) : bool :=
  match s with
  | None => false
  | Some s => negb (String.eqb s "")
  end.

Section Collect.

Variable sdk : Oracle.
Variable host : Host.

(** The steps of [collect_images] that belong to other libraries:
    [map(int, args.size.split('x'))] unpacked into two integers, the optional
    exposure and gain settings of lines 291-295, [os.makedirs], and the image
    sink of lines 318-328. *)
Variable parse_size : string -> M (Z * Z).
Variable set_exposure_and_gain : M unit.
Variable makedirs : M unit.
Variable save_frame : nat -> cv2.image -> M unit.

(** [with HikrobotCamera(ip) as cam: body].  A new camera object is made and
    [__enter__] is run; if that raises, [__exit__] is not called.  Otherwise
    [__exit__] runs after the body whether the body returned or raised, and
    as it returns [None] an exception of the body is raised again after it. *)
Definition with_HikrobotCamera {A} (ip : string) (body : M A) : M A :=
  fun w =>
    match __enter__ sdk (mkWorld (__init__ ip) (log w) (fresh w)) with
    | (Raise e, w1) => (Raise e, w1)
    | (Ok _, w1) =>
        match body w1 with
        | (r, w2) =>
            match __exit__ sdk w2 with
            | (Ok _, w3) => (r, w3)
            | (Raise e, w3) => (Raise e, w3)
            end
        end
    end.

(** The body of the [with] statement, lines 283-336; returns [saved_count]. *)
Definition collect_body (args : Args) : M nat :=
  (if truthy (size args) then
     match size args with
     | Some s => wh <- parse_size s ;; set_roi sdk (fst wh) (snd wh) None None
     | None => ret tt
     end
   else ret tt) ;;
  set_trigger_mode sdk (trigger args) ;;
  set_exposure_and_gain ;;
  start_grabbing sdk host ;;
  makedirs ;;
  acquisition_loop sdk host save_frame (trigger args) (timeout args) (interval args)
                   (count args) (Z.to_nat (count args)) 0 0.

Definition collect_images (args : Args) : M unit :=
  with_HikrobotCamera (ip args) (collect_body args ;; ret tt).

End Collect.

(** A step that leaves the SDK object of the session and the handles held
    as they are, whatever its outcome. *)
Definition keeps_handle {A} (m : M A) : Prop :=
  forall w, cam (self (snd (m w))) = cam (self w) /\
            Log.handles_held (log (snd (m w))) = Log.handles_held (log w).

(** The SDK calls of one pass of the acquisition loop: the trigger command
    in software mode, then the fetch. *)
Definition pass_calls (trigger : string) (o : nat) (payload timeout : Z) : list Call :=
  (if String.eqb trigger "software"
   then [MV_CC_SetCommandValue o "TriggerSoftware"] else [])
  ++ [MV_CC_GetOneFrameTimeout o payload timeout].

(** * Properties *)

(** ** Stepping through SDK calls *)

Lemma on_cam_some sdk (c : nat -> Call) (w : World) (o : nat) :
  cam (self w) = Some o ->
  on_cam sdk c w =
  (Ok (status sdk (log w) (c o)),
   mkWorld (self w) (log w ++ [(c o, status sdk (log w) (c o))]) (fresh w)).
Proof.
  intros Hcam. unfold on_cam, bind, get_self. rewrite Hcam. reflexivity.
Qed.

Lemma on_cam_none sdk (c : nat -> Call) (w : World) :
  cam (self w) = None -> on_cam sdk c w = (Raise AttributeError, w).
Proof.
  intros Hcam. unfold on_cam, bind, get_self. rewrite Hcam. reflexivity.
Qed.

Lemma read_value_some sdk (c : nat -> Call) (w : World) (o : nat) :
  cam (self w) = Some o ->
  read_value sdk c w =
  (Ok (Z.of_N (nCurValue sdk (log w) (c o))),
   mkWorld (self w) (log w ++ [(c o, status sdk (log w) (c o))]) (fresh w)).
Proof.
  intros Hcam. unfold read_value, bind, get_self. rewrite Hcam. reflexivity.
Qed.

Lemma calls_app (w : World) (s : HikrobotCamera) (l : list Event) (n : nat) :
  calls (mkWorld s (log w ++ l) n) = calls w ++ map fst l.
Proof. unfold calls. cbn [log]. apply map_app. Qed.

(** Half of a non-negative distance lies between zero and the distance. *)
Lemma half_in_range (d : Z) : 0 <= d -> 0 <= d / 2 <= d.
Proof.
  intros Hd. split.
  - apply Z.div_pos; lia.
  - apply Z.div_le_upper_bound; lia.
Qed.

Lemma centred_offset_unclamped (orig req : Z) :
  req <= orig ->
  Z.max 0 (Z.min ((orig - req) / 2) (orig - req)) = (orig - req) / 2.
Proof.
  intros Hle. pose proof (half_in_range (orig - req)) as H. lia.
Qed.

(** ** ROI placement *)

(** C1. With both offsets left unspecified and a requested size that fits the
    current sensor extent, [set_roi] writes, in this order, the width, the
    height, and the offsets floor((sensorDim - requestedDim) / 2), then reads
    the payload size back; each offset is non-negative and offset plus
    requested size stays within the sensor.  On a 1920 x 1200 sensor a
    640 x 640 request gives offsets 640 and 280. *)
Theorem set_roi_centres_offsets sdk (w : World) (o : nat) (req_w req_h : Z) :
  cam (self w) = Some o ->
  req_w <= Self.width (self w) ->
  req_h <= Self.height (self w) ->
  let offset_x := (Self.width (self w) - req_w) / 2 in
  let offset_y := (Self.height (self w) - req_h) / 2 in
  (exists w',
      set_roi sdk req_w req_h None None w = (Ok tt, w') /\
      calls w' = calls w ++ [MV_CC_SetIntValue o "Width" req_w;
                             MV_CC_SetIntValue o "Height" req_h;
                             MV_CC_SetIntValue o "OffsetX" offset_x;
                             MV_CC_SetIntValue o "OffsetY" offset_y;
                             MV_CC_GetIntValue o "PayloadSize"] /\
      Self.width (self w') = req_w /\ Self.height (self w') = req_h) /\
  0 <= offset_x /\ offset_x + req_w <= Self.width (self w) /\
  0 <= offset_y /\ offset_y + req_h <= Self.height (self w) /\
  (Self.width (self w) = 1920 -> Self.height (self w) = 1200 ->
   req_w = 640 -> req_h = 640 -> offset_x = 640 /\ offset_y = 280).
Proof.
  intros Hcam Hw Hh offset_x offset_y.
  pose proof (half_in_range (Self.width (self w) - req_w) ltac:(lia)) as Hx.
  pose proof (half_in_range (Self.height (self w) - req_h) ltac:(lia)) as Hy.
  split; [| split; [|split; [|split; [|split]]]; subst offset_x offset_y; try lia;
             intros HW HH -> ->; rewrite HW, HH; split; reflexivity].
  unfold set_roi, bind at 1, get_self.
    rewrite (centred_offset_unclamped _ _ Hw), (centred_offset_unclamped _ _ Hh).
    fold offset_x offset_y.
  unfold bind at 1. rewrite (on_cam_some _ _ _ _ Hcam).
  unfold bind at 1. rewrite (on_cam_some _ _ _ o) by exact Hcam.
  unfold bind at 1. rewrite (on_cam_some _ _ _ o) by exact Hcam.
  unfold bind at 1. rewrite (on_cam_some _ _ _ o) by exact Hcam.
  unfold bind at 1. rewrite (read_value_some _ _ _ o) by exact Hcam.
  cbn [self log fresh]. unfold bind, update. cbn [self log fresh].
  eexists. split; [reflexivity|].
  unfold calls. cbn [log self Self.width Self.height set_width set_height set_payload_size].
  repeat rewrite <- app_assoc. rewrite map_app. cbn [map fst app].
  repeat split.
Qed.

Lemma set_roi_centres_offsets_witness :
  cam (self (Demo.after (connect (Demo.scripted Demo.always_ok Demo.sensor_1920x1200 Demo.no_frame))
                        Demo.start)) = Some 0%nat /\
  exists w',
    set_roi (Demo.scripted Demo.always_ok Demo.sensor_1920x1200 Demo.no_frame)
            640 640 None None
            (Demo.after (connect (Demo.scripted Demo.always_ok Demo.sensor_1920x1200 Demo.no_frame))
                        Demo.start) = (Ok tt, w') /\
    skipn 7 (calls w') = [MV_CC_SetIntValue 0 "Width" 640;
                          MV_CC_SetIntValue 0 "Height" 640;
                          MV_CC_SetIntValue 0 "OffsetX" 640;
                          MV_CC_SetIntValue 0 "OffsetY" 280;
                          MV_CC_GetIntValue 0 "PayloadSize"].
Proof.
  assert (Hcam : cam (self (Demo.after
                              (connect (Demo.scripted Demo.always_ok Demo.sensor_1920x1200
                                                      Demo.no_frame))
                              Demo.start)) = Some 0%nat)
    by (vm_compute; reflexivity).
  split; [exact Hcam|].
  destruct (set_roi_centres_offsets
              (Demo.scripted Demo.always_ok Demo.sensor_1920x1200 Demo.no_frame)
              (Demo.after (connect (Demo.scripted Demo.always_ok Demo.sensor_1920x1200 Demo.no_frame))
                          Demo.start)
              0%nat 640 640 Hcam)
    as [(w' & Hrun & Hcalls & _) _].
  - vm_compute. discriminate.
  - vm_compute. discriminate.
  - exists w'. split; [exact Hrun|]. rewrite Hcalls. vm_compute. reflexivity.
Defined.

(** ** Trigger configuration *)

(** C10. A mode string other than 'continuous', 'software' and 'hardware'
    makes [set_trigger_mode] raise [ValueError] with the camera object and the
    log of SDK calls exactly as they were: no parameter write reaches the
    device. *)
Theorem set_trigger_mode_unknown_mode sdk (w : World) (mode : string) :
  mode <> "continuous" -> mode <> "software" -> mode <> "hardware" ->
  set_trigger_mode sdk mode w = (Raise (ValueError (UnknownTriggerMode mode)), w) /\
  filter Log.is_write (calls (snd (set_trigger_mode sdk mode w))) =
  filter Log.is_write (calls w).
Proof.
  intros Hc Hs Hh.
  assert (Hrun : set_trigger_mode sdk mode w
                 = (Raise (ValueError (UnknownTriggerMode mode)), w)).
  { unfold set_trigger_mode.
    apply String.eqb_neq in Hc, Hs, Hh. rewrite Hc, Hs, Hh. reflexivity. }
  split; [exact Hrun|]. rewrite Hrun. reflexivity.
Qed.

Lemma set_trigger_mode_unknown_mode_witness :
  set_trigger_mode (Demo.scripted Demo.always_ok Demo.sensor_1920x1200 Demo.no_frame)
                   "external" Demo.start
  = (Raise (ValueError (UnknownTriggerMode "external")), Demo.start).
Proof.
  apply (set_trigger_mode_unknown_mode
           (Demo.scripted Demo.always_ok Demo.sensor_1920x1200 Demo.no_frame)
           Demo.start "external"); discriminate.
Defined.

(** C5 as stated fails: with the trigger mode set to continuous and the
    device streaming, [software_trigger] sends the command and returns
    [True]. *)
Lemma software_trigger_succeeds_in_continuous_mode :
  calls (Demo.streaming_world Demo.bayer8_sdk "continuous")
  = [MV_CC_EnumDevices 5;
     MV_CC_CreateHandle 0 Demo.device;
     MV_CC_OpenDevice 0 1 0;
     MV_CC_GetIntValue 0 "Width";
     MV_CC_GetIntValue 0 "Height";
     MV_CC_GetIntValue 0 "PayloadSize";
     MV_CC_GetEnumValue 0 "PixelFormat";
     MV_CC_SetEnumValue 0 "TriggerMode" 0;
     MV_CC_StartGrabbing 0] /\
  fst (software_trigger Demo.bayer8_sdk
                        (Demo.streaming_world Demo.bayer8_sdk "continuous")) = Ok true.
Proof.
  split; vm_compute; reflexivity.
Qed.

(** C5, amended.  [software_trigger] looks at no trigger mode (the camera
    object stores none): whenever an SDK object exists it sends the
    TriggerSoftware command and returns [True] exactly when the SDK reports
    status 0, [False] otherwise, without raising.  The only gate is in the
    acquisition loop, which sends the command only when the trigger argument
    is 'software': for any other argument a pass is the fetch, the saving and
    the pause, and nothing before them. *)
Theorem software_trigger_reports_sdk_status sdk host save_frame (w : World) (o : nat)
        (trigger : string) (timeout : Z) (interval : float) (count : Z) (i saved : nat) :
  cam (self w) = Some o ->
  let command := MV_CC_SetCommandValue o "TriggerSoftware" in
  let r := status sdk (log w) command in
  software_trigger sdk w
  = (Ok (r =? 0), mkWorld (self w) (log w ++ [(command, r)]) (fresh w)) /\
  (trigger <> "software" ->
   loop_body sdk host save_frame trigger timeout interval count i saved w
   = (frame <- get_frame sdk timeout ;;
      saved' <- match frame with
                | Some f => save_frame i f ;; ret (S saved)
                | None => ret saved
                end ;;
      (if (Z.of_nat i <? count - 1) && String.eqb trigger "continuous"
       then time_sleep host interval else ret tt) ;;
      ret saved') w).
Proof.
  intros Hcam command r. split.
  - unfold software_trigger, bind. rewrite (on_cam_some _ _ _ _ Hcam). reflexivity.
  - intros Hmode. unfold loop_body.
    apply String.eqb_neq in Hmode. rewrite Hmode. reflexivity.
Qed.

Lemma software_trigger_reports_sdk_status_witness :
  software_trigger Demo.nodata_sdk (Demo.streaming_world Demo.nodata_sdk "hardware")
  = (Ok true,
     mkWorld (self (Demo.streaming_world Demo.nodata_sdk "hardware"))
             (log (Demo.streaming_world Demo.nodata_sdk "hardware")
                  ++ [(MV_CC_SetCommandValue 0 "TriggerSoftware", 0)])
             1) /\
  calls (snd (loop_body Demo.nodata_sdk Demo.host (fun _ _ => ret tt) "hardware" 3000
                        1%float 10 0 0
                        (Demo.streaming_world Demo.nodata_sdk "hardware")))
  = calls (Demo.streaming_world Demo.nodata_sdk "hardware")
    ++ [MV_CC_GetOneFrameTimeout 0 4 3000].
Proof.
  assert (Hcam : cam (self (Demo.streaming_world Demo.nodata_sdk "hardware")) = Some 0%nat)
    by (vm_compute; reflexivity).
  destruct (software_trigger_reports_sdk_status
              Demo.nodata_sdk Demo.host (fun _ _ => ret tt)
              (Demo.streaming_world Demo.nodata_sdk "hardware")
              0%nat "hardware" 3000 1%float 10 0%nat 0%nat Hcam) as [Hrun Hloop].
  split.
  - rewrite Hrun. vm_compute. reflexivity.
  - rewrite Hloop by discriminate. vm_compute. reflexivity.
Defined.

(** ** Teardown *)

Lemma disconnect_none sdk (w : World) :
  cam (self w) = None -> disconnect sdk w = (Ok tt, w).
Proof.
  intros Hcam. unfold disconnect, bind, get_self. rewrite Hcam. reflexivity.
Qed.

Lemma disconnect_some sdk (w : World) (o : nat) :
  cam (self w) = Some o ->
  let r1 := status sdk (log w) (MV_CC_CloseDevice o) in
  let l1 := log w ++ [(MV_CC_CloseDevice o, r1)] in
  let r2 := status sdk l1 (MV_CC_DestroyHandle o) in
  disconnect sdk w
  = (Ok tt, mkWorld (set_cam None (self w)) (l1 ++ [(MV_CC_DestroyHandle o, r2)]) (fresh w)).
Proof.
  intros Hcam r1 l1 r2. unfold disconnect, bind at 1, get_self. rewrite Hcam.
  unfold bind at 1. rewrite (on_cam_some _ _ _ _ Hcam).
  unfold bind at 1. rewrite (on_cam_some _ _ _ o) by exact Hcam.
  reflexivity.
Qed.

Lemma repeat_call_fixed (m : M unit) (w : World) :
  m w = (Ok tt, w) -> forall n, repeat_call m n w = (Ok tt, w).
Proof.
  intros Hfix n. induction n as [|n IH]; [reflexivity|].
  cbn [repeat_call]. unfold bind. rewrite Hfix. exact IH.
Qed.

(** C7. [disconnect] never raises.  On a session without SDK object it
    changes nothing and calls nothing.  From any state one call leaves the
    session disconnected after at most one [MV_CC_CloseDevice] and one
    [MV_CC_DestroyHandle]; a further call is a no-op, so any number of calls
    in a row ends in the same world as the first. *)
Theorem disconnect_idempotent sdk (w : World) :
  let w1 := snd (disconnect sdk w) in
  disconnect sdk w = (Ok tt, w1) /\
  session_state w1 = Disconnected /\
  match cam (self w) with
  | None => w1 = w
  | Some o => exists r1 r2,
      log w1 = log w ++ [(MV_CC_CloseDevice o, r1); (MV_CC_DestroyHandle o, r2)]
  end /\
  (length (filter Log.is_destroy (calls w1))
   <= S (length (filter Log.is_destroy (calls w))))%nat /\
  disconnect sdk w1 = (Ok tt, w1) /\
  forall n, repeat_call (disconnect sdk) (S n) w = (Ok tt, w1).
Proof.
  intros w1. subst w1.
  destruct (cam (self w)) as [o|] eqn:Hcam.
  - rewrite (disconnect_some _ _ _ Hcam). cbn [snd].
    set (w1 := mkWorld _ _ _).
    assert (Hnone : cam (self w1) = None) by reflexivity.
    assert (Hfix : disconnect sdk w1 = (Ok tt, w1)) by (apply disconnect_none, Hnone).
    split; [reflexivity|split; [|split; [|split; [|split]]]].
    + unfold session_state. rewrite Hnone. reflexivity.
    + eexists _, _. subst w1. cbn [log]. rewrite <- app_assoc. reflexivity.
    + subst w1. rewrite <- app_assoc, calls_app, filter_app, length_app.
      cbn. lia.
    + exact Hfix.
    + intros n. cbn [repeat_call]. unfold bind.
      rewrite (disconnect_some _ _ _ Hcam). fold w1.
      apply repeat_call_fixed, Hfix.
  - rewrite (disconnect_none _ _ Hcam). cbn [snd].
    split; [reflexivity|split; [|split; [|split; [|split]]]].
    + unfold session_state. rewrite Hcam. reflexivity.
    + reflexivity.
    + lia.
    + apply disconnect_none, Hcam.
    + intros n. cbn [repeat_call]. unfold bind. rewrite (disconnect_none _ _ Hcam).
      apply repeat_call_fixed, disconnect_none, Hcam.
Qed.

(** ** Connecting *)

Lemma handles_held_last (l : list Event) (e : Event) :
  Log.handles_held (l ++ [e]) = Log.handle_step (Log.handles_held l) e.
Proof. unfold Log.handles_held. rewrite fold_left_app. reflexivity. Qed.

Lemma handles_held_app (l new : list Event) :
  Log.handles_held (l ++ new) = fold_left Log.handle_step new (Log.handles_held l).
Proof. unfold Log.handles_held. apply fold_left_app. Qed.

Lemma remove_only (o : nat) : remove Nat.eq_dec o [o] = [].
Proof. cbn. destruct (Nat.eq_dec o o) as [_|Hne]; [reflexivity | contradiction]. Qed.

(** One SDK call inside a run [H]: step over it and forget which status the
    oracle gave, keeping the term small. *)
Ltac sdk_step H o sdk :=
  unfold bind at 1 in H;
  first [ rewrite (on_cam_some sdk _ _ o) in H by reflexivity
        | rewrite (read_value_some sdk _ _ o) in H by reflexivity ];
  cbn [self log fresh] in H;
  match type of H with
  | context [status sdk ?h ?c] =>
      let r := fresh "r" in
      let E := fresh "E" in
      remember (status sdk h c) as r eqn:E; clear E
  end.

Ltac update_step H :=
  unfold bind at 1, update at 1 in H; cbn [self log fresh] in H.

(** The four ways [connect] can end, with the SDK calls each one makes. *)
Lemma connect_outcome sdk (w : World) (res : result unit) (w' : World) :
  connect sdk w = (res, w') ->
  exists new,
    log w' = log w ++ new /\
    ((res = Raise (RuntimeError CameraNotFound) /\
      exists r0, new = [(MV_CC_EnumDevices 5, r0)]) \/
     (exists dev r0 rc,
         rc <> 0 /\
         res = Raise (RuntimeError (CreateHandleFailed rc)) /\
         new = [(MV_CC_EnumDevices 5, r0); (MV_CC_CreateHandle (fresh w) dev, rc)]) \/
     (exists dev r0 ro rd,
         ro <> 0 /\
         res = Raise (RuntimeError (OpenDeviceFailed ro)) /\
         new = [(MV_CC_EnumDevices 5, r0);
                (MV_CC_CreateHandle (fresh w) dev, 0);
                (MV_CC_OpenDevice (fresh w) MV_ACCESS_Exclusive 0, ro);
                (MV_CC_DestroyHandle (fresh w), rd)]) \/
     (exists dev r0 rest,
         res = Ok tt /\
         new = (MV_CC_EnumDevices 5, r0)
               :: (MV_CC_CreateHandle (fresh w) dev, 0)
               :: (MV_CC_OpenDevice (fresh w) MV_ACCESS_Exclusive 0, 0)
               :: rest /\
         forallb (fun e => Log.is_parameter_access (fst e)) rest = true)).
Proof.
  destruct w as [me l f]. intros Hrun. cbn [log fresh].
  unfold connect, bind at 1, get_self in Hrun. cbn [self] in Hrun.
  unfold bind at 1, _find_camera_by_ip, invoke in Hrun. cbn [self log fresh snd] in Hrun.
  remember (status sdk l (MV_CC_EnumDevices (N.lor MV_GIGE_DEVICE MV_USB_DEVICE)))
    as r0 eqn:E; clear E.
  update_step Hrun.
  destruct (scan_devices (camera_ip me) (devices sdk l)) as [dev|].
  2:{ inversion Hrun; subst. eexists. split; [reflexivity|].
      left. split; [reflexivity|]. eexists. reflexivity. }
  unfold bind at 1, MvCamera in Hrun. cbn [self log fresh] in Hrun.
  update_step Hrun.
  sdk_step Hrun f sdk.
  destruct (r =? 0) eqn:Hrc; cbn [negb] in Hrun.
  2:{ apply Z.eqb_neq in Hrc. inversion Hrun; subst. eexists. split.
      - rewrite <- app_assoc. reflexivity.
      - right. left. eexists dev, _, _. split; [exact Hrc|split; reflexivity]. }
  apply Z.eqb_eq in Hrc. subst r.
  sdk_step Hrun f sdk.
  destruct (r =? 0) eqn:Hro; cbn [negb] in Hrun.
  2:{ apply Z.eqb_neq in Hro. sdk_step Hrun f sdk.
      inversion Hrun; subst. eexists. split.
      - repeat rewrite <- app_assoc. reflexivity.
      - right. right. left. eexists dev, _, _, _.
        split; [exact Hro|split; reflexivity]. }
  apply Z.eqb_eq in Hro. subst r.
  sdk_step Hrun f sdk. sdk_step Hrun f sdk. sdk_step Hrun f sdk. sdk_step Hrun f sdk.
  update_step Hrun. update_step Hrun. update_step Hrun. update_step Hrun.
  match type of Hrun with context [negb (?p =? BAYER_RG8)] =>
    destruct (p =? BAYER_RG8) end; cbn [negb] in Hrun.
  2:{ sdk_step Hrun f sdk.
      match type of Hrun with context [if ?c =? 0 then _ else _] =>
        destruct (c =? 0) end.
      - update_step Hrun. sdk_step Hrun f sdk.
        inversion Hrun; subst. eexists. split.
        + repeat rewrite <- app_assoc. reflexivity.
        + right. right. right. eexists dev, _, _.
          split; [reflexivity|]. split; reflexivity.
      - inversion Hrun; subst. eexists. split.
        + repeat rewrite <- app_assoc. reflexivity.
        + right. right. right. eexists dev, _, _.
          split; [reflexivity|]. split; reflexivity. }
  inversion Hrun; subst. eexists. split.
  - repeat rewrite <- app_assoc. reflexivity.
  - right. right. right. eexists dev, _, _.
    split; [reflexivity|]. split; reflexivity.
Qed.

(** C6. Starting from a session that holds no handle, whenever [connect]
    raises, no handle is held afterwards.  In particular, if the handle was
    created (status 0) and opening the device then failed (non-zero status),
    the very next SDK call is [MV_CC_DestroyHandle] on that object, it is the
    last call, and only then is the error for the failed open raised. *)
Theorem connect_failure_releases_handle sdk (w : World) (res : result unit) (w' : World) :
  Log.handles_held (log w) = [] ->
  connect sdk w = (res, w') ->
  exists new,
    log w' = log w ++ new /\
    (raises res = true -> Log.handles_held (log w') = []) /\
    (forall o dev access key r,
        In (MV_CC_CreateHandle o dev, 0) new ->
        In (MV_CC_OpenDevice o access key, r) new ->
        r <> 0 ->
        res = Raise (RuntimeError (OpenDeviceFailed r)) /\
        exists before rd,
          new = before ++ [(MV_CC_OpenDevice o access key, r);
                           (MV_CC_DestroyHandle o, rd)]).
Proof.
  intros Hheld Hrun.
  destruct (connect_outcome _ _ _ _ Hrun) as (new & Hlog & Hcases).
  exists new. split; [exact Hlog|].
  rewrite Hlog, handles_held_app, Hheld.
  destruct Hcases as [(Hres & r0 & Hnew)
                     |[(dev & r0 & rc & Hrc & Hres & Hnew)
                      |[(dev & r0 & ro & rd & Hro & Hres & Hnew)
                       |(dev & r0 & rest & Hres & Hnew & Hrest)]]];
    subst new res.
  - split; [reflexivity|].
    intros o dev access key r _ [Hin|[]] _. discriminate Hin.
  - split.
    + intros _. cbn. apply Z.eqb_neq in Hrc. rewrite Hrc. reflexivity.
    + intros o d access key r _ [Hin|[Hin|[]]] _; discriminate Hin.
  - split.
    + intros _. cbn [fold_left Log.handle_step]. cbn [Z.eqb]. apply remove_only.
    + intros o d access key r _ [Hin|[Hin|[Hin|[Hin|[]]]]] _; try discriminate Hin.
      injection Hin as <- <- <- <-. split; [reflexivity|].
      exists [(MV_CC_EnumDevices 5, r0); (MV_CC_CreateHandle (fresh w) dev, 0)], rd.
      reflexivity.
  - split; [discriminate|].
    intros o d access key r _ [Hin|[Hin|[Hin|Hin]]] Hr; try discriminate Hin.
    + injection Hin as _ _ _ <-. contradiction.
    + rewrite forallb_forall in Hrest. specialize (Hrest _ Hin). discriminate Hrest.
Qed.

Lemma connect_failure_releases_handle_witness :
  connect Demo.open_fails_sdk Demo.start
  = (Raise (RuntimeError (OpenDeviceFailed 0x80000203)),
     Demo.after (connect Demo.open_fails_sdk) Demo.start) /\
  Log.handles_held (log (Demo.after (connect Demo.open_fails_sdk) Demo.start)) = [] /\
  exists before rd,
    log (Demo.after (connect Demo.open_fails_sdk) Demo.start)
    = before ++ [(MV_CC_OpenDevice 0 1 0, 0x80000203); (MV_CC_DestroyHandle 0, rd)].
Proof.
  assert (Hheld0 : Log.handles_held (log Demo.start) = []) by reflexivity.
  assert (Hrun : connect Demo.open_fails_sdk Demo.start
                 = (Raise (RuntimeError (OpenDeviceFailed 0x80000203)),
                    Demo.after (connect Demo.open_fails_sdk) Demo.start))
    by (vm_compute; reflexivity).
  destruct (connect_failure_releases_handle _ _ _ _ Hheld0 Hrun)
    as (new & Hlog & Hheld & Hopen).
  split; [exact Hrun|]. split; [exact (Hheld eq_refl)|].
  vm_compute in Hlog. subst new.
  destruct (Hopen 0%nat Demo.device 1%N 0%N 0x80000203) as (_ & before & rd & Hnew).
  - right. left. reflexivity.
  - right. right. left. reflexivity.
  - discriminate.
  - exists before, rd. rewrite <- Hnew. vm_compute. reflexivity.
Defined.

(** ** Fetching and decoding a frame *)

Lemma grabbing_last (l : list Event) (e : Event) :
  Log.grabbing (l ++ [e]) = Log.grabbing_step (Log.grabbing l) e.
Proof. unfold Log.grabbing. rewrite fold_left_app. reflexivity. Qed.

Lemma overwrite_length (buf written : list N) :
  length (overwrite buf written) = length buf.
Proof.
  unfold overwrite. rewrite length_firstn, length_app, length_skipn. lia.
Qed.

Lemma streaming_fields (w : World) :
  session_state w = Streaming ->
  Log.grabbing (log w) = true /\
  exists o buf fi,
    cam (self w) = Some o /\ pData (self w) = Some buf /\ stFrameInfo (self w) = Some fi.
Proof.
  unfold session_state.
  destruct (cam (self w)) as [o|]; [|discriminate].
  destruct (Log.grabbing (log w)); [|discriminate].
  destruct (pData (self w)) as [buf|]; [|discriminate].
  destruct (stFrameInfo (self w)) as [fi|]; [|discriminate].
  intros _. split; [reflexivity|]. exists o, buf, fi. repeat split.
Qed.

(** What one call of [get_frame] does on a session whose buffers exist: one
    fetch, the buffer and the frame header refreshed from the SDK's reply,
    and then either [None] (non-zero status) or the decoder's verdict. *)
Lemma get_frame_run sdk (timeout : Z) (w : World) (o : nat) (buf : list N)
      (fi : MV_FRAME_OUT_INFO_EX) :
  cam (self w) = Some o ->
  pData (self w) = Some buf ->
  stFrameInfo (self w) = Some fi ->
  let fetch := MV_CC_GetOneFrameTimeout o (payload_size (self w)) timeout in
  let r := status sdk (log w) fetch in
  let reply := frame sdk (log w) in
  let buf' := overwrite buf (data reply) in
  get_frame sdk timeout w
  = (if negb (r =? 0) then Ok None
     else decode buf' (nHeight (info reply)) (nWidth (info reply))
                 (enPixelType (info reply)),
     mkWorld (set_stFrameInfo (Some (info reply))
               (set_pData (Some buf')
                 (set_stFrameInfo
                    (Some {| nWidth := 0; nHeight := 0; enPixelType := 0 |}) (self w))))
             (log w ++ [(fetch, r)]) (fresh w)).
Proof.
  destruct w as [me l f]. destruct me. cbn [self log fresh cam pData stFrameInfo payload_size].
  intros -> -> ->. cbv zeta.
  unfold get_frame, bind at 1, get_self. cbn [self stFrameInfo].
  unfold bind at 1, update at 1. cbn [self log fresh cam pData set_stFrameInfo].
  unfold bind at 1. rewrite (on_cam_some sdk _ _ o) by reflexivity.
  cbn [self log fresh payload_size set_stFrameInfo].
  unfold bind, update, lift, ret. cbn [self log fresh].
  destruct (negb (status sdk l (MV_CC_GetOneFrameTimeout o payload_size0 timeout) =? 0));
    reflexivity.
Qed.

(** After a fetch the session is as ready as before: same SDK object,
    a buffer of the same length, the same payload size, still grabbing. *)
Lemma get_frame_keeps_streaming sdk (timeout : Z) (w : World) (o : nat) :
  session_state w = Streaming ->
  cam (self w) = Some o ->
  session_state (snd (get_frame sdk timeout w)) = Streaming /\
  cam (self (snd (get_frame sdk timeout w))) = Some o /\
  payload_size (self (snd (get_frame sdk timeout w))) = payload_size (self w) /\
  calls (snd (get_frame sdk timeout w))
  = calls w ++ [MV_CC_GetOneFrameTimeout o (payload_size (self w)) timeout].
Proof.
  intros Hs Hcam.
  destruct (streaming_fields _ Hs) as (Hgrab & o' & buf & fi & Hcam' & Hbuf & Hfi).
  rewrite Hcam in Hcam'. injection Hcam' as <-.
  rewrite (get_frame_run sdk timeout w o buf fi Hcam Hbuf Hfi). cbn [snd].
  split; [|split; [|split]].
  - unfold session_state. cbn [self log]. rewrite grabbing_last, Hgrab.
    destruct w as [me l f]. destruct me. cbn in Hcam. subst. reflexivity.
  - destruct w as [me l f]. destruct me. exact Hcam.
  - destruct w as [me l f]. destruct me. reflexivity.
  - unfold calls. cbn [log]. rewrite map_app. reflexivity.
Qed.

Lemma decode_unlisted (buf : list N) (h w tag : N) :
  existsb (N.eqb tag) listed_formats = false -> decode buf h w tag = Ok None.
Proof.
  intros Hun. cbn [existsb listed_formats] in Hun.
  repeat (apply orb_false_elim in Hun; destruct Hun as [? Hun]).
  unfold decode. cbn [existsb].
  repeat match goal with H : (tag =? _)%N = false |- _ => rewrite H; clear H end.
  reflexivity.
Qed.

(** The decoder raises only for a listed format, and then only what numpy's
    [frombuffer] and [reshape] or OpenCV's [cvtColor] raise. *)
Lemma decode_raises (buf : list N) (h w tag : N) (e : exn) :
  decode buf h w tag = Raise e ->
  existsb (N.eqb tag) listed_formats = true /\
  (e = ValueError BufferTooSmall \/ e = ValueError CannotReshape \/ e = cv2_error).
Proof.
  intros Hdec. split.
  - destruct (existsb (N.eqb tag) listed_formats) eqn:Hl; [reflexivity|].
    rewrite (decode_unlisted _ _ _ _ Hl) in Hdec. discriminate.
  - unfold decode, np.frombuffer_uint8, np.reshape, np.view_uint16, np.as_array,
      cv2.cvtColor, to_8bit, np.astype_uint8, np.rshift in Hdec.
    cbn [np.dt np.items np.shape] in Hdec.
    repeat match type of Hdec with
           | context [if ?c then _ else _] => destruct c
           | context [match ?l with [] => _ | _ :: _ => _ end] => destruct l
           end;
      cbn [np.dt np.items np.shape] in Hdec;
      try discriminate; injection Hdec as <-; auto.
Qed.

(** C3 as stated fails: when no frame arrives and the fetch returns
    MV_E_NODATA, [get_frame] raises nothing and returns the plain [None] that
    it also returns for a frame in an unlisted pixel format; the caller cannot
    tell a timeout from the value it gets. *)
Lemma timeout_is_reported_as_none :
  session_state (Demo.streaming_world Demo.nodata_sdk "continuous") = Streaming /\
  fst (get_frame Demo.nodata_sdk 3000
                 (Demo.streaming_world Demo.nodata_sdk "continuous")) = Ok None /\
  fst (get_frame Demo.unlisted_format_sdk 3000
                 (Demo.streaming_world Demo.unlisted_format_sdk "continuous"))
  = fst (get_frame Demo.nodata_sdk 3000
                   (Demo.streaming_world Demo.nodata_sdk "continuous")).
Proof.
  split; [|split]; vm_compute; reflexivity.
Qed.

(** C3, amended.  For every timeout value, a [get_frame] call on a streaming
    session whose fetch returns a non-zero status (as it does when no frame
    arrives in time) returns [None] without raising; it makes exactly one
    SDK call, the fetch, and leaves the session streaming with its SDK object
    and payload size, so that the next [get_frame] call goes straight to the
    next fetch. *)
Theorem get_frame_fetch_failure sdk (timeout : Z) (w : World) (o : nat) :
  session_state w = Streaming ->
  cam (self w) = Some o ->
  status sdk (log w) (MV_CC_GetOneFrameTimeout o (payload_size (self w)) timeout) <> 0 ->
  exists w',
    get_frame sdk timeout w = (Ok None, w') /\
    calls w' = calls w ++ [MV_CC_GetOneFrameTimeout o (payload_size (self w)) timeout] /\
    session_state w' = Streaming /\
    forall timeout',
      calls (snd (get_frame sdk timeout' w'))
      = calls w' ++ [MV_CC_GetOneFrameTimeout o (payload_size (self w)) timeout'].
Proof.
  intros Hs Hcam Hr.
  destruct (get_frame_keeps_streaming sdk timeout w o Hs Hcam)
    as (Hs' & Hcam' & Hsize & Hcalls).
  destruct (streaming_fields _ Hs) as (_ & o' & buf & fi & Hcam0 & Hbuf & Hfi).
  rewrite Hcam in Hcam0. injection Hcam0 as <-.
  exists (snd (get_frame sdk timeout w)).
  split; [|split; [exact Hcalls|split; [exact Hs'|]]].
  - rewrite (get_frame_run sdk timeout w o buf fi Hcam Hbuf Hfi).
    apply Z.eqb_neq in Hr. rewrite Hr. reflexivity.
  - intros timeout'.
    destruct (get_frame_keeps_streaming sdk timeout' _ o Hs' Hcam') as (_ & _ & _ & Hnext).
    rewrite Hnext, Hsize. reflexivity.
Qed.

Lemma get_frame_fetch_failure_witness :
  exists w',
    get_frame Demo.nodata_sdk 5000 (Demo.streaming_world Demo.nodata_sdk "hardware")
    = (Ok None, w') /\
    session_state w' = Streaming /\
    skipn 11 (calls (snd (get_frame Demo.nodata_sdk 5000 w')))
    = [MV_CC_GetOneFrameTimeout 0 4 5000; MV_CC_GetOneFrameTimeout 0 4 5000].
Proof.
  assert (Hs : session_state (Demo.streaming_world Demo.nodata_sdk "hardware") = Streaming)
    by (vm_compute; reflexivity).
  assert (Hcam : cam (self (Demo.streaming_world Demo.nodata_sdk "hardware")) = Some 0%nat)
    by (vm_compute; reflexivity).
  destruct (get_frame_fetch_failure
              Demo.nodata_sdk 5000 (Demo.streaming_world Demo.nodata_sdk "hardware") 0%nat
              Hs Hcam)
    as (w' & Hrun & Hcalls & Hs' & Hnext).
  - vm_compute. discriminate.
  - exists w'. split; [exact Hrun|]. split; [exact Hs'|].
    rewrite (Hnext 5000), Hcalls. vm_compute. reflexivity.
Defined.

(** C4 as stated fails: for a frame tagged BayerGR8 (0x01080008), which the
    decoder does not list, [get_frame] does not fail with an error of its
    own: it returns [None], the very value it returns when the fetch failed,
    and a pass of the acquisition loop ends exactly as it does after a
    timeout. *)
Lemma unlisted_format_is_reported_as_none :
  existsb (N.eqb 0x01080008) listed_formats = false /\
  get_frame Demo.unlisted_format_sdk 3000
            (Demo.streaming_world Demo.unlisted_format_sdk "continuous")
  = (Ok None,
     Demo.after (get_frame Demo.unlisted_format_sdk 3000)
                (Demo.streaming_world Demo.unlisted_format_sdk "continuous")) /\
  fst (loop_body Demo.unlisted_format_sdk Demo.host (fun _ _ => ret tt) "continuous" 3000
                 0.5%float 10 0 0
                 (Demo.streaming_world Demo.unlisted_format_sdk "continuous"))
  = fst (loop_body Demo.nodata_sdk Demo.host (fun _ _ => ret tt) "continuous" 3000
                   0.5%float 10 0 0
                   (Demo.streaming_world Demo.nodata_sdk "continuous")).
Proof.
  split; [|split]; vm_compute; reflexivity.
Qed.

(** C4, amended.  For every frame fetched with status 0 whose pixel-type code
    is not one of the listed codes, [get_frame] on a streaming session returns
    [None]: it raises nothing and returns no image, and the session stays
    streaming.  The pass of the acquisition loop that received the frame
    saves nothing and keeps [saved_count]; what is left of it is the pause
    of continuous mode, and when that pause returns (or the pass has none)
    the pass ends normally and the loop goes on with the next index. *)
Theorem get_frame_unlisted_format sdk host save_frame (timeout : Z) (interval : float)
        (count : Z) (w : World) (o : nat) (trigger : string) (n i saved : nat) :
  session_state w = Streaming ->
  cam (self w) = Some o ->
  status sdk (log w) (MV_CC_GetOneFrameTimeout o (payload_size (self w)) timeout) = 0 ->
  existsb (N.eqb (enPixelType (info (frame sdk (log w))))) listed_formats = false ->
  (trigger = "continuous" -> Z.of_nat i < count - 1 ->
   forall w0, time_sleep host interval w0 = (Ok tt, w0)) ->
  exists w',
    get_frame sdk timeout w = (Ok None, w') /\
    session_state w' = Streaming /\
    (trigger <> "software" ->
     loop_body sdk host save_frame trigger timeout interval count i saved w
     = (Ok saved, w') /\
     acquisition_loop sdk host save_frame trigger timeout interval count (S n) i saved w
     = acquisition_loop sdk host save_frame trigger timeout interval count n (S i) saved w') /\
    (forall w0,
        snd (software_trigger sdk w0) = w ->
        cam (self w0) = Some o ->
        loop_body sdk host save_frame "software" timeout interval count i saved w0
        = (Ok saved, w') /\
        acquisition_loop sdk host save_frame "software" timeout interval count (S n) i saved w0
        = acquisition_loop sdk host save_frame "software" timeout interval count n (S i)
                           saved w').
Proof.
  intros Hs Hcam Hr Htag Hpause.
  destruct (get_frame_keeps_streaming sdk timeout w o Hs Hcam) as (Hs' & _).
  destruct (streaming_fields _ Hs) as (_ & o' & buf & fi & Hcam0 & Hbuf & Hfi).
  rewrite Hcam in Hcam0. injection Hcam0 as <-.
  assert (Hrun : get_frame sdk timeout w = (Ok None, snd (get_frame sdk timeout w))).
  { rewrite (get_frame_run sdk timeout w o buf fi Hcam Hbuf Hfi).
    rewrite Hr. cbn [Z.eqb negb snd]. rewrite (decode_unlisted _ _ _ _ Htag). reflexivity. }
  exists (snd (get_frame sdk timeout w)).
  split; [exact Hrun|]. split; [exact Hs'|]. split.
  - intros Hmode. apply String.eqb_neq in Hmode.
    assert (Hbody : loop_body sdk host save_frame trigger timeout interval count i saved w
                    = (Ok saved, snd (get_frame sdk timeout w))).
    { unfold loop_body. rewrite Hmode. unfold bind at 1, ret at 1.
      unfold bind at 1. rewrite Hrun. unfold bind at 1, ret at 1.
      unfold bind at 1.
      destruct ((Z.of_nat i <? count - 1) && String.eqb trigger "continuous") eqn:Hsleep.
      - apply andb_true_iff in Hsleep. destruct Hsleep as [Hi Hcont].
        apply Z.ltb_lt in Hi. apply String.eqb_eq in Hcont.
        rewrite (Hpause Hcont Hi). reflexivity.
      - reflexivity. }
    split; [exact Hbody|].
    cbn [acquisition_loop]. unfold bind at 1. rewrite Hbody. reflexivity.
  - intros w0 Hw0 Hcam0.
    assert (Hbody : loop_body sdk host save_frame "software" timeout interval count i saved w0
                    = (Ok saved, snd (get_frame sdk timeout w))).
    { unfold loop_body. cbn [String.eqb Ascii.eqb Bool.eqb].
      rewrite andb_false_r.
      unfold bind at 1, bind at 1.
      destruct (software_trigger sdk w0) as [res w1] eqn:Htrig.
      cbn [snd] in Hw0. subst w1.
      assert (Hok : exists b, res = Ok b).
      { unfold software_trigger, bind in Htrig.
        rewrite (on_cam_some _ _ _ _ Hcam0) in Htrig.
        injection Htrig as <- _. eexists. reflexivity. }
      destruct Hok as [b ->]. unfold ret at 1.
      unfold bind at 1. rewrite Hrun. reflexivity. }
    split; [exact Hbody|].
    cbn [acquisition_loop]. unfold bind at 1. rewrite Hbody. reflexivity.
Qed.

Lemma get_frame_unlisted_format_witness :
  exists w',
    get_frame Demo.unlisted_format_sdk 3000
              (Demo.after (software_trigger Demo.unlisted_format_sdk)
                          (Demo.streaming_world Demo.unlisted_format_sdk "software"))
    = (Ok None, w') /\
    loop_body Demo.unlisted_format_sdk Demo.host (fun _ _ => ret tt) "software" 3000
              0.5%float 3 0 0
              (Demo.streaming_world Demo.unlisted_format_sdk "software")
    = (Ok 0%nat, w') /\
    fst (acquisition_loop Demo.unlisted_format_sdk Demo.host (fun _ _ => ret tt)
                          "continuous" 3000 0.5%float 3 3 0 0
                          (Demo.streaming_world Demo.unlisted_format_sdk "continuous"))
    = Ok 0%nat /\
    loop_body Demo.unlisted_format_sdk Demo.host (fun _ _ => ret tt) "continuous" 3000
              0.5%float 3 0 0
              (Demo.after (software_trigger Demo.unlisted_format_sdk)
                          (Demo.streaming_world Demo.unlisted_format_sdk "software"))
    = (Ok 0%nat, w').
Proof.
  assert (Hs : session_state
                 (Demo.after (software_trigger Demo.unlisted_format_sdk)
                             (Demo.streaming_world Demo.unlisted_format_sdk "software"))
               = Streaming) by (vm_compute; reflexivity).
  assert (Hcam : cam (self (Demo.after (software_trigger Demo.unlisted_format_sdk)
                                       (Demo.streaming_world Demo.unlisted_format_sdk
                                                             "software")))
                 = Some 0%nat) by (vm_compute; reflexivity).
  assert (Hcam0 : cam (self (Demo.streaming_world Demo.unlisted_format_sdk "software"))
                  = Some 0%nat) by (vm_compute; reflexivity).
  assert (Hpause : forall w0, time_sleep Demo.host 0.5%float w0 = (Ok tt, w0))
    by (intros w0; reflexivity).
  destruct (get_frame_unlisted_format
              Demo.unlisted_format_sdk Demo.host (fun _ _ => ret tt) 3000 0.5%float 3
              (Demo.after (software_trigger Demo.unlisted_format_sdk)
                          (Demo.streaming_world Demo.unlisted_format_sdk "software"))
              0%nat "continuous" 2%nat 0%nat 0%nat Hs Hcam)
    as (w' & Hrun & _ & Hother & Hsoft).
  - vm_compute. reflexivity.
  - vm_compute. reflexivity.
  - intros _ _. exact Hpause.
  - destruct (Hsoft (Demo.streaming_world Demo.unlisted_format_sdk "software"))
      as [Hbody Hloop]; [unfold Demo.after; reflexivity | exact Hcam0 |].
    destruct Hother as [Hbody' _]; [discriminate|].
    exists w'. split; [exact Hrun|]. split; [exact Hbody|].
    split; [|exact Hbody']. vm_compute. reflexivity.
Defined.

(** C9 as stated fails: a BayerRG12Packed camera that refused the switch to
    BayerRG8 delivers six bytes for a 2 x 2 frame; the fetch succeeds, the
    format is listed, and [get_frame] lets numpy's [ValueError] from
    [reshape] reach the caller. *)
Lemma get_frame_raises_on_packed_frame :
  session_state (Demo.streaming_world Demo.packed12_sdk "continuous") = Streaming /\
  pData (self (Demo.streaming_world Demo.packed12_sdk "continuous"))
  = Some [0; 0; 0; 0; 0; 0]%N /\
  fst (get_frame Demo.packed12_sdk 3000
                 (Demo.streaming_world Demo.packed12_sdk "continuous"))
  = Raise (ValueError CannotReshape).
Proof.
  split; [|split]; vm_compute; reflexivity.
Qed.

(** C9, amended.  On a streaming session, for every fetch status and every
    pixel-type code, [get_frame] returns an image, returns [None], or raises
    one of the errors of the decoding step (numpy's [ValueError] from
    [frombuffer] or [reshape], or OpenCV's error from [cvtColor]), the last
    only for a listed code fetched with status 0.  A failed fetch and an
    unlisted code both give the same [None].  A BayerRG8 frame that is not
    empty and fits the buffer gives an image. *)
Theorem get_frame_outcomes sdk (timeout : Z) (w : World) (o : nat) :
  session_state w = Streaming ->
  cam (self w) = Some o ->
  let r := status sdk (log w)
                  (MV_CC_GetOneFrameTimeout o (payload_size (self w)) timeout) in
  let reply := info (frame sdk (log w)) in
  let res := fst (get_frame sdk timeout w) in
  (r <> 0 -> res = Ok None) /\
  (r = 0 -> existsb (N.eqb (enPixelType reply)) listed_formats = false -> res = Ok None) /\
  (r = 0 -> enPixelType reply = 0x01080009%N ->
   forall buf, pData (self w) = Some buf ->
   (0 < nHeight reply * nWidth reply <= N.of_nat (length buf))%N ->
   exists flat,
     res = Ok (Some (cv2.converted cv2.COLOR_BAYER_RG2BGR
                       (np.mk_ndarray np.uint8 [nHeight reply; nWidth reply] flat)))) /\
  (forall e, res = Raise e ->
             r = 0 /\
             existsb (N.eqb (enPixelType reply)) listed_formats = true /\
             (e = ValueError BufferTooSmall \/ e = ValueError CannotReshape \/
              e = cv2_error)).
Proof.
  intros Hs Hcam r reply res.
  destruct (streaming_fields _ Hs) as (_ & o' & buf & fi & Hcam0 & Hbuf & Hfi).
  rewrite Hcam in Hcam0. injection Hcam0 as <-.
  subst res. rewrite (get_frame_run sdk timeout w o buf fi Hcam Hbuf Hfi).
  fold r. cbn [fst]. split; [|split; [|split]].
  - intros Hr. apply Z.eqb_neq in Hr. rewrite Hr. reflexivity.
  - intros Hr Htag. rewrite Hr. cbn [Z.eqb negb]. apply decode_unlisted, Htag.
  - intros Hr Htag buf0 Hbuf0 Hfit. rewrite Hbuf in Hbuf0. injection Hbuf0 as <-.
    rewrite Hr. cbn [Z.eqb negb]. fold reply. rewrite Htag.
    unfold decode. cbn [N.eqb Pos.eqb].
    unfold np.frombuffer_uint8. rewrite overwrite_length.
    destruct (N.ltb_spec (N.of_nat (length buf)) (nHeight reply * nWidth reply)) as [Hlt|Hge];
      [lia|].
    unfold np.reshape. cbn [np.items np.dt np.numel fold_right].
    rewrite length_firstn, overwrite_length.
    replace (N.of_nat (Nat.min (N.to_nat (nHeight reply * nWidth reply)) (length buf)))
      with (nHeight reply * (nWidth reply * 1))%N by lia.
    rewrite N.eqb_refl. unfold cv2.cvtColor. cbn [np.dt np.shape np.numel fold_right].
    destruct (N.eqb_spec (nHeight reply * (nWidth reply * 1)) 0) as [Hz|Hnz]; [lia|].
    eexists. reflexivity.
  - intros e He.
    destruct (r =? 0) eqn:Hr; cbn [negb] in He; [|discriminate].
    apply Z.eqb_eq in Hr. split; [exact Hr|].
    apply (decode_raises _ _ _ _ _ He).
Qed.

Lemma get_frame_outcomes_witness :
  fst (get_frame Demo.nodata_sdk 3000 (Demo.streaming_world Demo.nodata_sdk "continuous"))
  = Ok None /\
  fst (get_frame Demo.unlisted_format_sdk 3000
                 (Demo.streaming_world Demo.unlisted_format_sdk "continuous"))
  = Ok None /\
  (exists flat,
      fst (get_frame Demo.bayer8_sdk 3000 (Demo.streaming_world Demo.bayer8_sdk "continuous"))
      = Ok (Some (cv2.converted cv2.COLOR_BAYER_RG2BGR
                    (np.mk_ndarray np.uint8 [2; 2]%N flat)))) /\
  existsb (N.eqb 0x010C002B) listed_formats = true.
Proof.
  assert (Hs1 : session_state (Demo.streaming_world Demo.nodata_sdk "continuous") = Streaming)
    by (vm_compute; reflexivity).
  assert (Hc1 : cam (self (Demo.streaming_world Demo.nodata_sdk "continuous")) = Some 0%nat)
    by (vm_compute; reflexivity).
  assert (Hs2 : session_state (Demo.streaming_world Demo.unlisted_format_sdk "continuous")
                = Streaming) by (vm_compute; reflexivity).
  assert (Hc2 : cam (self (Demo.streaming_world Demo.unlisted_format_sdk "continuous"))
                = Some 0%nat) by (vm_compute; reflexivity).
  assert (Hs3 : session_state (Demo.streaming_world Demo.bayer8_sdk "continuous") = Streaming)
    by (vm_compute; reflexivity).
  assert (Hc3 : cam (self (Demo.streaming_world Demo.bayer8_sdk "continuous")) = Some 0%nat)
    by (vm_compute; reflexivity).
  assert (Hs4 : session_state (Demo.streaming_world Demo.packed12_sdk "continuous") = Streaming)
    by (vm_compute; reflexivity).
  assert (Hc4 : cam (self (Demo.streaming_world Demo.packed12_sdk "continuous")) = Some 0%nat)
    by (vm_compute; reflexivity).
  split; [|split; [|split]].
  - apply (proj1 (get_frame_outcomes Demo.nodata_sdk 3000 _ 0%nat Hs1 Hc1)).
    vm_compute. discriminate.
  - apply (proj1 (proj2 (get_frame_outcomes Demo.unlisted_format_sdk 3000 _ 0%nat Hs2 Hc2)));
      vm_compute; reflexivity.
  - apply (proj1 (proj2 (proj2
             (get_frame_outcomes Demo.bayer8_sdk 3000 _ 0%nat Hs3 Hc3)))
             ltac:(vm_compute; reflexivity) ltac:(vm_compute; reflexivity)
             [0; 0; 0; 0]%N ltac:(vm_compute; reflexivity)).
    vm_compute. split; [reflexivity | discriminate].
  - destruct (proj2 (proj2 (proj2
                (get_frame_outcomes Demo.packed12_sdk 3000 _ 0%nat Hs4 Hc4)))
                (ValueError CannotReshape)) as (_ & Hlisted & _).
    + vm_compute. reflexivity.
    + vm_compute in Hlisted. vm_compute. exact Hlisted.
Defined.

(** ** Bit-depth reduction *)

(** C8, as the code has it.  Line 223 turns a 16-bit grid holding 0xFF0 into
    0xFF, but line 222 never builds that grid.  For a 2 x 2 BayerRG12 frame
    whose four samples are 0x0FF0 (bytes F0 0F each), the slice of the ctypes
    buffer is a list, its array has 8-byte elements, and the 16-bit view
    holds the words F0 0 0 0 0F 0 0 0 and so on: 32 entries, none of them
    0xFF0.  [reshape] refuses them and [get_frame] raises; no sample is
    decoded to 0xFF.  The packed 12-bit code takes the same path. *)
Theorem bayer12_sample_0xFF0_is_not_decoded :
  let payload := [0xF0; 0x0F; 0xF0; 0x0F; 0xF0; 0x0F; 0xF0; 0x0F]%N in
  let view := match np.view_uint16 (np.as_array (slice_to payload (2 * 2 * 2))) with
              | Ok a => np.items a
              | Raise _ => []
              end in
  np.items (to_8bit (np.mk_ndarray np.uint16 [2; 2]%N [0xFF0; 0xFF0; 0xFF0; 0xFF0]%N))
  = [0xFF; 0xFF; 0xFF; 0xFF]%N /\
  firstn 8 view = [0xF0; 0; 0; 0; 0x0F; 0; 0; 0]%N /\
  length view = 32%nat /\
  existsb (N.eqb 0xFF0) view = false /\
  decode payload 2 2 0x01100011 = Raise (ValueError CannotReshape) /\
  decode payload 2 2 0x010C002B = Raise (ValueError CannotReshape) /\
  data (frame Demo.bayer12_sdk []) = payload /\
  fst (get_frame Demo.bayer12_sdk 3000 (Demo.streaming_world Demo.bayer12_sdk "continuous"))
  = Raise (ValueError CannotReshape).
Proof.
  cbv zeta.
  split; [|split; [|split; [|split; [|split; [|split; [|split]]]]]];
    vm_compute; reflexivity.
Qed.

(** C2, as the code has it.  The four 10-bit and 12-bit codes share one
    branch, so a BayerRG10 frame is decoded exactly like a BayerRG12 frame:
    every sample is shifted by four, and the 10-bit maximum 0x3FF comes out
    as 0x3F (63), where a shift by two gives 0xFF.  Before that, the grid
    itself is not the payload read as height x width 16-bit samples: the
    slice of the ctypes buffer is a list, its array has 8-byte elements, and
    for the 2 x 2 frame of eight bytes the 16-bit view has 32 entries, which
    [reshape] refuses. *)
Theorem bayer10_gets_the_12bit_shift :
  (forall buf h w,
      decode buf h w 0x0110000D = decode buf h w 0x01100011 /\
      decode buf h w 0x010C0027 = decode buf h w 0x010C002B /\
      decode buf h w 0x0110000D = decode buf h w 0x010C002B) /\
  np.items (to_8bit (np.mk_ndarray np.uint16 [2; 2]%N [0x3FF; 0x3FF; 0x3FF; 0x3FF]%N))
  = [0x3F; 0x3F; 0x3F; 0x3F]%N /\
  N.shiftr 0x3FF 2 = 0xFF%N /\
  option_map (fun a => length (np.items a))
             (match np.view_uint16
                      (np.as_array (slice_to [0xFF; 0x03; 0xFF; 0x03; 0xFF; 0x03; 0xFF; 0x03]%N
                                             (2 * 2 * 2)))
              with Ok a => Some a | Raise _ => None end) = Some 32%nat /\
  fst (get_frame Demo.bayer10_sdk 3000 (Demo.streaming_world Demo.bayer10_sdk "continuous"))
  = Raise (ValueError CannotReshape).
Proof.
  split; [|split; [|split; [|split]]]; try (vm_compute; reflexivity).
  intros buf h w. split; [|split]; reflexivity.
Qed.

(** * Further properties of the session *)

(** ** Finding the camera *)

Lemma octet (x s : N) (q a r : N) :
  (x = (q * 256 + a) * 2 ^ s + r)%N -> (a < 256)%N -> (r < 2 ^ s)%N ->
  N.land (N.shiftr x s) 0xFF = a.
Proof.
  intros Hx Ha Hr.
  change 0xFF%N with (N.ones 8). rewrite N.land_ones, N.shiftr_div_pow2.
  assert (Hpos : (2 ^ s <> 0)%N) by (apply N.pow_nonzero; discriminate).
  assert (Hq : (x / 2 ^ s = q * 256 + a)%N).
  { symmetry. apply (N.div_unique x (2 ^ s) (q * 256 + a) r Hr).
    rewrite (N.mul_comm (2 ^ s)). exact Hx. }
  rewrite Hq. change (2 ^ 8)%N with 256%N.
  symmetry. apply (N.mod_unique (q * 256 + a) 256 q a Ha). lia.
Qed.

(** The address is printed as a dotted quad, most significant octet first;
    bits above the low 32 of [nCurrentIp] do not show. *)
Theorem ip_to_str_octets (k a b c d : N) :
  (a < 256)%N -> (b < 256)%N -> (c < 256)%N -> (d < 256)%N ->
  ip_to_str (k * 2 ^ 32 + a * 2 ^ 24 + b * 2 ^ 16 + c * 2 ^ 8 + d)
  = (decimal a ++ "." ++ decimal b ++ "." ++ decimal c ++ "." ++ decimal d)%string.
Proof.
  intros Ha Hb Hc Hd. unfold ip_to_str.
  set (x := (k * 2 ^ 32 + a * 2 ^ 24 + b * 2 ^ 16 + c * 2 ^ 8 + d)%N).
  assert (H24 : N.land (N.shiftr x 24) 0xFF = a).
  { apply (octet x 24 k a (b * 2 ^ 16 + c * 2 ^ 8 + d)); [subst x| exact Ha |];
      change (2 ^ 32)%N with 4294967296%N; change (2 ^ 24)%N with 16777216%N;
      change (2 ^ 16)%N with 65536%N; change (2 ^ 8)%N with 256%N; lia. }
  assert (H16 : N.land (N.shiftr x 16) 0xFF = b).
  { apply (octet x 16 (k * 256 + a) b (c * 2 ^ 8 + d)); [subst x| exact Hb |];
      change (2 ^ 32)%N with 4294967296%N; change (2 ^ 24)%N with 16777216%N;
      change (2 ^ 16)%N with 65536%N; change (2 ^ 8)%N with 256%N; lia. }
  assert (H8 : N.land (N.shiftr x 8) 0xFF = c).
  { apply (octet x 8 (k * 65536 + a * 256 + b) c d); [subst x| exact Hc |];
      change (2 ^ 32)%N with 4294967296%N; change (2 ^ 24)%N with 16777216%N;
      change (2 ^ 16)%N with 65536%N; change (2 ^ 8)%N with 256%N; lia. }
  assert (H0 : N.land x 0xFF = d).
  { rewrite <- (N.shiftr_0_r x).
    apply (octet x 0 (k * 16777216 + a * 65536 + b * 256 + c) d 0);
      [subst x| exact Hd |];
      change (2 ^ 32)%N with 4294967296%N; change (2 ^ 24)%N with 16777216%N;
      change (2 ^ 16)%N with 65536%N; change (2 ^ 8)%N with 256%N;
      change (2 ^ 0)%N with 1%N; lia. }
  rewrite H24, H16, H8, H0. reflexivity.
Qed.

Lemma ip_to_str_octets_witness :
  ip_to_str 0x1C0A8027C = "192.168.2.124".
Proof.
  exact (ip_to_str_octets 1 192 168 2 124 eq_refl eq_refl eq_refl eq_refl).
Defined.

(** A device that the scan of [_find_camera_by_ip] would accept. *)
Lemma scan_devices_cons (camera_ip : string) (d : MV_CC_DEVICE_INFO)
      (rest : list MV_CC_DEVICE_INFO) :
  scan_devices camera_ip (d :: rest)
  = if ((nTLayerType d =? MV_GIGE_DEVICE)%N
        && String.eqb (ip_to_str (nCurrentIp d)) camera_ip)%bool
    then Some d else scan_devices camera_ip rest.
Proof.
  cbn [scan_devices].
  destruct (nTLayerType d =? MV_GIGE_DEVICE)%N; [|reflexivity].
  destruct (String.eqb (ip_to_str (nCurrentIp d)) camera_ip); reflexivity.
Qed.

(** The scan returns the first enumerated GigE device whose address prints as
    the requested string; devices of other transport layers are never
    returned, and [None] means no enumerated device qualifies. *)
Theorem scan_devices_first_match (camera_ip : string) (l : list MV_CC_DEVICE_INFO) :
  match scan_devices camera_ip l with
  | Some dev =>
      nTLayerType dev = MV_GIGE_DEVICE /\
      ip_to_str (nCurrentIp dev) = camera_ip /\
      exists before rest,
        l = before ++ dev :: rest /\
        forall d, In d before ->
                  nTLayerType d <> MV_GIGE_DEVICE \/ ip_to_str (nCurrentIp d) <> camera_ip
  | None =>
      forall d, In d l ->
                nTLayerType d <> MV_GIGE_DEVICE \/ ip_to_str (nCurrentIp d) <> camera_ip
  end.
Proof.
  induction l as [|d rest IH].
  - intros d [].
  - rewrite scan_devices_cons.
    destruct (nTLayerType d =? MV_GIGE_DEVICE)%N eqn:Hty;
      [destruct (String.eqb (ip_to_str (nCurrentIp d)) camera_ip) eqn:Hip|]; cbn [andb].
    + apply N.eqb_eq in Hty. apply String.eqb_eq in Hip.
      split; [exact Hty|]. split; [exact Hip|].
      exists [], rest. split; [reflexivity|]. intros d' [].
    + apply String.eqb_neq in Hip.
      destruct (scan_devices camera_ip rest) as [dev|].
      * destruct IH as (Hg & Hi & before & rest' & Hl & Hbefore).
        split; [exact Hg|]. split; [exact Hi|].
        exists (d :: before), rest'. split; [rewrite Hl; reflexivity|].
        intros d' [<-|Hin]; [right; exact Hip | apply Hbefore, Hin].
      * intros d' [<-|Hin]; [right; exact Hip | apply IH, Hin].
    + apply N.eqb_neq in Hty.
      destruct (scan_devices camera_ip rest) as [dev|].
      * destruct IH as (Hg & Hi & before & rest' & Hl & Hbefore).
        split; [exact Hg|]. split; [exact Hi|].
        exists (d :: before), rest'. split; [rewrite Hl; reflexivity|].
        intros d' [<-|Hin]; [left; exact Hty | apply Hbefore, Hin].
      * intros d' [<-|Hin]; [left; exact Hty | apply IH, Hin].
Qed.

(** ** Connecting, the successful path *)

(** One parameter read inside a run [H]: step over it and forget which
    value and status the oracle gave. *)
Ltac value_step H o sdk :=
  unfold bind at 1 in H;
  rewrite (read_value_some sdk _ _ o) in H by reflexivity;
  cbn [self log fresh] in H;
  match type of H with
  | context [nCurValue sdk ?h ?c] =>
      let v := fresh "v" in
      let E := fresh "E" in
      remember (nCurValue sdk h c) as v eqn:E; clear E
  end;
  match type of H with
  | context [status sdk ?h ?c] =>
      let r := fresh "r" in
      let E := fresh "E" in
      remember (status sdk h c) as r eqn:E; clear E
  end.

(** When no enumerated GigE device has the requested address, [connect]
    raises after the enumeration alone: no SDK object is created, and the
    only change to the camera object is [dev_info = None]. *)
Theorem connect_camera_not_found sdk (w : World) :
  scan_devices (camera_ip (self w)) (devices sdk (log w)) = None ->
  connect sdk w
  = (Raise (RuntimeError CameraNotFound),
     mkWorld (set_dev_info None (self w))
             (log w ++ [(MV_CC_EnumDevices 5,
                         status sdk (log w) (MV_CC_EnumDevices 5))])
             (fresh w)).
Proof.
  intros Hscan.
  unfold connect, bind at 1, get_self.
  unfold bind at 1, _find_camera_by_ip, invoke. cbn [snd self log fresh].
  rewrite Hscan. reflexivity.
Qed.

Lemma connect_camera_not_found_witness :
  fst (connect (Demo.scripted Demo.always_ok Demo.sensor_1920x1200 Demo.no_frame)
               (mkWorld (__init__ "192.168.2.125") [] 0))
  = Raise (RuntimeError CameraNotFound).
Proof.
  rewrite (connect_camera_not_found
             (Demo.scripted Demo.always_ok Demo.sensor_1920x1200 Demo.no_frame)
             (mkWorld (__init__ "192.168.2.125") [] 0)).
  - reflexivity.
  - vm_compute. reflexivity.
Defined.

(** After a successful [connect] on a session that held no handle: the new
    SDK object is the session's, exactly its handle is held, [dev_info] is the
    device the scan selected, the sizes read from the device are
    non-negative, and the pixel format is BayerRG8 unless the device refused
    the switch, in which case the refused write is the last SDK call.  The
    transfer buffers are not touched. *)
Theorem connect_success sdk (w w' : World) :
  Log.handles_held (log w) = [] ->
  connect sdk w = (Ok tt, w') ->
  cam (self w') = Some (fresh w) /\
  fresh w' = S (fresh w) /\
  Log.handles_held (log w') = [fresh w] /\
  (exists dev, dev_info (self w') = Some dev /\
               scan_devices (camera_ip (self w)) (devices sdk (log w)) = Some dev) /\
  0 <= Self.width (self w') /\ 0 <= Self.height (self w') /\
  0 <= payload_size (self w') /\
  (pixel_format (self w') = Some BAYER_RG8 \/
   exists f r before,
     pixel_format (self w') = Some f /\ f <> BAYER_RG8 /\ r <> 0 /\
     log w' = before ++ [(MV_CC_SetEnumValue (fresh w) "PixelFormat" BAYER_RG8, r)]) /\
  pData (self w') = pData (self w) /\
  stFrameInfo (self w') = stFrameInfo (self w).
Proof.
  destruct w as [me l f]. cbn [log fresh self]. intros Hheld Hrun.
  unfold connect, bind at 1, get_self in Hrun. cbn [self] in Hrun.
  unfold bind at 1, _find_camera_by_ip, invoke in Hrun. cbn [self log fresh snd] in Hrun.
  remember (status sdk l (MV_CC_EnumDevices (N.lor MV_GIGE_DEVICE MV_USB_DEVICE)))
    as r0 eqn:E; clear E.
  update_step Hrun.
  destruct (scan_devices (camera_ip me) (devices sdk l)) as [dev|]; [|discriminate Hrun].
  unfold bind at 1, MvCamera in Hrun. cbn [self log fresh] in Hrun.
  update_step Hrun.
  sdk_step Hrun f sdk.
  destruct (r =? 0) eqn:Hrc; cbn [negb] in Hrun; [|discriminate Hrun].
  apply Z.eqb_eq in Hrc. subst r.
  sdk_step Hrun f sdk.
  destruct (r =? 0) eqn:Hro; cbn [negb] in Hrun.
  2:{ sdk_step Hrun f sdk. discriminate Hrun. }
  apply Z.eqb_eq in Hro. subst r.
  value_step Hrun f sdk. value_step Hrun f sdk. value_step Hrun f sdk. value_step Hrun f sdk.
  update_step Hrun. update_step Hrun. update_step Hrun. update_step Hrun.
  match type of Hrun with context [negb (?p =? BAYER_RG8)] =>
    destruct (p =? BAYER_RG8) eqn:Hpix end; cbn [negb] in Hrun.
  - injection Hrun as <-. cbn [self log fresh].
    destruct me. cbn.
    rewrite !handles_held_last. cbn [Log.handle_step Z.eqb]. rewrite Hheld.
    apply Z.eqb_eq in Hpix.
    repeat split; try lia; try reflexivity.
    + exists dev. split; reflexivity.
    + left. rewrite Hpix. reflexivity.
  - sdk_step Hrun f sdk.
    match type of Hrun with context [if ?c =? 0 then _ else _] =>
      destruct (c =? 0) eqn:Hsw end.
    + update_step Hrun. value_step Hrun f sdk.
      unfold update in Hrun. injection Hrun as <-. cbn [self log fresh].
      destruct me. cbn.
      rewrite !handles_held_last. cbn [Log.handle_step Z.eqb]. rewrite Hheld.
      repeat split; try lia; try reflexivity.
      * exists dev. split; reflexivity.
      * left. reflexivity.
    + unfold ret in Hrun. injection Hrun as <-. cbn [self log fresh].
      destruct me. cbn.
      rewrite !handles_held_last. cbn [Log.handle_step Z.eqb]. rewrite Hheld.
      apply Z.eqb_neq in Hpix, Hsw.
      repeat split; try lia; try reflexivity.
      * exists dev. split; reflexivity.
      * right. eexists _, _, _.
        split; [reflexivity|]. split; [exact Hpix|]. split; [exact Hsw|]. reflexivity.
Qed.

Lemma connect_success_witness :
  cam (self (Demo.after (connect Demo.bayer10_sdk) Demo.start)) = Some 0%nat /\
  Log.handles_held (log (Demo.after (connect Demo.bayer10_sdk) Demo.start)) = [0%nat] /\
  pixel_format (self (Demo.after (connect Demo.bayer10_sdk) Demo.start))
  = Some 0x0110000D.
Proof.
  assert (Hrun : connect Demo.bayer10_sdk Demo.start
                 = (Ok tt, Demo.after (connect Demo.bayer10_sdk) Demo.start))
    by (vm_compute; reflexivity).
  destruct (connect_success Demo.bayer10_sdk Demo.start _ eq_refl Hrun)
    as (Hcam & _ & Hheld & _ & _ & _ & _ & Hpix & _).
  split; [exact Hcam|]. split; [exact Hheld|].
  destruct Hpix as [Hpix | (f & r & before & Hf & _)].
  - vm_compute in Hpix. discriminate Hpix.
  - vm_compute. reflexivity.
Defined.

(** ** Region of interest, in general *)

(** The offsets [set_roi] writes for a request, lines 120-127. *)
Lemma set_roi_run sdk (w : World) (o : nat) (width height : Z)
      (offset_x offset_y : option Z) :
  cam (self w) = Some o ->
  let ox := Z.max 0 (Z.min (match offset_x with
                            | None => (Self.width (self w) - width) / 2
                            | Some x => x
                            end) (Self.width (self w) - width)) in
  let oy := Z.max 0 (Z.min (match offset_y with
                            | None => (Self.height (self w) - height) / 2
                            | Some y => y
                            end) (Self.height (self w) - height)) in
  exists w',
    set_roi sdk width height offset_x offset_y w = (Ok tt, w') /\
    calls w' = calls w ++ [MV_CC_SetIntValue o "Width" width;
                           MV_CC_SetIntValue o "Height" height;
                           MV_CC_SetIntValue o "OffsetX" ox;
                           MV_CC_SetIntValue o "OffsetY" oy;
                           MV_CC_GetIntValue o "PayloadSize"] /\
    Self.width (self w') = width /\ Self.height (self w') = height /\
    0 <= payload_size (self w') /\
    cam (self w') = Some o /\
    pData (self w') = pData (self w) /\
    stFrameInfo (self w') = stFrameInfo (self w) /\
    fresh w' = fresh w /\
    Log.handles_held (log w') = Log.handles_held (log w) /\
    Log.grabbing (log w') = Log.grabbing (log w).
Proof.
  intros Hcam ox oy.
  unfold set_roi, bind at 1, get_self. fold ox oy.
  unfold bind at 1. rewrite (on_cam_some _ _ _ _ Hcam).
  unfold bind at 1. rewrite (on_cam_some _ _ _ o) by exact Hcam.
  unfold bind at 1. rewrite (on_cam_some _ _ _ o) by exact Hcam.
  unfold bind at 1. rewrite (on_cam_some _ _ _ o) by exact Hcam.
  unfold bind at 1. rewrite (read_value_some _ _ _ o) by exact Hcam.
  cbn [self log fresh]. unfold bind, update. cbn [self log fresh].
  eexists. split; [reflexivity|].
  unfold calls. cbn [log self fresh].
  rewrite !handles_held_last, !grabbing_last.
  cbn [Log.handle_step Log.grabbing_step].
  repeat rewrite <- app_assoc. rewrite map_app. cbn [map fst app].
  destruct w as [me l f]. destruct me. cbn in Hcam |- *. subst.
  repeat split. lia.
Qed.

(** Whatever offsets are asked for and whatever the device answers,
    [set_roi] on a connected session returns normally and writes offsets that
    are never negative.  When the request fits the current extent, offset
    plus size stays within it: an explicit offset already in range is written
    unchanged, a negative one becomes 0, one too far right or down is pulled
    back to the last position that fits.  When the request is larger than the
    current extent the offset written is 0. *)
Theorem set_roi_clamps_offsets sdk (w : World) (o : nat) (width height : Z)
        (offset_x offset_y : option Z) :
  cam (self w) = Some o ->
  exists ox oy w',
    set_roi sdk width height offset_x offset_y w = (Ok tt, w') /\
    calls w' = calls w ++ [MV_CC_SetIntValue o "Width" width;
                           MV_CC_SetIntValue o "Height" height;
                           MV_CC_SetIntValue o "OffsetX" ox;
                           MV_CC_SetIntValue o "OffsetY" oy;
                           MV_CC_GetIntValue o "PayloadSize"] /\
    0 <= ox /\ 0 <= oy /\
    (width <= Self.width (self w) -> ox + width <= Self.width (self w)) /\
    (height <= Self.height (self w) -> oy + height <= Self.height (self w)) /\
    (Self.width (self w) < width -> ox = 0) /\
    (Self.height (self w) < height -> oy = 0) /\
    (forall x, offset_x = Some x ->
               0 <= Self.width (self w) - width ->
               ox = if x <? 0 then 0
                    else if Self.width (self w) - width <? x
                         then Self.width (self w) - width else x) /\
    (forall y, offset_y = Some y ->
               0 <= Self.height (self w) - height ->
               oy = if y <? 0 then 0
                    else if Self.height (self w) - height <? y
                         then Self.height (self w) - height else y).
Proof.
  intros Hcam.
  destruct (set_roi_run sdk w o width height offset_x offset_y Hcam)
    as (w' & Hrun & Hcalls & _).
  eexists _, _, w'. split; [exact Hrun|]. split; [exact Hcalls|].
  repeat split; try lia.
  - intros x -> Hfit.
    destruct (Z.ltb_spec x 0); [lia|].
    destruct (Z.ltb_spec (Self.width (self w) - width) x); lia.
  - intros y -> Hfit.
    destruct (Z.ltb_spec y 0); [lia|].
    destruct (Z.ltb_spec (Self.height (self w) - height) y); lia.
Qed.

Lemma set_roi_clamps_offsets_witness :
  exists w',
    set_roi (Demo.scripted Demo.always_ok Demo.sensor_1920x1200 Demo.no_frame)
            640 2000 (Some 1500) (Some 7)
            (Demo.after (connect (Demo.scripted Demo.always_ok Demo.sensor_1920x1200
                                                Demo.no_frame)) Demo.start)
    = (Ok tt, w') /\
    skipn 9 (calls w') = [MV_CC_SetIntValue 0 "OffsetX" 1280;
                          MV_CC_SetIntValue 0 "OffsetY" 0;
                          MV_CC_GetIntValue 0 "PayloadSize"].
Proof.
  assert (Hcam : cam (self (Demo.after
                              (connect (Demo.scripted Demo.always_ok Demo.sensor_1920x1200
                                                      Demo.no_frame))
                              Demo.start)) = Some 0%nat)
    by (vm_compute; reflexivity).
  destruct (set_roi_clamps_offsets
              (Demo.scripted Demo.always_ok Demo.sensor_1920x1200 Demo.no_frame)
              _ 0%nat 640 2000 (Some 1500) (Some 7) Hcam)
    as (ox & oy & w' & Hrun & Hcalls & _ & _ & _ & _ & _ & Hy0 & Hx & _).
  exists w'. split; [exact Hrun|]. rewrite Hcalls.
  assert (Hoy : oy = 0) by (apply Hy0; vm_compute; reflexivity).
  assert (Hox : ox = 1280).
  { rewrite (Hx 1500 eq_refl); [vm_compute; reflexivity | vm_compute; discriminate]. }
  rewrite Hox, Hoy. vm_compute. reflexivity.
Defined.

(** [set_roi] records the requested size as the current extent whatever the
    device answered, so a following centred request is placed inside the
    previous request, not inside the sensor: after a region of [a] x [b], a
    centred region of [c] x [d] that fits in it gets the offsets
    floor((a - c) / 2) and floor((b - d) / 2), whatever the sensor size. *)
Theorem set_roi_twice_centres_in_previous_request sdk (w : World) (o : nat)
        (a b c d : Z) (offset_x offset_y : option Z) :
  cam (self w) = Some o ->
  c <= a -> d <= b ->
  exists w1 w2,
    set_roi sdk a b offset_x offset_y w = (Ok tt, w1) /\
    set_roi sdk c d None None w1 = (Ok tt, w2) /\
    calls w2 = calls w1 ++ [MV_CC_SetIntValue o "Width" c;
                            MV_CC_SetIntValue o "Height" d;
                            MV_CC_SetIntValue o "OffsetX" ((a - c) / 2);
                            MV_CC_SetIntValue o "OffsetY" ((b - d) / 2);
                            MV_CC_GetIntValue o "PayloadSize"].
Proof.
  intros Hcam Hc Hd.
  destruct (set_roi_run sdk w o a b offset_x offset_y Hcam)
    as (w1 & Hrun1 & _ & Hw1 & Hh1 & _ & Hcam1 & _).
  destruct (set_roi_run sdk w1 o c d None None Hcam1) as (w2 & Hrun2 & Hcalls2 & _).
  exists w1, w2. split; [exact Hrun1|]. split; [exact Hrun2|].
  rewrite Hcalls2, Hw1, Hh1.
  rewrite (centred_offset_unclamped a c Hc), (centred_offset_unclamped b d Hd).
  reflexivity.
Qed.

Lemma set_roi_twice_centres_in_previous_request_witness :
  exists w1 w2,
    set_roi (Demo.scripted Demo.always_ok Demo.sensor_1920x1200 Demo.no_frame)
            640 640 None None
            (Demo.after (connect (Demo.scripted Demo.always_ok Demo.sensor_1920x1200
                                                Demo.no_frame)) Demo.start)
    = (Ok tt, w1) /\
    set_roi (Demo.scripted Demo.always_ok Demo.sensor_1920x1200 Demo.no_frame)
            320 320 None None w1 = (Ok tt, w2) /\
    skipn 12 (calls w2) = [MV_CC_SetIntValue 0 "Width" 320;
                           MV_CC_SetIntValue 0 "Height" 320;
                           MV_CC_SetIntValue 0 "OffsetX" 160;
                           MV_CC_SetIntValue 0 "OffsetY" 160;
                           MV_CC_GetIntValue 0 "PayloadSize"].
Proof.
  assert (Hcam : cam (self (Demo.after
                              (connect (Demo.scripted Demo.always_ok Demo.sensor_1920x1200
                                                      Demo.no_frame))
                              Demo.start)) = Some 0%nat)
    by (vm_compute; reflexivity).
  destruct (set_roi_twice_centres_in_previous_request
              (Demo.scripted Demo.always_ok Demo.sensor_1920x1200 Demo.no_frame)
              _ 0%nat 640 640 320 320 None None Hcam)
    as (w1 & w2 & Hrun1 & Hrun2 & Hcalls).
  - vm_compute. discriminate.
  - vm_compute. discriminate.
  - exists w1, w2. split; [exact Hrun1|]. split; [exact Hrun2|].
    rewrite Hcalls.
    assert (Hw1 : w1 = Demo.after
                         (set_roi (Demo.scripted Demo.always_ok Demo.sensor_1920x1200
                                                 Demo.no_frame) 640 640 None None)
                         (Demo.after
                            (connect (Demo.scripted Demo.always_ok Demo.sensor_1920x1200
                                                    Demo.no_frame)) Demo.start))
      by (unfold Demo.after at 1; rewrite Hrun1; reflexivity).
    rewrite Hw1. vm_compute. reflexivity.
Defined.

(** ** Calls made in the wrong state *)

(** On a camera object that has no SDK object ([cam] is [None]: never
    connected, or disconnected), [set_roi], [set_trigger_mode] with a known
    mode and [software_trigger] raise [AttributeError] and leave the object
    and the log as they were; [stop_grabbing] returns without doing
    anything. *)
Theorem methods_without_sdk_object sdk (w : World) (width height : Z)
        (offset_x offset_y : option Z) (mode : string) :
  cam (self w) = None ->
  In mode ["continuous"; "software"; "hardware"] ->
  set_roi sdk width height offset_x offset_y w = (Raise AttributeError, w) /\
  set_trigger_mode sdk mode w = (Raise AttributeError, w) /\
  software_trigger sdk w = (Raise AttributeError, w) /\
  stop_grabbing sdk w = (Ok tt, w).
Proof.
  intros Hcam Hmode. split; [|split; [|split]].
  - unfold set_roi, bind at 1, get_self.
    unfold bind at 1. rewrite (on_cam_none _ _ _ Hcam). reflexivity.
  - unfold set_trigger_mode.
    destruct Hmode as [<-|[<-|[<-|[]]]]; cbn [String.eqb Ascii.eqb Bool.eqb];
      unfold bind at 1; rewrite (on_cam_none _ _ _ Hcam); reflexivity.
  - unfold software_trigger, bind. rewrite (on_cam_none _ _ _ Hcam). reflexivity.
  - unfold stop_grabbing, bind, get_self. rewrite Hcam. reflexivity.
Qed.

Lemma methods_without_sdk_object_witness :
  set_roi Demo.bayer8_sdk 640 480 None None Demo.start = (Raise AttributeError, Demo.start) /\
  set_trigger_mode Demo.bayer8_sdk "hardware" Demo.start = (Raise AttributeError, Demo.start).
Proof.
  destruct (methods_without_sdk_object Demo.bayer8_sdk Demo.start 640 480 None None
                                       "hardware" eq_refl) as (Hroi & Hmode & _).
  - right. right. left. reflexivity.
  - split; [exact Hroi | exact Hmode].
Defined.

(** [get_frame] before [start_grabbing] has allocated the frame header
    raises [TypeError] without reaching the SDK, connected or not. *)
Theorem get_frame_before_start_grabbing sdk (timeout : Z) (w : World) :
  stFrameInfo (self w) = None ->
  get_frame sdk timeout w = (Raise TypeError, w).
Proof.
  intros Hfi. unfold get_frame, bind, get_self. rewrite Hfi. reflexivity.
Qed.

Lemma get_frame_before_start_grabbing_witness :
  fst (get_frame Demo.bayer8_sdk 3000 (Demo.after (connect Demo.bayer8_sdk) Demo.start))
  = Raise TypeError /\
  calls (Demo.after (get_frame Demo.bayer8_sdk 3000)
                    (Demo.after (connect Demo.bayer8_sdk) Demo.start))
  = calls (Demo.after (connect Demo.bayer8_sdk) Demo.start).
Proof.
  assert (Hfi : stFrameInfo (self (Demo.after (connect Demo.bayer8_sdk) Demo.start)) = None)
    by (vm_compute; reflexivity).
  unfold Demo.after at 2.
  rewrite (get_frame_before_start_grabbing Demo.bayer8_sdk 3000 _ Hfi).
  split; reflexivity.
Defined.

(** ** Starting and stopping the stream *)

(** The two outcomes of building a ctypes array that do not depend on the
    sign test alone. *)
Lemma c_ubyte_array_granted host (n : Z) (w : World) :
  0 <= n <= sys_maxsize ->
  malloc host w n = true ->
  c_ubyte_array host n w = (Ok (repeat 0%N (Z.to_nat n)), w).
Proof.
  intros Hn Hmem. unfold c_ubyte_array.
  assert (Hmax : 0 <= sys_maxsize) by (unfold sys_maxsize; lia).
  destruct (Z.ltb_spec n (- sys_maxsize - 1)) as [H|_]; [lia|].
  destruct (Z.ltb_spec sys_maxsize n) as [H|_]; [lia|].
  destruct (Z.ltb_spec n 0) as [H|_]; [lia|].
  cbn [orb]. rewrite Hmem. reflexivity.
Qed.

Lemma c_ubyte_array_bad_length host (n : Z) (w : World) :
  n < 0 \/ sys_maxsize < n ->
  c_ubyte_array host n w
  = (Raise (if (n <? - sys_maxsize - 1) || (sys_maxsize <? n)
            then OverflowError IndexSized else ValueError NegativeArrayLength), w).
Proof.
  intros Hn. unfold c_ubyte_array.
  assert (Hmax : 0 <= sys_maxsize) by (unfold sys_maxsize; lia).
  destruct ((n <? - sys_maxsize - 1) || (sys_maxsize <? n)) eqn:Hrange; [reflexivity|].
  apply orb_false_iff in Hrange. destruct Hrange as [_ Hhi]. apply Z.ltb_ge in Hhi.
  destruct (Z.ltb_spec n 0) as [_|H]; [reflexivity|lia].
Qed.

Lemma start_grabbing_run sdk host (w : World) (o : nat) :
  cam (self w) = Some o ->
  0 <= payload_size (self w) <= sys_maxsize ->
  0 <= Self.width (self w) * Self.height (self w) * 3 <= sys_maxsize ->
  malloc host w (payload_size (self w)) = true ->
  malloc host
         (mkWorld (set_pData (Some (repeat 0%N (Z.to_nat (payload_size (self w))))) (self w))
                  (log w) (fresh w))
         (Self.width (self w) * Self.height (self w) * 3) = true ->
  let r := status sdk (log w) (MV_CC_StartGrabbing o) in
  start_grabbing sdk host w
  = (if r =? 0 then Ok tt else Raise (RuntimeError (StartGrabbingFailed r)),
     mkWorld
       (set_stFrameInfo (Some {| nWidth := 0; nHeight := 0; enPixelType := 0 |})
          (set_pDataBGR
             (Some (repeat 0%N (Z.to_nat (Self.width (self w) * Self.height (self w) * 3))))
             (set_pData (Some (repeat 0%N (Z.to_nat (payload_size (self w))))) (self w))))
       (log w ++ [(MV_CC_StartGrabbing o, r)]) (fresh w)).
Proof.
  intros Hcam Hpay Hbgr Hmem1 Hmem2 r.
  unfold start_grabbing, bind at 1, get_self.
  unfold bind at 1. rewrite (c_ubyte_array_granted host _ w Hpay Hmem1).
  unfold bind at 1, update at 1. cbn [self log fresh].
  unfold bind at 1. rewrite (c_ubyte_array_granted host _ _ Hbgr Hmem2).
  unfold bind at 1, update at 1. cbn [self log fresh].
  unfold bind at 1, update at 1. cbn [self log fresh].
  unfold bind at 1.
  rewrite (on_cam_some sdk _ _ o)
    by (destruct w as [me l f]; destruct me; exact Hcam).
  cbn [self log fresh]. fold r.
  destruct (r =? 0); reflexivity.
Qed.

(** [start_grabbing] on a connected session whose two buffer sizes are lengths
    a ctypes array can have (from 0 to [sys.maxsize]) and are granted by the
    host makes one SDK call and allocates both buffers before it: the raw
    buffer has exactly [payload_size] zero bytes, the BGR buffer
    [width * height * 3].  Status 0 gives a streaming session; any other
    status raises [RuntimeError] with that status, the buffers staying
    allocated. *)
Theorem start_grabbing_allocates sdk host (w : World) (o : nat) :
  cam (self w) = Some o ->
  0 <= payload_size (self w) <= sys_maxsize ->
  0 <= Self.width (self w) * Self.height (self w) * 3 <= sys_maxsize ->
  malloc host w (payload_size (self w)) = true ->
  malloc host
         (mkWorld (set_pData (Some (repeat 0%N (Z.to_nat (payload_size (self w))))) (self w))
                  (log w) (fresh w))
         (Self.width (self w) * Self.height (self w) * 3) = true ->
  let r := status sdk (log w) (MV_CC_StartGrabbing o) in
  let w' := snd (start_grabbing sdk host w) in
  fst (start_grabbing sdk host w)
  = (if r =? 0 then Ok tt else Raise (RuntimeError (StartGrabbingFailed r))) /\
  calls w' = calls w ++ [MV_CC_StartGrabbing o] /\
  pData (self w') = Some (repeat 0%N (Z.to_nat (payload_size (self w)))) /\
  pDataBGR (self w')
  = Some (repeat 0%N (Z.to_nat (Self.width (self w) * Self.height (self w) * 3))) /\
  session_state w'
  = (if (r =? 0) || Log.grabbing (log w) then Streaming else Connected).
Proof.
  intros Hcam Hpay Hbgr Hmem1 Hmem2 r w'. subst w'.
  rewrite (start_grabbing_run sdk host w o Hcam Hpay Hbgr Hmem1 Hmem2). fold r. cbn [fst snd].
  unfold session_state, calls. cbn [self log].
  rewrite grabbing_last, map_app. cbn [Log.grabbing_step map fst].
  destruct w as [me l f]. destruct me. cbn in Hcam |- *. subst.
  repeat split.
Qed.

Lemma start_grabbing_allocates_witness :
  fst (start_grabbing Demo.packed12_sdk Demo.small_host
                      (Demo.after (connect Demo.packed12_sdk) Demo.start))
  = Ok tt /\
  pData (self (Demo.after (start_grabbing Demo.packed12_sdk Demo.small_host)
                          (Demo.after (connect Demo.packed12_sdk) Demo.start)))
  = Some [0; 0; 0; 0; 0; 0]%N /\
  option_map (@length N)
             (pDataBGR (self (Demo.after (start_grabbing Demo.packed12_sdk Demo.small_host)
                                         (Demo.after (connect Demo.packed12_sdk) Demo.start))))
  = Some 12%nat.
Proof.
  assert (Hcam : cam (self (Demo.after (connect Demo.packed12_sdk) Demo.start)) = Some 0%nat)
    by (vm_compute; reflexivity).
  destruct (start_grabbing_allocates Demo.packed12_sdk Demo.small_host _ 0%nat Hcam)
    as (Hres & _ & Hbuf & Hbgr & _).
  - vm_compute. split; discriminate.
  - vm_compute. split; discriminate.
  - vm_compute. reflexivity.
  - vm_compute. reflexivity.
  - split; [rewrite Hres; vm_compute; reflexivity|].
    split; vm_compute; reflexivity.
Defined.

(** When the host has no memory for a buffer, [start_grabbing] raises
    [MemoryError] and the SDK is never asked to start.  Refused the raw
    buffer, it leaves the camera object as it was; refused the BGR buffer, it
    has already replaced the raw one. *)
Theorem start_grabbing_out_of_memory sdk host (w : World) :
  0 <= payload_size (self w) <= sys_maxsize ->
  (malloc host w (payload_size (self w)) = false ->
   start_grabbing sdk host w = (Raise MemoryError, w)) /\
  (malloc host w (payload_size (self w)) = true ->
   0 <= Self.width (self w) * Self.height (self w) * 3 <= sys_maxsize ->
   malloc host
          (mkWorld (set_pData (Some (repeat 0%N (Z.to_nat (payload_size (self w)))))
                              (self w))
                   (log w) (fresh w))
          (Self.width (self w) * Self.height (self w) * 3) = false ->
   start_grabbing sdk host w
   = (Raise MemoryError,
      mkWorld (set_pData (Some (repeat 0%N (Z.to_nat (payload_size (self w))))) (self w))
              (log w) (fresh w))).
Proof.
  intros Hpay.
  assert (Hmax : 0 <= sys_maxsize) by (unfold sys_maxsize; lia).
  split.
  - intros Hmem. unfold start_grabbing, bind at 1, get_self.
    unfold bind at 1, c_ubyte_array.
    destruct (Z.ltb_spec (payload_size (self w)) (- sys_maxsize - 1)) as [H|_]; [lia|].
    destruct (Z.ltb_spec sys_maxsize (payload_size (self w))) as [H|_]; [lia|].
    destruct (Z.ltb_spec (payload_size (self w)) 0) as [H|_]; [lia|].
    cbn [orb]. rewrite Hmem. reflexivity.
  - intros Hmem Hbgr Hmem2. unfold start_grabbing, bind at 1, get_self.
    unfold bind at 1. rewrite (c_ubyte_array_granted host _ w Hpay Hmem).
    unfold bind at 1, update at 1. cbn [self log fresh].
    unfold bind at 1, c_ubyte_array.
    destruct (Z.ltb_spec (Self.width (self w) * Self.height (self w) * 3)
                         (- sys_maxsize - 1)) as [H|_]; [lia|].
    destruct (Z.ltb_spec sys_maxsize (Self.width (self w) * Self.height (self w) * 3))
      as [H|_]; [lia|].
    destruct (Z.ltb_spec (Self.width (self w) * Self.height (self w) * 3) 0) as [H|_];
      [lia|].
    cbn [orb]. rewrite Hmem2. reflexivity.
Qed.

Lemma start_grabbing_out_of_memory_witness :
  start_grabbing (Demo.scripted Demo.always_ok Demo.sensor_1920x1200 Demo.no_frame)
                 Demo.small_host
                 (Demo.after (connect (Demo.scripted Demo.always_ok Demo.sensor_1920x1200
                                                     Demo.no_frame))
                             Demo.start)
  = (Raise MemoryError,
     Demo.after (connect (Demo.scripted Demo.always_ok Demo.sensor_1920x1200 Demo.no_frame))
                Demo.start).
Proof.
  apply (start_grabbing_out_of_memory
           (Demo.scripted Demo.always_ok Demo.sensor_1920x1200 Demo.no_frame)
           Demo.small_host
           (Demo.after (connect (Demo.scripted Demo.always_ok Demo.sensor_1920x1200
                                               Demo.no_frame))
                       Demo.start)).
  - vm_compute. split; discriminate.
  - vm_compute. reflexivity.
Defined.

(** When [width * height * 3] is not a length a ctypes array can have,
    [start_grabbing] raises while allocating the BGR buffer: [ValueError] for
    a negative length that fits the index type, as after [set_roi] with one
    negative dimension, and [OverflowError] for a length beyond the index
    type on either side, as after [set_roi] with two dimensions of 2^31.  The
    raw buffer is already replaced, the SDK is never asked to start. *)
Theorem start_grabbing_unusable_bgr_length sdk host (w : World) :
  0 <= payload_size (self w) <= sys_maxsize ->
  malloc host w (payload_size (self w)) = true ->
  Self.width (self w) * Self.height (self w) * 3 < 0 \/
  sys_maxsize < Self.width (self w) * Self.height (self w) * 3 ->
  start_grabbing sdk host w
  = (Raise (if (Self.width (self w) * Self.height (self w) * 3 <? - sys_maxsize - 1)
               || (sys_maxsize <? Self.width (self w) * Self.height (self w) * 3)
            then OverflowError IndexSized else ValueError NegativeArrayLength),
     mkWorld (set_pData (Some (repeat 0%N (Z.to_nat (payload_size (self w))))) (self w))
             (log w) (fresh w)).
Proof.
  intros Hpay Hmem Hbad.
  unfold start_grabbing, bind at 1, get_self.
  unfold bind at 1. rewrite (c_ubyte_array_granted host _ w Hpay Hmem).
  unfold bind at 1, update at 1. cbn [self log fresh].
  unfold bind at 1. rewrite (c_ubyte_array_bad_length host _ _ Hbad).
  reflexivity.
Qed.

Lemma start_grabbing_unusable_bgr_length_witness :
  fst (start_grabbing Demo.bayer8_sdk Demo.host
         (Demo.after (set_roi Demo.bayer8_sdk (-2) 3 None None)
                     (Demo.after (connect Demo.bayer8_sdk) Demo.start)))
  = Raise (ValueError NegativeArrayLength) /\
  fst (start_grabbing Demo.bayer8_sdk Demo.host
         (Demo.after (set_roi Demo.bayer8_sdk (2 ^ 31) (2 ^ 31) None None)
                     (Demo.after (connect Demo.bayer8_sdk) Demo.start)))
  = Raise (OverflowError IndexSized) /\
  calls (Demo.after (start_grabbing Demo.bayer8_sdk Demo.host)
           (Demo.after (set_roi Demo.bayer8_sdk (2 ^ 31) (2 ^ 31) None None)
                       (Demo.after (connect Demo.bayer8_sdk) Demo.start)))
  = calls (Demo.after (set_roi Demo.bayer8_sdk (2 ^ 31) (2 ^ 31) None None)
                      (Demo.after (connect Demo.bayer8_sdk) Demo.start)).
Proof.
  split; [|split].
  - rewrite (start_grabbing_unusable_bgr_length Demo.bayer8_sdk Demo.host
               (Demo.after (set_roi Demo.bayer8_sdk (-2) 3 None None)
                           (Demo.after (connect Demo.bayer8_sdk) Demo.start))).
    + vm_compute. reflexivity.
    + vm_compute. split; discriminate.
    + vm_compute. reflexivity.
    + left. vm_compute. reflexivity.
  - rewrite (start_grabbing_unusable_bgr_length Demo.bayer8_sdk Demo.host
               (Demo.after (set_roi Demo.bayer8_sdk (2 ^ 31) (2 ^ 31) None None)
                           (Demo.after (connect Demo.bayer8_sdk) Demo.start))).
    + vm_compute. reflexivity.
    + vm_compute. split; discriminate.
    + vm_compute. reflexivity.
    + right. vm_compute. reflexivity.
  - unfold Demo.after at 1.
    rewrite (start_grabbing_unusable_bgr_length Demo.bayer8_sdk Demo.host
               (Demo.after (set_roi Demo.bayer8_sdk (2 ^ 31) (2 ^ 31) None None)
                           (Demo.after (connect Demo.bayer8_sdk) Demo.start))).
    + vm_compute. reflexivity.
    + vm_compute. split; discriminate.
    + vm_compute. reflexivity.
    + right. vm_compute. reflexivity.
Defined.

Lemma stop_grabbing_run sdk (w : World) :
  stop_grabbing sdk w
  = (Ok tt,
     match cam (self w) with
     | Some o => mkWorld (self w)
                         (log w ++ [(MV_CC_StopGrabbing o,
                                     status sdk (log w) (MV_CC_StopGrabbing o))])
                         (fresh w)
     | None => w
     end).
Proof.
  unfold stop_grabbing, bind at 1, get_self.
  destruct (cam (self w)) as [o|] eqn:Hcam; [|reflexivity].
  unfold bind. rewrite (on_cam_some sdk _ _ o Hcam). reflexivity.
Qed.

(** [stop_grabbing] never raises and never changes the camera object.
    Without SDK object it does nothing; otherwise it makes the one
    [MV_CC_StopGrabbing] call, whatever the state, and the session is not
    streaming afterwards. *)
Theorem stop_grabbing_effect sdk (w : World) :
  let w' := snd (stop_grabbing sdk w) in
  stop_grabbing sdk w = (Ok tt, w') /\
  self w' = self w /\
  calls w' = calls w ++ match cam (self w) with
                        | Some o => [MV_CC_StopGrabbing o]
                        | None => []
                        end /\
  session_state w' = match cam (self w) with
                     | Some _ => Connected
                     | None => Disconnected
                     end.
Proof.
  intros w'. subst w'. rewrite stop_grabbing_run. cbn [snd].
  destruct (cam (self w)) as [o|] eqn:Hcam.
  - split; [reflexivity|]. split; [reflexivity|]. split.
    + unfold calls. cbn [log]. rewrite map_app. reflexivity.
    + unfold session_state. cbn [self log]. rewrite Hcam, grabbing_last. reflexivity.
  - split; [reflexivity|]. split; [reflexivity|]. split.
    + rewrite app_nil_r. reflexivity.
    + unfold session_state. rewrite Hcam. reflexivity.
Qed.

(** ** Leaving the [with] block *)

Lemma exit_run sdk (w : World) :
  __exit__ sdk w = disconnect sdk (snd (stop_grabbing sdk w)).
Proof.
  unfold __exit__, bind. rewrite stop_grabbing_run. reflexivity.
Qed.

(** [__exit__] on a session that holds the handle of its SDK object stops the
    stream, closes the device and destroys the handle, in this order and
    whatever each call answers; it does not raise, no handle is held
    afterwards, the session is disconnected, and a second [__exit__] does
    nothing. *)
Theorem exit_releases_handle sdk (w : World) (o : nat) :
  cam (self w) = Some o ->
  Log.handles_held (log w) = [o] ->
  let w' := snd (__exit__ sdk w) in
  __exit__ sdk w = (Ok tt, w') /\
  calls w' = calls w ++ [MV_CC_StopGrabbing o; MV_CC_CloseDevice o; MV_CC_DestroyHandle o] /\
  Log.handles_held (log w') = [] /\
  session_state w' = Disconnected /\
  __exit__ sdk w' = (Ok tt, w').
Proof.
  intros Hcam Hheld w'. subst w'.
  rewrite exit_run, stop_grabbing_run, Hcam. cbn [snd].
  set (w1 := mkWorld _ _ _).
  assert (Hcam1 : cam (self w1) = Some o) by exact Hcam.
  rewrite (disconnect_some sdk w1 o Hcam1). cbn [snd].
  set (w2 := mkWorld _ _ _).
  assert (Hnone : cam (self w2) = None) by reflexivity.
  split; [reflexivity|]. split; [|split; [|split]].
  - subst w2 w1. unfold calls. cbn [log]. rewrite !map_app, <- !app_assoc. reflexivity.
  - subst w2 w1. cbn [log].
    rewrite !handles_held_last. cbn [Log.handle_step]. rewrite Hheld. apply remove_only.
  - unfold session_state. rewrite Hnone. reflexivity.
  - rewrite exit_run, stop_grabbing_run, Hnone. cbn [snd].
    apply disconnect_none, Hnone.
Qed.

Lemma exit_releases_handle_witness :
  Log.handles_held (log (Demo.streaming_world Demo.bayer8_sdk "continuous")) = [0%nat] /\
  Log.handles_held
    (log (Demo.after (__exit__ Demo.bayer8_sdk)
                     (Demo.streaming_world Demo.bayer8_sdk "continuous"))) = [] /\
  skipn 9 (calls (Demo.after (__exit__ Demo.bayer8_sdk)
                             (Demo.streaming_world Demo.bayer8_sdk "continuous")))
  = [MV_CC_StopGrabbing 0; MV_CC_CloseDevice 0; MV_CC_DestroyHandle 0].
Proof.
  assert (Hcam : cam (self (Demo.streaming_world Demo.bayer8_sdk "continuous")) = Some 0%nat)
    by (vm_compute; reflexivity).
  assert (Hheld : Log.handles_held (log (Demo.streaming_world Demo.bayer8_sdk "continuous"))
                  = [0%nat]) by (vm_compute; reflexivity).
  destruct (exit_releases_handle Demo.bayer8_sdk _ 0%nat Hcam Hheld)
    as (_ & Hcalls & Hnone & _).
  split; [exact Hheld|]. split; [exact Hnone|].
  unfold Demo.after at 1. rewrite Hcalls. vm_compute. reflexivity.
Defined.

(** ** What a fetch leaves in the buffers, and what the decoder makes of it *)

Lemma firstn_overwrite (buf written : list N) (n : nat) :
  (n <= length written)%nat -> (n <= length buf)%nat ->
  firstn n (overwrite buf written) = firstn n written.
Proof.
  intros Hw Hb. unfold overwrite.
  rewrite firstn_firstn, Nat.min_l by exact Hb.
  rewrite firstn_app. replace (n - length written)%nat with 0%nat by lia.
  cbn [firstn]. apply app_nil_r.
Qed.

(** A fetch on a streaming session never resizes the transfer buffers: the
    raw buffer keeps its length whatever the SDK writes (a longer reply is cut
    at the end of the buffer, a shorter one leaves the old tail in place), the
    BGR buffer and the recorded sizes are untouched, and the frame header is
    the one reported for this fetch.  This holds whether the call returns or
    raises. *)
Theorem get_frame_keeps_buffers sdk (timeout : Z) (w : World) (buf : list N) :
  session_state w = Streaming ->
  pData (self w) = Some buf ->
  let reply := frame sdk (log w) in
  let w' := snd (get_frame sdk timeout w) in
  pData (self w') = Some (overwrite buf (data reply)) /\
  length (overwrite buf (data reply)) = length buf /\
  (forall n, (n <= length (data reply))%nat -> (n <= length buf)%nat ->
             firstn n (overwrite buf (data reply)) = firstn n (data reply)) /\
  skipn (length (data reply)) (overwrite buf (data reply))
  = skipn (length (data reply)) buf /\
  stFrameInfo (self w') = Some (info reply) /\
  pDataBGR (self w') = pDataBGR (self w) /\
  payload_size (self w') = payload_size (self w) /\
  Self.width (self w') = Self.width (self w) /\
  Self.height (self w') = Self.height (self w).
Proof.
  intros Hs Hbuf reply w'. subst w'.
  destruct (streaming_fields _ Hs) as (_ & o & buf0 & fi & Hcam & Hbuf0 & Hfi).
  rewrite Hbuf in Hbuf0. injection Hbuf0 as <-.
  rewrite (get_frame_run sdk timeout w o buf fi Hcam Hbuf Hfi). cbn [snd self].
  fold reply.
  split; [destruct w as [me l f]; destruct me; reflexivity|].
  split; [apply overwrite_length|].
  split; [intros n Hn Hb; apply firstn_overwrite; assumption|].
  split.
  - unfold overwrite.
    destruct (Nat.le_gt_cases (length (data reply)) (length buf)) as [Hle|Hgt].
    + rewrite firstn_all2.
      * rewrite skipn_app, skipn_all, Nat.sub_diag. reflexivity.
      * rewrite length_app, length_skipn. lia.
    + rewrite (skipn_all2 buf) by lia.
      apply skipn_all2. rewrite length_firstn. lia.
  - destruct w as [me l f]. destruct me. repeat split.
Qed.

Lemma get_frame_keeps_buffers_witness :
  pData (self (Demo.after (get_frame Demo.packed12_sdk 3000)
                          (Demo.streaming_world Demo.packed12_sdk "continuous")))
  = Some [0xF0; 0xFF; 0x00; 0x0F; 0xF0; 0xFF]%N /\
  pData (self (Demo.after (get_frame Demo.bayer10_sdk 3000)
                          (Demo.streaming_world Demo.bayer8_sdk "continuous")))
  = Some [0xFF; 0x03; 0xFF; 0x03]%N.
Proof.
  split.
  - assert (Hs : session_state (Demo.streaming_world Demo.packed12_sdk "continuous")
                 = Streaming) by (vm_compute; reflexivity).
    destruct (get_frame_keeps_buffers Demo.packed12_sdk 3000 _ [0; 0; 0; 0; 0; 0]%N Hs)
      as (Hbuf & _); [vm_compute; reflexivity|].
    unfold Demo.after at 1. rewrite Hbuf. vm_compute. reflexivity.
  - assert (Hs : session_state (Demo.streaming_world Demo.bayer8_sdk "continuous")
                 = Streaming) by (vm_compute; reflexivity).
    destruct (get_frame_keeps_buffers Demo.bayer10_sdk 3000 _ [0; 0; 0; 0]%N Hs)
      as (Hbuf & _); [vm_compute; reflexivity|].
    unfold Demo.after at 1. rewrite Hbuf. vm_compute. reflexivity.
Defined.

(** A BayerRG8 frame fetched with status 0, not empty, whose [h * w] bytes
    were written by the SDK and fit the buffer, is handed to the demosaic as
    the [h] x [w] grid of exactly those bytes, in order: nothing of an
    earlier frame shows through. *)
Theorem get_frame_bayer_rg8_grid sdk (timeout : Z) (w : World) (o : nat) (buf : list N) :
  session_state w = Streaming ->
  cam (self w) = Some o ->
  pData (self w) = Some buf ->
  status sdk (log w) (MV_CC_GetOneFrameTimeout o (payload_size (self w)) timeout) = 0 ->
  let reply := frame sdk (log w) in
  let h := nHeight (info reply) in
  let w_ := nWidth (info reply) in
  enPixelType (info reply) = 0x01080009%N ->
  (0 < h * w_)%N ->
  (N.to_nat (h * w_) <= length (data reply))%nat ->
  (N.to_nat (h * w_) <= length buf)%nat ->
  fst (get_frame sdk timeout w)
  = Ok (Some (cv2.converted cv2.COLOR_BAYER_RG2BGR
                (np.mk_ndarray np.uint8 [h; w_]
                               (firstn (N.to_nat (h * w_)) (data reply))))).
Proof.
  intros Hs Hcam Hbuf Hr reply h w_ Htag Hpos Hdata Hfit.
  destruct (streaming_fields _ Hs) as (_ & o' & buf0 & fi & Hcam0 & Hbuf0 & Hfi).
  rewrite Hbuf in Hbuf0. injection Hbuf0 as <-.
  rewrite (get_frame_run sdk timeout w o buf fi Hcam Hbuf Hfi).
  rewrite Hr. cbn [Z.eqb negb fst]. fold reply. rewrite Htag. fold h w_.
  unfold decode. cbn [N.eqb Pos.eqb].
  unfold np.frombuffer_uint8. rewrite overwrite_length.
  destruct (N.ltb_spec (N.of_nat (length buf)) (h * w_)) as [Hlt|Hge]; [lia|].
  rewrite (firstn_overwrite _ _ _ Hdata Hfit).
  unfold np.reshape. cbn [np.items np.dt np.numel fold_right].
  rewrite length_firstn.
  replace (N.of_nat (Nat.min (N.to_nat (h * w_)) (length (data reply))))
    with (h * (w_ * 1))%N by lia.
  rewrite N.eqb_refl. unfold cv2.cvtColor. cbn [np.dt np.shape np.numel fold_right].
  destruct (N.eqb_spec (h * (w_ * 1)) 0) as [Hz|Hnz]; [lia|].
  reflexivity.
Qed.

Lemma get_frame_bayer_rg8_grid_witness :
  fst (get_frame Demo.bayer8_sdk 3000 (Demo.streaming_world Demo.bayer8_sdk "continuous"))
  = Ok (Some (cv2.converted cv2.COLOR_BAYER_RG2BGR
                (np.mk_ndarray np.uint8 [2; 2]%N [10; 20; 30; 40]%N))).
Proof.
  assert (Hs : session_state (Demo.streaming_world Demo.bayer8_sdk "continuous") = Streaming)
    by (vm_compute; reflexivity).
  assert (Hcam : cam (self (Demo.streaming_world Demo.bayer8_sdk "continuous")) = Some 0%nat)
    by (vm_compute; reflexivity).
  assert (Hbuf : pData (self (Demo.streaming_world Demo.bayer8_sdk "continuous"))
                 = Some [0; 0; 0; 0]%N) by (vm_compute; reflexivity).
  rewrite (get_frame_bayer_rg8_grid Demo.bayer8_sdk 3000 _ 0%nat _ Hs Hcam Hbuf).
  - vm_compute. reflexivity.
  - vm_compute. reflexivity.
  - vm_compute. reflexivity.
  - vm_compute. reflexivity.
  - vm_compute. lia.
  - vm_compute. lia.
Defined.

(** *** The branches that read the buffer through a slice *)

Lemma length_words16 (l : list N) :
  length (flat_map (np.words16 4) l) = (4 * length l)%nat.
Proof.
  induction l as [|x l IH]; [reflexivity|].
  cbn [flat_map]. rewrite length_app, IH.
  unfold np.words16. rewrite length_map, length_seq. cbn [length]. lia.
Qed.

Lemma length_slice_to (buf : list N) (n : N) :
  (N.to_nat n <= length buf)%nat -> length (slice_to buf n) = N.to_nat n.
Proof.
  intros Hn. unfold slice_to. rewrite length_firstn. lia.
Qed.

(** A Mono8 frame never comes back as an image.  The slice of the buffer is
    a list, its array has 8-byte elements, and either [reshape] refuses the
    size or [cvtColor] refuses the element type: [get_frame]'s decoder
    raises for every buffer and every frame size. *)
Theorem decode_mono8_always_raises (buf : list N) (h w : N) :
  decode buf h w 0x01080001 = Raise (ValueError CannotReshape) \/
  decode buf h w 0x01080001 = Raise cv2_error.
Proof.
  unfold decode. cbn [N.eqb Pos.eqb existsb orb].
  unfold np.reshape, np.as_array. cbn [np.items np.dt].
  destruct (N.of_nat (length (slice_to buf (h * w))) =? np.numel [h; w])%N;
    [right | left; reflexivity].
  unfold cv2.cvtColor. cbn [np.dt].
  destruct (slice_to buf (h * w)); reflexivity.
Qed.

(** For each of the four 10-bit and 12-bit Bayer codes, a non-empty frame
    whose two bytes per sample are all in the buffer is never decoded: the
    16-bit view of the sliced buffer has eight entries per sample and
    [reshape] raises [ValueError]. *)
Theorem decode_packed_bayer_raises (buf : list N) (h w tag : N) :
  In tag [0x0110000D; 0x010C0027; 0x01100011; 0x010C002B]%N ->
  (0 < h * w)%N ->
  (N.to_nat (h * w * 2) <= length buf)%nat ->
  decode buf h w tag = Raise (ValueError CannotReshape).
Proof.
  intros Htag Hpos Hfit.
  assert (Hdec : decode buf h w tag = decode buf h w 0x0110000D).
  { destruct Htag as [<-|[<-|[<-|[<-|[]]]]]; reflexivity. }
  rewrite Hdec. unfold decode. cbn [N.eqb Pos.eqb existsb orb].
  unfold np.view_uint16, np.as_array. cbn [np.dt np.items].
  assert (Hlen : length (slice_to buf (h * w * 2)) = N.to_nat (h * w * 2))
    by (apply length_slice_to, Hfit).
  destruct (slice_to buf (h * w * 2)) as [|x rest] eqn:Hslice.
  - cbn [length] in Hlen. lia.
  - unfold np.reshape. cbn [np.items np.numel fold_right].
    rewrite length_words16, Hlen.
    destruct (N.eqb_spec (N.of_nat (4 * N.to_nat (h * w * 2))) (h * (w * 1))) as [Heq|Hne];
      [lia | reflexivity].
Qed.

Lemma decode_packed_bayer_raises_witness :
  decode [0xF0; 0x0F; 0xF0; 0x0F]%N 1 2 0x01100011 = Raise (ValueError CannotReshape).
Proof.
  apply decode_packed_bayer_raises.
  - right. right. left. reflexivity.
  - reflexivity.
  - vm_compute. lia.
Defined.

(** A non-empty packed BGR8 frame whose [h * w * 3] bytes are in the buffer
    is returned as a copy of those bytes in shape [h] x [w] x 3, unconverted;
    the element type of the array is the 8-byte integer of the sliced list,
    not [uint8]. *)
Theorem decode_bgr8_copies_bytes (buf : list N) (h w : N) :
  (0 < h * w)%N ->
  (N.to_nat (h * w * 3) <= length buf)%nat ->
  decode buf h w 0x02180014
  = Ok (Some (cv2.copy (np.mk_ndarray np.int64 [h; w; 3%N]
                                      (firstn (N.to_nat (h * w * 3)) buf)))).
Proof.
  intros Hpos Hfit.
  unfold decode. cbn [N.eqb Pos.eqb existsb orb].
  unfold np.reshape, np.as_array. cbn [np.items np.dt np.numel fold_right].
  rewrite (length_slice_to _ _ Hfit).
  destruct (N.eqb_spec (N.of_nat (N.to_nat (h * w * 3))) (h * (w * (3 * 1)))) as [_|Hne];
    [|lia].
  unfold slice_to.
  destruct (firstn (N.to_nat (h * w * 3)) buf) as [|x rest] eqn:Hslice; [|reflexivity].
  apply (f_equal (@length N)) in Hslice. rewrite length_firstn in Hslice.
  cbn [length] in Hslice. lia.
Qed.

Lemma decode_bgr8_copies_bytes_witness :
  decode [1; 2; 3; 4; 5; 6; 7]%N 1 2 0x02180014
  = Ok (Some (cv2.copy (np.mk_ndarray np.int64 [1; 2; 3]%N [1; 2; 3; 4; 5; 6]%N))).
Proof.
  apply (decode_bgr8_copies_bytes [1; 2; 3; 4; 5; 6; 7]%N 1 2).
  - reflexivity.
  - vm_compute. lia.
Defined.

(** ** The acquisition loop *)

(** [time.sleep] leaves the session as it is, whatever its outcome. *)
Lemma time_sleep_world host (secs : float) (w : World) :
  snd (time_sleep host secs w) = w.
Proof.
  unfold time_sleep.
  destruct (PrimFloat.is_nan secs); [reflexivity|].
  destruct (PrimFloat.ltb (PrimFloat.mul secs 1e9) (-0x1p63) || PrimFloat.ltb 0x1p63 (PrimFloat.mul secs 1e9))%float;
    [reflexivity|].
  destruct (PrimFloat.ltb (PrimFloat.mul secs 1e9) 0)%float; reflexivity.
Qed.

(** A duration that is NaN or negative is refused before the host is asked,
    with one of three errors. *)
Lemma time_sleep_rejects host (secs : float) (w : World) :
  PrimFloat.is_nan secs = true \/ PrimFloat.ltb (PrimFloat.mul secs 1e9) 0 = true ->
  exists e,
    time_sleep host secs w = (Raise e, w) /\
    In e [ValueError NotANumber; OverflowError TimestampTooLarge; ValueError NegativeSleep].
Proof.
  intros Hbad. unfold time_sleep.
  destruct (PrimFloat.is_nan secs).
  - eexists. split; [reflexivity|]. left. reflexivity.
  - destruct Hbad as [Hnan|Hneg]; [discriminate Hnan|].
    destruct (PrimFloat.ltb (PrimFloat.mul secs 1e9) (-0x1p63) || PrimFloat.ltb 0x1p63 (PrimFloat.mul secs 1e9))%float.
    + eexists. split; [reflexivity|]. right. left. reflexivity.
    + rewrite Hneg. eexists. split; [reflexivity|]. right. right. left. reflexivity.
Qed.

(** The pause of a pass when sleeping returns, or when the pass has none. *)
Lemma pause_returns host (trigger : string) (interval : float) (count : Z) (i : nat)
      (w : World) :
  (trigger = "continuous" -> Z.of_nat i < count - 1 ->
   forall w0, time_sleep host interval w0 = (Ok tt, w0)) ->
  (if (Z.of_nat i <? count - 1) && String.eqb trigger "continuous"
   then time_sleep host interval else ret tt) w = (Ok tt, w).
Proof.
  intros Hpause.
  destruct ((Z.of_nat i <? count - 1) && String.eqb trigger "continuous") eqn:Hsleep;
    [|reflexivity].
  apply andb_true_iff in Hsleep. destruct Hsleep as [Hi Hcont].
  apply Z.ltb_lt in Hi. apply String.eqb_eq in Hcont.
  exact (Hpause Hcont Hi w).
Qed.

Lemma loop_body_count sdk host save_frame (trigger : string) (timeout : Z)
      (interval : float) (count : Z) (i saved k : nat) (w w' : World) :
  loop_body sdk host save_frame trigger timeout interval count i saved w = (Ok k, w') ->
  k = saved \/ k = S saved.
Proof.
  unfold loop_body. intros Hrun. unfold bind at 1 in Hrun.
  destruct ((if String.eqb trigger "software"
             then software_trigger sdk ;; ret tt else ret tt) w) as [[[]|e] w1];
    [|discriminate Hrun].
  unfold bind at 1 in Hrun.
  destruct (get_frame sdk timeout w1) as [[[f|]|e] w2]; [| |discriminate Hrun].
  - unfold bind at 1 in Hrun. unfold bind at 1 in Hrun.
    destruct (save_frame i f w2) as [[[]|e] w3]; [|discriminate Hrun].
    unfold ret at 1 in Hrun. unfold bind at 1 in Hrun.
    destruct ((if (Z.of_nat i <? count - 1) && String.eqb trigger "continuous"
               then time_sleep host interval else ret tt) w3) as [[[]|e] w4];
      [|discriminate Hrun].
    unfold ret in Hrun. injection Hrun as <- _. right. reflexivity.
  - unfold bind at 1 in Hrun. unfold ret at 1 in Hrun. unfold bind at 1 in Hrun.
    destruct ((if (Z.of_nat i <? count - 1) && String.eqb trigger "continuous"
               then time_sleep host interval else ret tt) w2) as [[[]|e] w4];
      [|discriminate Hrun].
    unfold ret in Hrun. injection Hrun as <- _. left. reflexivity.
Qed.

(** When the loop runs to its end, the number of saved frames it reports
    lies between the starting count and the starting count plus the number of
    passes: never more saved frames than fetches. *)
Theorem acquisition_loop_saved_count sdk host save_frame (trigger : string) (timeout : Z)
        (interval : float) (count : Z) (n i saved k : nat) (w w' : World) :
  acquisition_loop sdk host save_frame trigger timeout interval count n i saved w
  = (Ok k, w') ->
  (saved <= k <= saved + n)%nat.
Proof.
  revert i saved w. induction n as [|n IH]; intros i saved w Hrun.
  - cbn [acquisition_loop] in Hrun. unfold ret in Hrun. injection Hrun as <- _. lia.
  - cbn [acquisition_loop] in Hrun. unfold bind at 1 in Hrun.
    destruct (loop_body sdk host save_frame trigger timeout interval count i saved w)
      as [[s|e] w1] eqn:Hbody; [|discriminate].
    apply loop_body_count in Hbody. apply IH in Hrun. lia.
Qed.

Lemma acquisition_loop_saved_count_witness :
  (0 <= 3 <= 0 + 3)%nat /\
  fst (acquisition_loop Demo.bayer8_sdk Demo.host (fun _ _ => ret tt) "continuous" 3000
                        0.5%float 3 3 0 0
                        (Demo.streaming_world Demo.bayer8_sdk "continuous"))
  = Ok 3%nat.
Proof.
  assert (Hrun : acquisition_loop Demo.bayer8_sdk Demo.host (fun _ _ => ret tt)
                                  "continuous" 3000 0.5%float 3 3 0 0
                                  (Demo.streaming_world Demo.bayer8_sdk "continuous")
                 = (Ok 3%nat,
                    Demo.after (acquisition_loop Demo.bayer8_sdk Demo.host
                                                 (fun _ _ => ret tt)
                                                 "continuous" 3000 0.5%float 3 3 0 0)
                               (Demo.streaming_world Demo.bayer8_sdk "continuous")))
    by (vm_compute; reflexivity).
  split.
  - exact (acquisition_loop_saved_count _ _ _ _ _ _ _ _ _ _ _ _ _ Hrun).
  - rewrite Hrun. reflexivity.
Defined.

Lemma software_trigger_run sdk (w : World) (o : nat) :
  cam (self w) = Some o ->
  software_trigger sdk w
  = (Ok (status sdk (log w) (MV_CC_SetCommandValue o "TriggerSoftware") =? 0),
     mkWorld (self w)
             (log w ++ [(MV_CC_SetCommandValue o "TriggerSoftware",
                         status sdk (log w) (MV_CC_SetCommandValue o "TriggerSoftware"))])
             (fresh w)).
Proof.
  intros Hcam. unfold software_trigger, bind. rewrite (on_cam_some _ _ _ _ Hcam).
  reflexivity.
Qed.

(** The world in which the fetch of a pass takes place. *)
Lemma trigger_step_run sdk (trigger : string) (w : World) (o : nat) :
  session_state w = Streaming ->
  cam (self w) = Some o ->
  exists w1,
    ((if String.eqb trigger "software" then software_trigger sdk ;; ret tt else ret tt) w
     = (Ok tt, w1)) /\
    session_state w1 = Streaming /\
    self w1 = self w /\
    calls w1 = calls w ++ (if String.eqb trigger "software"
                           then [MV_CC_SetCommandValue o "TriggerSoftware"] else []).
Proof.
  intros Hs Hcam.
  destruct (String.eqb trigger "software").
  - unfold bind. rewrite (software_trigger_run sdk w o Hcam).
    eexists. split; [reflexivity|]. split; [|split; [reflexivity|]].
    + unfold session_state in *. cbn [self log]. rewrite grabbing_last.
      cbn [Log.grabbing_step]. exact Hs.
    + unfold calls. cbn [log]. rewrite map_app. reflexivity.
  - exists w. split; [reflexivity|]. split; [exact Hs|]. split; [reflexivity|].
    rewrite app_nil_r. reflexivity.
Qed.

(** The pass of the loop that follows a failed fetch, up to its pause. *)
Lemma failed_pass_run sdk host save_frame (trigger : string) (timeout : Z)
      (interval : float) (count : Z) (i saved : nat) (w : World) (o : nat) :
  session_state w = Streaming ->
  cam (self w) = Some o ->
  (forall l p t, status sdk l (MV_CC_GetOneFrameTimeout o p t) <> 0) ->
  exists w1,
    loop_body sdk host save_frame trigger timeout interval count i saved w
    = ((if (Z.of_nat i <? count - 1) && String.eqb trigger "continuous"
        then time_sleep host interval else ret tt) ;; ret saved) w1 /\
    session_state w1 = Streaming /\
    cam (self w1) = Some o /\
    payload_size (self w1) = payload_size (self w) /\
    calls w1 = calls w ++ pass_calls trigger o (payload_size (self w)) timeout.
Proof.
  intros Hs Hcam Hfail.
  destruct (trigger_step_run sdk trigger w o Hs Hcam)
    as (w1 & Htrig & Hs1 & Hself1 & Hcalls1).
  assert (Hcam1 : cam (self w1) = Some o) by (rewrite Hself1; exact Hcam).
  destruct (get_frame_keeps_streaming sdk timeout w1 o Hs1 Hcam1)
    as (Hs2 & Hcam2 & Hsize2 & Hcalls2).
  destruct (streaming_fields _ Hs1) as (_ & o' & buf & fi & Hcam1' & Hbuf & Hfi).
  rewrite Hcam1 in Hcam1'. injection Hcam1' as <-.
  assert (Hframe : get_frame sdk timeout w1 = (Ok None, snd (get_frame sdk timeout w1))).
  { rewrite (get_frame_run sdk timeout w1 o buf fi Hcam1 Hbuf Hfi).
    specialize (Hfail (log w1) (payload_size (self w1)) timeout).
    apply Z.eqb_neq in Hfail. rewrite Hfail. reflexivity. }
  exists (snd (get_frame sdk timeout w1)).
  split; [|split; [exact Hs2|split; [exact Hcam2|split]]].
  - unfold loop_body. unfold bind at 1. rewrite Htrig.
    unfold bind at 1. rewrite Hframe. unfold bind at 1, ret at 1. reflexivity.
  - rewrite Hsize2, Hself1. reflexivity.
  - rewrite Hcalls2, Hcalls1, Hself1. unfold pass_calls.
    rewrite <- app_assoc. reflexivity.
Qed.

(** If every fetch of the device fails (no frame ever arrives in time) and
    the pause of continuous mode, where a pass has one, returns, the loop
    still makes all its passes: in software mode each pass sends the trigger
    command and then fetches, otherwise it only fetches; no pass raises, the
    count of saved frames is unchanged, and the session is still streaming at
    the end. *)
Theorem acquisition_loop_without_frames sdk host save_frame (trigger : string)
        (timeout : Z) (interval : float) (count : Z) (n i saved : nat) (w : World)
        (o : nat) :
  session_state w = Streaming ->
  cam (self w) = Some o ->
  (forall l p t, status sdk l (MV_CC_GetOneFrameTimeout o p t) <> 0) ->
  (trigger = "continuous" -> Z.of_nat i < count - 1 ->
   forall w0, time_sleep host interval w0 = (Ok tt, w0)) ->
  exists w',
    acquisition_loop sdk host save_frame trigger timeout interval count n i saved w
    = (Ok saved, w') /\
    session_state w' = Streaming /\
    calls w' = calls w
               ++ concat (repeat (pass_calls trigger o (payload_size (self w)) timeout) n).
Proof.
  intros Hs Hcam Hfail. revert i w Hs Hcam.
  induction n as [|n IH]; intros i w Hs Hcam Hpause.
  - exists w. split; [reflexivity|]. split; [exact Hs|].
    cbn [repeat concat]. rewrite app_nil_r. reflexivity.
  - destruct (failed_pass_run sdk host save_frame trigger timeout interval count i saved
                w o Hs Hcam Hfail) as (w1 & Hbody & Hs1 & Hcam1 & Hsize1 & Hcalls1).
    destruct (IH (S i) w1 Hs1 Hcam1) as (w' & Hrest & Hs' & Hcalls').
    { intros Hcont Hi. apply Hpause; [exact Hcont|lia]. }
    exists w'. split; [|split; [exact Hs'|]].
    + cbn [acquisition_loop]. unfold bind at 1. rewrite Hbody.
      unfold bind at 1. rewrite (pause_returns host trigger interval count i w1 Hpause).
      unfold ret at 1. exact Hrest.
    + rewrite Hcalls', Hcalls1, Hsize1.
      cbn [repeat concat]. rewrite <- !app_assoc. reflexivity.
Qed.

Lemma acquisition_loop_without_frames_witness :
  exists w',
    acquisition_loop Demo.nodata_sdk Demo.host (fun _ _ => ret tt) "continuous" 3000
                     0.5%float 3 3 0 0
                     (Demo.streaming_world Demo.nodata_sdk "continuous") = (Ok 0%nat, w') /\
    skipn 9 (calls w') = [MV_CC_GetOneFrameTimeout 0 4 3000;
                           MV_CC_GetOneFrameTimeout 0 4 3000;
                           MV_CC_GetOneFrameTimeout 0 4 3000].
Proof.
  assert (Hs : session_state (Demo.streaming_world Demo.nodata_sdk "continuous") = Streaming)
    by (vm_compute; reflexivity).
  assert (Hcam : cam (self (Demo.streaming_world Demo.nodata_sdk "continuous")) = Some 0%nat)
    by (vm_compute; reflexivity).
  destruct (acquisition_loop_without_frames
              Demo.nodata_sdk Demo.host (fun _ _ => ret tt) "continuous" 3000 0.5%float 3
              3 0 0 _ 0%nat Hs Hcam)
    as (w' & Hrun & _ & Hcalls).
  - intros l p t. cbn. discriminate.
  - intros _ _ w0. reflexivity.
  - exists w'. split; [exact Hrun|]. rewrite Hcalls. vm_compute. reflexivity.
Defined.

(** In continuous mode an interval that is NaN or negative stops the loop at
    its first pause, whatever the host: with a pass still to come after this
    one and no frame arriving, the loop makes the one fetch and then lets the
    error of [time.sleep] out, a [ValueError] or, beyond the 64-bit range of
    nanoseconds, an [OverflowError].  The session is still streaming. *)
Theorem acquisition_loop_rejected_interval sdk host save_frame (timeout : Z)
        (interval : float) (count : Z) (n i saved : nat) (w : World) (o : nat) :
  session_state w = Streaming ->
  cam (self w) = Some o ->
  (forall l p t, status sdk l (MV_CC_GetOneFrameTimeout o p t) <> 0) ->
  Z.of_nat i < count - 1 ->
  PrimFloat.is_nan interval = true \/ PrimFloat.ltb (PrimFloat.mul interval 1e9) 0 = true ->
  exists e w',
    acquisition_loop sdk host save_frame "continuous" timeout interval count (S n) i saved w
    = (Raise e, w') /\
    In e [ValueError NotANumber; OverflowError TimestampTooLarge; ValueError NegativeSleep] /\
    session_state w' = Streaming /\
    calls w' = calls w ++ [MV_CC_GetOneFrameTimeout o (payload_size (self w)) timeout].
Proof.
  intros Hs Hcam Hfail Hi Hbad.
  destruct (failed_pass_run sdk host save_frame "continuous" timeout interval count i saved
              w o Hs Hcam Hfail) as (w1 & Hbody & Hs1 & _ & _ & Hcalls1).
  destruct (time_sleep_rejects host interval w1 Hbad) as (e & Hsleep & He).
  exists e, w1. split; [|split; [exact He|split; [exact Hs1|exact Hcalls1]]].
  cbn [acquisition_loop]. unfold bind at 1. rewrite Hbody.
  apply Z.ltb_lt in Hi. rewrite Hi. cbn [andb String.eqb Ascii.eqb Bool.eqb].
  unfold bind at 1. rewrite Hsleep. reflexivity.
Qed.

Lemma acquisition_loop_rejected_interval_witness :
  fst (acquisition_loop Demo.nodata_sdk Demo.host (fun _ _ => ret tt) "continuous" 3000
                        (-1)%float 3 3 0 0
                        (Demo.streaming_world Demo.nodata_sdk "continuous"))
  = Raise (ValueError NegativeSleep) /\
  fst (acquisition_loop Demo.nodata_sdk Demo.host (fun _ _ => ret tt) "continuous" 3000
                        nan 3 3 0 0
                        (Demo.streaming_world Demo.nodata_sdk "continuous"))
  = Raise (ValueError NotANumber) /\
  skipn 9 (calls (Demo.after
                     (acquisition_loop Demo.nodata_sdk Demo.host (fun _ _ => ret tt)
                                       "continuous" 3000 (-1)%float 3 3 0 0)
                     (Demo.streaming_world Demo.nodata_sdk "continuous")))
  = [MV_CC_GetOneFrameTimeout 0 4 3000].
Proof.
  assert (Hs : session_state (Demo.streaming_world Demo.nodata_sdk "continuous") = Streaming)
    by (vm_compute; reflexivity).
  assert (Hcam : cam (self (Demo.streaming_world Demo.nodata_sdk "continuous")) = Some 0%nat)
    by (vm_compute; reflexivity).
  destruct (acquisition_loop_rejected_interval
              Demo.nodata_sdk Demo.host (fun _ _ => ret tt) 3000 (-1)%float 3
              2 0 0 _ 0%nat Hs Hcam)
    as (e & w' & Hrun & _ & _ & Hcalls).
  - intros l p t. cbn. discriminate.
  - reflexivity.
  - right. reflexivity.
  - split; [vm_compute; reflexivity|]. split; [vm_compute; reflexivity|].
    unfold Demo.after. rewrite Hrun. cbn [snd]. rewrite Hcalls. vm_compute. reflexivity.
Defined.

(** ** The whole session: no handle is left behind *)

Lemma keeps_handle_ret {A} (a : A) : keeps_handle (ret a).
Proof. intros w. split; reflexivity. Qed.

Lemma keeps_handle_raise {A} (e : exn) : keeps_handle (@raise A e).
Proof. intros w. split; reflexivity. Qed.

Lemma keeps_handle_lift {A} (r : result A) : keeps_handle (lift r).
Proof. intros w. split; reflexivity. Qed.

Lemma keeps_handle_get_self : keeps_handle get_self.
Proof. intros w. split; reflexivity. Qed.

Lemma keeps_handle_bind {A B} (m : M A) (k : A -> M B) :
  keeps_handle m -> (forall a, keeps_handle (k a)) -> keeps_handle (bind m k).
Proof.
  intros Hm Hk w. unfold bind.
  destruct (Hm w) as [Hc Hh]. destruct (m w) as [[a|e] w1]; cbn [snd] in *.
  - destruct (Hk a w1) as [Hc' Hh']. rewrite Hc', Hh'. split; assumption.
  - split; assumption.
Qed.

Lemma keeps_handle_update (f : HikrobotCamera -> HikrobotCamera) :
  (forall c, cam (f c) = cam c) -> keeps_handle (update f).
Proof. intros Hf w. split; [apply Hf | reflexivity]. Qed.

Lemma keeps_handle_on_cam sdk (c : nat -> Call) :
  (forall o r held, Log.handle_step held (c o, r) = held) ->
  keeps_handle (on_cam sdk c).
Proof.
  intros Hc w. destruct (cam (self w)) as [o|] eqn:Hcam.
  - rewrite (on_cam_some sdk c w o Hcam). cbn [snd self log].
    split; [exact Hcam|]. rewrite handles_held_last. apply Hc.
  - rewrite (on_cam_none sdk c w Hcam). split; [exact Hcam | reflexivity].
Qed.

Lemma keeps_handle_read_value sdk (c : nat -> Call) :
  (forall o r held, Log.handle_step held (c o, r) = held) ->
  keeps_handle (read_value sdk c).
Proof.
  intros Hc w. destruct (cam (self w)) as [o|] eqn:Hcam.
  - rewrite (read_value_some sdk c w o Hcam). cbn [snd self log].
    split; [exact Hcam|]. rewrite handles_held_last. apply Hc.
  - unfold read_value, bind, get_self. rewrite Hcam. split; [exact Hcam | reflexivity].
Qed.

Lemma keeps_handle_at_world {A X} (g : World -> X) (m : X -> M A) :
  (forall x, keeps_handle (m x)) -> keeps_handle (fun w => m (g w) w).
Proof. intros Hm w. apply (Hm (g w) w). Qed.

(** Break a method into its steps; what is left is a parameter write or read
    that touches no handle, or an update that leaves [cam] alone. *)
Ltac keeps :=
  repeat first
    [ apply keeps_handle_ret
    | apply keeps_handle_raise
    | apply keeps_handle_lift
    | apply keeps_handle_get_self
    | apply keeps_handle_on_cam; intros; reflexivity
    | apply keeps_handle_read_value; intros; reflexivity
    | apply keeps_handle_update; intros []; reflexivity
    | apply keeps_handle_bind; [|intro]
    | match goal with
      | |- keeps_handle (if ?b then _ else _) => destruct b
      | |- keeps_handle (match ?x with Some _ => _ | None => _ end) => destruct x
      end ].

Lemma keeps_handle_set_roi sdk (width height : Z) (offset_x offset_y : option Z) :
  keeps_handle (set_roi sdk width height offset_x offset_y).
Proof. unfold set_roi. keeps. Qed.

Lemma keeps_handle_set_trigger_mode sdk (mode : string) :
  keeps_handle (set_trigger_mode sdk mode).
Proof. unfold set_trigger_mode. keeps. Qed.

Lemma keeps_handle_c_ubyte_array host (n : Z) : keeps_handle (c_ubyte_array host n).
Proof.
  unfold c_ubyte_array.
  destruct ((n <? - sys_maxsize - 1) || (sys_maxsize <? n)); [keeps|].
  destruct (n <? 0); [keeps|].
  intros w. destruct (malloc host w n); split; reflexivity.
Qed.

Lemma keeps_handle_time_sleep host (secs : float) : keeps_handle (time_sleep host secs).
Proof. intros w. rewrite time_sleep_world. split; reflexivity. Qed.

Lemma keeps_handle_start_grabbing sdk host : keeps_handle (start_grabbing sdk host).
Proof.
  unfold start_grabbing.
  apply keeps_handle_bind; [keeps|]. intros me.
  apply keeps_handle_bind; [apply keeps_handle_c_ubyte_array|]. intros buf.
  apply keeps_handle_bind; [keeps|]. intros _.
  apply keeps_handle_bind; [apply keeps_handle_c_ubyte_array|]. intros bgr.
  keeps.
Qed.

Lemma keeps_handle_software_trigger sdk : keeps_handle (software_trigger sdk).
Proof. unfold software_trigger. keeps. Qed.

Lemma keeps_handle_get_frame sdk (timeout : Z) : keeps_handle (get_frame sdk timeout).
Proof.
  unfold get_frame.
  apply keeps_handle_bind; [keeps|]. intros me.
  destruct (stFrameInfo me); [|keeps].
  apply keeps_handle_bind; [keeps|]. intros _.
  destruct (cam me); [|keeps]. destruct (pData me) as [buf|]; [|keeps].
  apply (keeps_handle_at_world
           (fun w => frame sdk (log w))
           (fun reply =>
              r <- on_cam sdk (fun o => MV_CC_GetOneFrameTimeout o (payload_size me) timeout) ;;
              update (set_pData (Some (overwrite buf (data reply)))) ;;
              update (set_stFrameInfo (Some (info reply))) ;;
              if negb (r =? 0) then ret None
              else lift (decode (overwrite buf (data reply)) (nHeight (info reply))
                                (nWidth (info reply)) (enPixelType (info reply))))).
  intros reply. keeps.
Qed.

Lemma keeps_handle_loop_body sdk host save_frame (trigger : string) (timeout : Z)
      (interval : float) (count : Z) (i saved : nat) :
  (forall j f, keeps_handle (save_frame j f)) ->
  keeps_handle (loop_body sdk host save_frame trigger timeout interval count i saved).
Proof.
  intros Hsave. unfold loop_body.
  apply keeps_handle_bind.
  - destruct (String.eqb trigger "software"); [|keeps].
    apply keeps_handle_bind; [apply keeps_handle_software_trigger | keeps].
  - intros _. apply keeps_handle_bind; [apply keeps_handle_get_frame|].
    intros frame. apply keeps_handle_bind.
    + destruct frame as [f|]; [|keeps].
      apply keeps_handle_bind; [apply Hsave | keeps].
    + intros saved'. apply keeps_handle_bind; [|keeps].
      destruct ((Z.of_nat i <? count - 1) && String.eqb trigger "continuous"); [|keeps].
      apply keeps_handle_time_sleep.
Qed.

Lemma keeps_handle_acquisition_loop sdk host save_frame (trigger : string) (timeout : Z)
      (interval : float) (count : Z) (n i saved : nat) :
  (forall j f, keeps_handle (save_frame j f)) ->
  keeps_handle (acquisition_loop sdk host save_frame trigger timeout interval count
                                 n i saved).
Proof.
  intros Hsave. revert i saved. induction n as [|n IH]; intros i saved.
  - apply keeps_handle_ret.
  - cbn [acquisition_loop]. apply keeps_handle_bind.
    + apply keeps_handle_loop_body, Hsave.
    + intros s. apply IH.
Qed.

Lemma keeps_handle_collect_body sdk host parse_size set_exposure_and_gain makedirs
      save_frame (args : Args) :
  (forall s, keeps_handle (parse_size s)) ->
  keeps_handle set_exposure_and_gain ->
  keeps_handle makedirs ->
  (forall j f, keeps_handle (save_frame j f)) ->
  keeps_handle (collect_body sdk host parse_size set_exposure_and_gain makedirs save_frame
                             args).
Proof.
  intros Hparse Hset Hmk Hsave. unfold collect_body.
  apply keeps_handle_bind.
  - destruct (truthy (size args)); [|keeps]. destruct (size args) as [s|]; [|keeps].
    apply keeps_handle_bind; [apply Hparse|]. intros wh. apply keeps_handle_set_roi.
  - intros _. apply keeps_handle_bind; [apply keeps_handle_set_trigger_mode|].
    intros _. apply keeps_handle_bind; [exact Hset|].
    intros _. apply keeps_handle_bind; [apply keeps_handle_start_grabbing|].
    intros _. apply keeps_handle_bind; [exact Hmk|].
    intros _. apply keeps_handle_acquisition_loop, Hsave.
Qed.

Lemma connect_raise_no_handle sdk (w w' : World) (e : exn) :
  Log.handles_held (log w) = [] ->
  connect sdk w = (Raise e, w') ->
  Log.handles_held (log w') = [].
Proof.
  intros Hheld Hrun.
  destruct (connect_outcome _ _ _ _ Hrun) as (new & Hlog & Hcases).
  rewrite Hlog, handles_held_app, Hheld.
  destruct Hcases as [(_ & r0 & Hnew)
                     |[(dev & r0 & rc & Hrc & _ & Hnew)
                      |[(dev & r0 & ro & rd & _ & _ & Hnew)
                       |(dev & r0 & rest & Hres & Hnew & _)]]]; subst new.
  - reflexivity.
  - cbn. apply Z.eqb_neq in Hrc. rewrite Hrc. reflexivity.
  - cbn [fold_left Log.handle_step]. cbn [Z.eqb]. apply remove_only.
  - discriminate Hres.
Qed.

Lemma connect_ok_handle sdk (w w' : World) :
  connect sdk w = (Ok tt, w') ->
  cam (self w') = Some (fresh w) /\
  Log.handles_held (log w') = fresh w :: Log.handles_held (log w).
Proof.
  destruct w as [me l f]. cbn [log fresh self]. intros Hrun.
  unfold connect, bind at 1, get_self in Hrun. cbn [self] in Hrun.
  unfold bind at 1, _find_camera_by_ip, invoke in Hrun. cbn [self log fresh snd] in Hrun.
  remember (status sdk l (MV_CC_EnumDevices (N.lor MV_GIGE_DEVICE MV_USB_DEVICE)))
    as r0 eqn:E; clear E.
  update_step Hrun.
  destruct (scan_devices (camera_ip me) (devices sdk l)) as [dev|]; [|discriminate Hrun].
  unfold bind at 1, MvCamera in Hrun. cbn [self log fresh] in Hrun.
  update_step Hrun.
  sdk_step Hrun f sdk.
  destruct (r =? 0) eqn:Hrc; cbn [negb] in Hrun; [|discriminate Hrun].
  apply Z.eqb_eq in Hrc. subst r.
  sdk_step Hrun f sdk.
  destruct (r =? 0) eqn:Hro; cbn [negb] in Hrun.
  2:{ sdk_step Hrun f sdk. discriminate Hrun. }
  apply Z.eqb_eq in Hro. subst r.
  value_step Hrun f sdk. value_step Hrun f sdk. value_step Hrun f sdk. value_step Hrun f sdk.
  update_step Hrun. update_step Hrun. update_step Hrun. update_step Hrun.
  match type of Hrun with context [negb (?p =? BAYER_RG8)] =>
    destruct (p =? BAYER_RG8) end; cbn [negb] in Hrun.
  - injection Hrun as <-. cbn [self log fresh].
    rewrite !handles_held_last. cbn [Log.handle_step Z.eqb].
    destruct me. split; reflexivity.
  - sdk_step Hrun f sdk.
    match type of Hrun with context [if ?c =? 0 then _ else _] =>
      destruct (c =? 0) end.
    + update_step Hrun. value_step Hrun f sdk.
      unfold update in Hrun. injection Hrun as <-. cbn [self log fresh].
      rewrite !handles_held_last. cbn [Log.handle_step Z.eqb].
      destruct me. split; reflexivity.
    + unfold ret in Hrun. injection Hrun as <-. cbn [self log fresh].
      rewrite !handles_held_last. cbn [Log.handle_step Z.eqb].
      destruct me. split; reflexivity.
Qed.

Lemma exit_run_some sdk (w : World) (o : nat) :
  cam (self w) = Some o ->
  exists r1 r2 r3,
    __exit__ sdk w
    = (Ok tt,
       mkWorld (set_cam None (self w))
               (log w ++ [(MV_CC_StopGrabbing o, r1); (MV_CC_CloseDevice o, r2);
                          (MV_CC_DestroyHandle o, r3)])
               (fresh w)).
Proof.
  intros Hcam. rewrite exit_run, stop_grabbing_run, Hcam. cbn [snd].
  rewrite (disconnect_some sdk _ o) by exact Hcam. cbn [self log fresh].
  eexists _, _, _. rewrite <- !app_assoc. reflexivity.
Qed.

Lemma exit_never_raises sdk (w : World) :
  __exit__ sdk w = (Ok tt, snd (__exit__ sdk w)).
Proof.
  rewrite exit_run.
  destruct (cam (self (snd (stop_grabbing sdk w)))) as [o|] eqn:Hcam.
  - rewrite (disconnect_some sdk _ o Hcam). reflexivity.
  - rewrite (disconnect_none sdk _ Hcam). reflexivity.
Qed.

(** The [with] statement of [collect_images], spelled out. *)
Lemma collect_images_run sdk host parse_size set_exposure_and_gain makedirs save_frame
      (args : Args) (w : World) :
  collect_images sdk host parse_size set_exposure_and_gain makedirs save_frame args w
  = match connect sdk (mkWorld (__init__ (ip args)) (log w) (fresh w)) with
    | (Raise e, w1) => (Raise e, w1)
    | (Ok _, w1) =>
        (match fst (collect_body sdk host parse_size set_exposure_and_gain makedirs
                                 save_frame args w1) with
         | Ok _ => Ok tt
         | Raise e => Raise e
         end,
         snd (__exit__ sdk (snd (collect_body sdk host parse_size set_exposure_and_gain
                                              makedirs save_frame args w1))))
    end.
Proof.
  unfold collect_images, with_HikrobotCamera, __enter__.
  destruct (connect sdk (mkWorld (__init__ (ip args)) (log w) (fresh w))) as [[[]|e] w1];
    [|reflexivity].
  unfold bind at 1.
  destruct (collect_body sdk host parse_size set_exposure_and_gain makedirs save_frame
                         args w1)
    as [[k|e] w2]; cbn [fst snd]; unfold ret; rewrite (exit_never_raises sdk w2);
    reflexivity.
Qed.

(** [collect_images] leaves no device handle behind, however it ends.  If
    [connect] raises, that error is the outcome, nothing of the body runs and
    no handle is held.  If [connect] succeeds, the outcome is that of the
    body, whether a value or an exception from any step, and the last three
    SDK calls are the stop, close and destroy of the session's SDK object,
    after which no handle is held and the camera object has none.  The steps
    outside the SDK wrapper are only assumed not to acquire or release a
    handle themselves; the host may refuse the buffers or the pause. *)
Theorem collect_images_releases_handle sdk host parse_size set_exposure_and_gain makedirs
        save_frame (args : Args) (w : World) :
  (forall s, keeps_handle (parse_size s)) ->
  keeps_handle set_exposure_and_gain ->
  keeps_handle makedirs ->
  (forall j f, keeps_handle (save_frame j f)) ->
  Log.handles_held (log w) = [] ->
  let run := collect_images sdk host parse_size set_exposure_and_gain makedirs save_frame
                            args w in
  let entered := connect sdk (mkWorld (__init__ (ip args)) (log w) (fresh w)) in
  Log.handles_held (log (snd run)) = [] /\
  match fst entered with
  | Raise e => run = (Raise e, snd entered)
  | Ok _ =>
      fst run
      = match fst (collect_body sdk host parse_size set_exposure_and_gain makedirs
                                save_frame args (snd entered)) with
        | Ok _ => Ok tt
        | Raise e => Raise e
        end /\
      cam (self (snd run)) = None /\
      exists before r1 r2 r3,
        log (snd run) = before ++ [(MV_CC_StopGrabbing (fresh w), r1);
                                   (MV_CC_CloseDevice (fresh w), r2);
                                   (MV_CC_DestroyHandle (fresh w), r3)]
  end.
Proof.
  intros Hparse Hset Hmk Hsave Hheld run entered. subst run.
  rewrite collect_images_run. fold entered.
  destruct entered as [[[]|e] w1] eqn:Hent; cbn [fst snd].
  - destruct (connect_ok_handle
                sdk (mkWorld (__init__ (ip args)) (log w) (fresh w)) w1 Hent)
      as [Hcam1 Hheld1].
    cbn [fresh log] in Hcam1, Hheld1. rewrite Hheld in Hheld1.
    pose proof (keeps_handle_collect_body sdk host parse_size set_exposure_and_gain
                  makedirs save_frame args Hparse Hset Hmk Hsave w1) as [Hcam2 Hheld2].
    rewrite Hcam1 in Hcam2. rewrite Hheld1 in Hheld2.
    destruct (exit_run_some sdk _ _ Hcam2) as (r1 & r2 & r3 & Hx).
    rewrite Hx. cbn [snd self log].
    split; [|split; [reflexivity|split]].
    + rewrite handles_held_app, Hheld2. cbn [fold_left Log.handle_step].
      apply remove_only.
    + reflexivity.
    + eexists _, r1, r2, r3. reflexivity.
  - split; [|reflexivity].
    apply (connect_raise_no_handle
             sdk (mkWorld (__init__ (ip args)) (log w) (fresh w)) w1 e Hheld Hent).
Qed.

Lemma collect_images_releases_handle_witness :
  fst (collect_images Demo.packed12_sdk Demo.host (fun _ => ret (2, 2)) (ret tt) (ret tt)
                      (fun _ _ => ret tt)
                      {| ip := "192.168.2.124"; size := Some "2x2"; trigger := "software";
                         count := 3; interval := 1%float; timeout := 5000 |}
                      Demo.start)
  = Raise (ValueError CannotReshape) /\
  Log.handles_held
    (log (snd (collect_images Demo.packed12_sdk Demo.host (fun _ => ret (2, 2)) (ret tt)
                              (ret tt) (fun _ _ => ret tt)
                              {| ip := "192.168.2.124"; size := Some "2x2";
                                 trigger := "software"; count := 3; interval := 1%float;
                                 timeout := 5000 |}
                              Demo.start))) = [] /\
  skipn 16 (calls (snd (collect_images Demo.packed12_sdk Demo.host (fun _ => ret (2, 2))
                                       (ret tt) (ret tt) (fun _ _ => ret tt)
                                       {| ip := "192.168.2.124"; size := Some "2x2";
                                          trigger := "software"; count := 3;
                                          interval := 1%float; timeout := 5000 |}
                                       Demo.start)))
  = [MV_CC_SetCommandValue 0 "TriggerSoftware"; MV_CC_GetOneFrameTimeout 0 6 5000;
     MV_CC_StopGrabbing 0; MV_CC_CloseDevice 0; MV_CC_DestroyHandle 0] /\
  fst (collect_images Demo.nodata_sdk Demo.host (fun _ => ret (2, 2)) (ret tt) (ret tt)
                      (fun _ _ => ret tt)
                      {| ip := "192.168.2.124"; size := None; trigger := "continuous";
                         count := 3; interval := (-1)%float; timeout := 5000 |}
                      Demo.start)
  = Raise (ValueError NegativeSleep) /\
  Log.handles_held
    (log (snd (collect_images Demo.nodata_sdk Demo.host (fun _ => ret (2, 2)) (ret tt)
                              (ret tt) (fun _ _ => ret tt)
                              {| ip := "192.168.2.124"; size := None;
                                 trigger := "continuous"; count := 3;
                                 interval := (-1)%float; timeout := 5000 |}
                              Demo.start))) = [].
Proof.
  destruct (collect_images_releases_handle
              Demo.packed12_sdk Demo.host (fun _ => ret (2, 2)) (ret tt) (ret tt)
              (fun _ _ => ret tt)
              {| ip := "192.168.2.124"; size := Some "2x2"; trigger := "software";
                 count := 3; interval := 1%float; timeout := 5000 |}
              Demo.start
              (fun _ => keeps_handle_ret _) (keeps_handle_ret _) (keeps_handle_ret _)
              (fun _ _ => keeps_handle_ret _) eq_refl) as [Hheld _].
  destruct (collect_images_releases_handle
              Demo.nodata_sdk Demo.host (fun _ => ret (2, 2)) (ret tt) (ret tt)
              (fun _ _ => ret tt)
              {| ip := "192.168.2.124"; size := None; trigger := "continuous";
                 count := 3; interval := (-1)%float; timeout := 5000 |}
              Demo.start
              (fun _ => keeps_handle_ret _) (keeps_handle_ret _) (keeps_handle_ret _)
              (fun _ _ => keeps_handle_ret _) eq_refl) as [Hheld' _].
  split; [vm_compute; reflexivity|]. split; [exact Hheld|].
  split; [vm_compute; reflexivity|]. split; [vm_compute; reflexivity|]. exact Hheld'.
Defined.

Lemma decode_bayer_rg8_fits (buf : list N) (h w : N) :
  (0 < h * w <= N.of_nat (length buf))%N ->
  decode buf h w 0x01080009
  = Ok (Some (cv2.converted cv2.COLOR_BAYER_RG2BGR
                (np.mk_ndarray np.uint8 [h; w] (firstn (N.to_nat (h * w)) buf)))).
Proof.
  intros Hfit. unfold decode. cbn [N.eqb Pos.eqb].
  unfold np.frombuffer_uint8.
  destruct (N.ltb_spec (N.of_nat (length buf)) (h * w)) as [Hlt|Hge]; [lia|].
  unfold np.reshape. cbn [np.items np.dt np.numel fold_right].
  rewrite length_firstn.
  replace (N.of_nat (Nat.min (N.to_nat (h * w)) (length buf)))
    with (h * (w * 1))%N by lia.
  rewrite N.eqb_refl. unfold cv2.cvtColor. cbn [np.dt np.shape np.numel fold_right].
  destruct (N.eqb_spec (h * (w * 1)) 0) as [Hz|Hnz]; [lia|].
  reflexivity.
Qed.

(** If every fetch succeeds with a non-empty BayerRG8 frame that fits the
    raw buffer, the image sink neither raises nor touches the camera, and the
    pause of continuous mode, where a pass has one, returns, every pass of
    the loop saves its frame: the loop ends normally with the saved count
    raised by the number of passes, the session still streaming. *)
Theorem acquisition_loop_saves_every_frame sdk host save_frame (trigger : string)
        (timeout : Z) (interval : float) (count : Z) (n i saved : nat) (w : World)
        (o : nat) (size : N) :
  session_state w = Streaming ->
  cam (self w) = Some o ->
  (exists buf, pData (self w) = Some buf /\ N.of_nat (length buf) = size) ->
  (forall j f w0, exists w1,
        save_frame j f w0 = (Ok tt, w1) /\ self w1 = self w0 /\ log w1 = log w0) ->
  (forall l p t, status sdk l (MV_CC_GetOneFrameTimeout o p t) = 0) ->
  (forall l, enPixelType (info (frame sdk l)) = 0x01080009%N /\
             (0 < nHeight (info (frame sdk l)) * nWidth (info (frame sdk l)) <= size)%N) ->
  (trigger = "continuous" -> Z.of_nat i < count - 1 ->
   forall w0, time_sleep host interval w0 = (Ok tt, w0)) ->
  exists w',
    acquisition_loop sdk host save_frame trigger timeout interval count n i saved w
    = (Ok (saved + n)%nat, w') /\
    session_state w' = Streaming.
Proof.
  intros Hs Hcam Hbuf Hsave Hok Hframe. revert i saved w Hs Hcam Hbuf.
  induction n as [|n IH]; intros i saved w Hs Hcam (buf & Hbuf & Hlen) Hpause.
  - exists w. rewrite Nat.add_0_r. split; [reflexivity | exact Hs].
  - destruct (trigger_step_run sdk trigger w o Hs Hcam)
      as (w1 & Htrig & Hs1 & Hself1 & _).
    assert (Hcam1 : cam (self w1) = Some o) by (rewrite Hself1; exact Hcam).
    assert (Hbuf1 : pData (self w1) = Some buf) by (rewrite Hself1; exact Hbuf).
    destruct (get_frame_keeps_streaming sdk timeout w1 o Hs1 Hcam1)
      as (Hs2 & Hcam2 & _ & _).
    destruct (streaming_fields _ Hs1) as (_ & o' & buf' & fi & _ & Hbuf1' & Hfi).
    rewrite Hbuf1 in Hbuf1'. injection Hbuf1' as <-.
    pose proof (get_frame_run sdk timeout w1 o buf fi Hcam1 Hbuf1 Hfi) as Hrun.
    cbv zeta in Hrun. rewrite Hok in Hrun. cbn [Z.eqb negb] in Hrun.
    destruct (Hframe (log w1)) as [Htag Hfit]. rewrite Htag in Hrun.
    rewrite decode_bayer_rg8_fits in Hrun by (rewrite overwrite_length, Hlen; exact Hfit).
    rewrite Hrun in Hs2, Hcam2. cbn [snd] in Hs2, Hcam2.
    match type of Hrun with _ = (_, ?W) => set (w2 := W) in * end.
    assert (Hw2 : pData (self w2) = Some (overwrite buf (data (frame sdk (log w1))))).
    { subst w2. cbn [self]. destruct w1 as [me l f]. destruct me. reflexivity. }
    match type of Hrun with _ = (Ok (Some ?img), _) => set (image := img) in * end.
    destruct (Hsave i image w2) as (w3 & Hsaved & Hself3 & Hlog3).
    assert (Hs3 : session_state w3 = Streaming).
    { unfold session_state in *. rewrite Hself3, Hlog3. exact Hs2. }
    assert (Hcam3 : cam (self w3) = Some o) by (rewrite Hself3; exact Hcam2).
    destruct (IH (S i) (S saved) w3 Hs3 Hcam3) as (w' & Hrest & Hs').
    { eexists. rewrite Hself3. split; [exact Hw2|].
      rewrite overwrite_length. exact Hlen. }
    { intros Hcont Hi. apply Hpause; [exact Hcont|lia]. }
    exists w'. split; [|exact Hs'].
    cbn [acquisition_loop]. unfold bind at 1, loop_body.
    unfold bind at 1. rewrite Htrig.
    unfold bind at 1. rewrite Hrun.
    unfold bind at 1. unfold bind at 1. rewrite Hsaved. unfold ret at 1.
    unfold bind at 1. rewrite (pause_returns host trigger interval count i w3 Hpause).
    unfold ret at 1.
    rewrite Hrest. f_equal. f_equal. lia.
Qed.

Lemma acquisition_loop_saves_every_frame_witness :
  exists w',
    acquisition_loop Demo.bayer8_sdk Demo.host (fun _ _ => ret tt) "continuous" 3000
                     0.5%float 5 5 0 0
                     (Demo.streaming_world Demo.bayer8_sdk "continuous")
    = (Ok 5%nat, w') /\
    session_state w' = Streaming.
Proof.
  assert (Hs : session_state (Demo.streaming_world Demo.bayer8_sdk "continuous") = Streaming)
    by (vm_compute; reflexivity).
  assert (Hcam : cam (self (Demo.streaming_world Demo.bayer8_sdk "continuous")) = Some 0%nat)
    by (vm_compute; reflexivity).
  apply (acquisition_loop_saves_every_frame
           Demo.bayer8_sdk Demo.host (fun _ _ => ret tt) "continuous" 3000 0.5%float 5
           5 0 0 _ 0%nat 4%N Hs Hcam).
  - exists [0; 0; 0; 0]%N. split; vm_compute; reflexivity.
  - intros j f w0. exists w0. repeat split.
  - intros l p t. reflexivity.
  - intros l. split; [reflexivity|]. split; [reflexivity | discriminate].
  - intros _ _ w0. reflexivity.
Defined.

(** ** Connecting again, and connecting in vain *)

(** [connect] never releases a handle that is already held: when it succeeds
    the new handle is added to those held before.  Calling it on a session
    that is still connected therefore leaves the earlier handle held while
    the camera object only knows the new SDK object. *)
Theorem connect_keeps_earlier_handles sdk (w w' : World) :
  connect sdk w = (Ok tt, w') ->
  cam (self w') = Some (fresh w) /\
  Log.handles_held (log w') = fresh w :: Log.handles_held (log w) /\
  forall o, In o (Log.handles_held (log w)) -> In o (Log.handles_held (log w')).
Proof.
  intros Hrun. destruct (connect_ok_handle sdk w w' Hrun) as [Hcam Hheld].
  split; [exact Hcam|]. split; [exact Hheld|].
  intros o Hin. rewrite Hheld. right. exact Hin.
Qed.

Lemma connect_keeps_earlier_handles_witness :
  cam (self (Demo.after (connect Demo.bayer8_sdk)
                        (Demo.after (connect Demo.bayer8_sdk) Demo.start))) = Some 1%nat /\
  Log.handles_held (log (Demo.after (connect Demo.bayer8_sdk)
                                    (Demo.after (connect Demo.bayer8_sdk) Demo.start)))
  = [1%nat; 0%nat].
Proof.
  assert (Hrun : connect Demo.bayer8_sdk (Demo.after (connect Demo.bayer8_sdk) Demo.start)
                 = (Ok tt, Demo.after (connect Demo.bayer8_sdk)
                                      (Demo.after (connect Demo.bayer8_sdk) Demo.start)))
    by (vm_compute; reflexivity).
  destruct (connect_keeps_earlier_handles Demo.bayer8_sdk _ _ Hrun) as (Hcam & Hheld & _).
  split; [exact Hcam|]. rewrite Hheld. vm_compute. reflexivity.
Defined.

(** When [connect] fails after the SDK object was made (the handle could not
    be created, or the device could not be opened), the camera object keeps
    that SDK object: the session does not count as disconnected, and a
    following [disconnect] closes and destroys on the SDK once more before it
    clears the object. *)
Theorem connect_failure_keeps_sdk_object sdk (w w' : World) (r : Z) :
  connect sdk w = (Raise (RuntimeError (CreateHandleFailed r)), w') \/
  connect sdk w = (Raise (RuntimeError (OpenDeviceFailed r)), w') ->
  cam (self w') = Some (fresh w) /\
  session_state w' <> Disconnected /\
  calls (snd (disconnect sdk w'))
  = calls w' ++ [MV_CC_CloseDevice (fresh w); MV_CC_DestroyHandle (fresh w)].
Proof.
  intros Hrun.
  assert (Hcam : cam (self w') = Some (fresh w)).
  { destruct w as [me l f]. cbn [fresh].
    assert (Hgen : exists e, connect sdk (mkWorld me l f) = (Raise (RuntimeError e), w') /\
                             e <> CameraNotFound /\
                             forall rr, e <> StartGrabbingFailed rr).
    { destruct Hrun as [H|H]; eexists; (split; [exact H|]); split; intros; discriminate. }
    clear Hrun. destruct Hgen as (e & Hrun & Hnf & Hns).
    unfold connect, bind at 1, get_self in Hrun. cbn [self] in Hrun.
    unfold bind at 1, _find_camera_by_ip, invoke in Hrun. cbn [self log fresh snd] in Hrun.
    remember (status sdk l (MV_CC_EnumDevices (N.lor MV_GIGE_DEVICE MV_USB_DEVICE)))
      as r0 eqn:E; clear E.
    update_step Hrun.
    destruct (scan_devices (camera_ip me) (devices sdk l)) as [dev|].
    2:{ injection Hrun as He _. symmetry in He. contradiction. }
    unfold bind at 1, MvCamera in Hrun. cbn [self log fresh] in Hrun.
    update_step Hrun.
    sdk_step Hrun f sdk.
    destruct (r1 =? 0) eqn:Hrc; cbn [negb] in Hrun.
    2:{ injection Hrun as _ <-. destruct me. reflexivity. }
    sdk_step Hrun f sdk.
    destruct (r2 =? 0) eqn:Hro; cbn [negb] in Hrun.
    2:{ sdk_step Hrun f sdk. injection Hrun as _ <-. destruct me. reflexivity. }
    value_step Hrun f sdk. value_step Hrun f sdk. value_step Hrun f sdk.
    value_step Hrun f sdk.
    update_step Hrun. update_step Hrun. update_step Hrun. update_step Hrun.
    match type of Hrun with context [negb (?p =? BAYER_RG8)] =>
      destruct (p =? BAYER_RG8) end; cbn [negb] in Hrun; [discriminate Hrun|].
    sdk_step Hrun f sdk.
    match type of Hrun with context [if ?c =? 0 then _ else _] =>
      destruct (c =? 0) end; [|discriminate Hrun].
    update_step Hrun. value_step Hrun f sdk. discriminate Hrun. }
  split; [exact Hcam|]. split.
  - unfold session_state. rewrite Hcam.
    destruct (Log.grabbing (log w')); [|discriminate].
    destruct (pData (self w')); [|discriminate].
    destruct (stFrameInfo (self w')); discriminate.
  - rewrite (disconnect_some sdk w' _ Hcam). cbn [snd].
    unfold calls. cbn [log]. rewrite !map_app, <- app_assoc. reflexivity.
Qed.

Lemma connect_failure_keeps_sdk_object_witness :
  cam (self (Demo.after (connect Demo.open_fails_sdk) Demo.start)) = Some 0%nat /\
  calls (Demo.after (disconnect Demo.open_fails_sdk)
                    (Demo.after (connect Demo.open_fails_sdk) Demo.start))
  = [MV_CC_EnumDevices 5; MV_CC_CreateHandle 0 Demo.device; MV_CC_OpenDevice 0 1 0;
     MV_CC_DestroyHandle 0; MV_CC_CloseDevice 0; MV_CC_DestroyHandle 0].
Proof.
  assert (Hrun : connect Demo.open_fails_sdk Demo.start
                 = (Raise (RuntimeError (OpenDeviceFailed 0x80000203)),
                    Demo.after (connect Demo.open_fails_sdk) Demo.start))
    by (vm_compute; reflexivity).
  destruct (connect_failure_keeps_sdk_object Demo.open_fails_sdk _ _ _ (or_intror Hrun))
    as (Hcam & _ & Hcalls).
  split; [exact Hcam|]. unfold Demo.after at 1. rewrite Hcalls. vm_compute. reflexivity.
Defined.

(** ** Addresses are told apart *)

Lemma to_uint_nonnil (n : N) : N.to_uint n <> Decimal.Nil.
Proof.
  destruct n as [|p]; [discriminate|]. apply DecimalPos.Unsigned.to_uint_nonnil.
Qed.

Lemma decimal_plain (n : N) : decimal n = NilEmpty.string_of_uint (N.to_uint n).
Proof.
  unfold decimal, NilZero.string_of_uint.
  pose proof (to_uint_nonnil n) as Hn.
  destruct (N.to_uint n); [contradiction | reflexivity ..].
Qed.

Lemma decimal_digits (n : N) : NilEmpty.uint_of_string (decimal n) <> None.
Proof. rewrite decimal_plain, NilEmpty.usu. discriminate. Qed.

Lemma decimal_inj (a b : N) : decimal a = decimal b -> a = b.
Proof.
  rewrite !decimal_plain. intros H.
  apply (f_equal NilEmpty.uint_of_string) in H. rewrite !NilEmpty.usu in H.
  injection H as H. apply DecimalN.Unsigned.to_uint_inj, H.
Qed.

Lemma digits_cons (c : Ascii.ascii) (s : string) :
  NilEmpty.uint_of_string (String c s) <> None ->
  c <> "."%char /\ NilEmpty.uint_of_string s <> None.
Proof.
  cbn [NilEmpty.uint_of_string].
  destruct (NilEmpty.uint_of_string s) as [d|]; intros H.
  - split; [|discriminate]. intros ->. apply H. reflexivity.
  - exfalso. apply H. reflexivity.
Qed.

(** Two texts made of a run of digits, a dot and a rest are equal only if
    the digits and the rests are. *)
Lemma split_at_dot (s1 s2 t1 t2 : string) :
  NilEmpty.uint_of_string s1 <> None ->
  NilEmpty.uint_of_string s2 <> None ->
  (s1 ++ String "." t1 = s2 ++ String "." t2)%string ->
  s1 = s2 /\ t1 = t2.
Proof.
  revert s2. induction s1 as [|c s1 IH]; intros [|c' s2] H1 H2 Heq;
    cbn [append] in Heq.
  - injection Heq as ->. split; reflexivity.
  - injection Heq as <- _. destruct (digits_cons _ _ H2) as [Hc _]. contradiction.
  - injection Heq as -> _. destruct (digits_cons _ _ H1) as [Hc _]. contradiction.
  - injection Heq as <- Heq.
    destruct (digits_cons _ _ H1) as [_ H1']. destruct (digits_cons _ _ H2) as [_ H2'].
    destruct (IH s2 H1' H2' Heq) as [-> ->]. split; reflexivity.
Qed.

Lemma low_32_bits_from_octets (x : N) :
  (x mod 2 ^ 32
   = N.land (N.shiftr x 24) 0xFF * 2 ^ 24 + N.land (N.shiftr x 16) 0xFF * 2 ^ 16
     + N.land (N.shiftr x 8) 0xFF * 2 ^ 8 + N.land x 0xFF)%N.
Proof.
  change 0xFF%N with (N.ones 8). rewrite !N.land_ones, !N.shiftr_div_pow2.
  change (2 ^ 32)%N with (256 * (256 * (256 * 256)))%N.
  change (2 ^ 24)%N with 16777216%N. change (2 ^ 16)%N with 65536%N.
  change (2 ^ 8)%N with 256%N.
  rewrite N.Div0.mod_mul_r.
  rewrite (N.Div0.mod_mul_r (x / 256)), N.Div0.div_div.
  rewrite (N.Div0.mod_mul_r (x / (256 * 256))), N.Div0.div_div.
  change (256 * 256)%N with 65536%N. change (65536 * 256)%N with 16777216%N.
  lia.
Qed.

(** Two addresses that print the same have the same low 32 bits: the string
    comparison in the device scan never takes one IPv4 address for
    another. *)
Theorem ip_to_str_tells_addresses_apart (x y : N) :
  ip_to_str x = ip_to_str y -> (x mod 2 ^ 32 = y mod 2 ^ 32)%N.
Proof.
  unfold ip_to_str. cbn [append]. intros H.
  apply split_at_dot in H; try apply decimal_digits. destruct H as [H3 H].
  apply split_at_dot in H; try apply decimal_digits. destruct H as [H2 H].
  apply split_at_dot in H; try apply decimal_digits. destruct H as [H1 H0].
  apply decimal_inj in H3, H2, H1, H0.
  rewrite (low_32_bits_from_octets x), (low_32_bits_from_octets y).
  rewrite H3, H2, H1, H0. reflexivity.
Qed.

Lemma ip_to_str_tells_addresses_apart_witness :
  (0x1C0A8027C mod 2 ^ 32 = 0xC0A8027C mod 2 ^ 32)%N.
Proof.
  apply (ip_to_str_tells_addresses_apart 0x1C0A8027C 0xC0A8027C).
  vm_compute. reflexivity.
Defined.

Lemma scan_devices_some (camera_ip : string) (l : list MV_CC_DEVICE_INFO)
      (dev : MV_CC_DEVICE_INFO) :
  scan_devices camera_ip l = Some dev ->
  In dev l /\ nTLayerType dev = MV_GIGE_DEVICE /\ ip_to_str (nCurrentIp dev) = camera_ip.
Proof.
  induction l as [|d rest IH]; [discriminate|].
  rewrite scan_devices_cons.
  destruct ((nTLayerType d =? MV_GIGE_DEVICE)%N
            && String.eqb (ip_to_str (nCurrentIp d)) camera_ip)%bool eqn:Hm.
  - intros H. injection H as <-. apply andb_prop in Hm. destruct Hm as [Hty Hip].
    apply N.eqb_eq in Hty. apply String.eqb_eq in Hip.
    split; [left; reflexivity|]. split; assumption.
  - intros H. destruct (IH H) as (Hin & Hty & Hip).
    split; [right; exact Hin|]. split; assumption.
Qed.

(** Looking for the printed form of an address finds only a GigE device among
    those enumerated whose current address has the same 32 bits. *)
Theorem scan_devices_finds_the_address (a : N) (l : list MV_CC_DEVICE_INFO)
        (dev : MV_CC_DEVICE_INFO) :
  scan_devices (ip_to_str a) l = Some dev ->
  In dev l /\ nTLayerType dev = MV_GIGE_DEVICE /\
  (nCurrentIp dev mod 2 ^ 32 = a mod 2 ^ 32)%N.
Proof.
  intros Hscan. destruct (scan_devices_some _ _ _ Hscan) as (Hin & Hty & Hip).
  split; [exact Hin|]. split; [exact Hty|].
  unfold ip_to_str in Hip. cbn [append] in Hip.
  apply split_at_dot in Hip; try apply decimal_digits. destruct Hip as [H3 Hip].
  apply split_at_dot in Hip; try apply decimal_digits. destruct Hip as [H2 Hip].
  apply split_at_dot in Hip; try apply decimal_digits. destruct Hip as [H1 H0].
  apply decimal_inj in H3, H2, H1, H0.
  rewrite (low_32_bits_from_octets (nCurrentIp dev)), (low_32_bits_from_octets a).
  rewrite H3, H2, H1, H0. reflexivity.
Qed.

Lemma scan_devices_finds_the_address_witness :
  (nCurrentIp Demo.device mod 2 ^ 32 = 0xC0A8027C mod 2 ^ 32)%N.
Proof.
  apply (scan_devices_finds_the_address
           0xC0A8027C
           [{| nTLayerType := MV_USB_DEVICE; nCurrentIp := 0xC0A8027C |}; Demo.device]
           Demo.device).
  vm_compute. reflexivity.
Defined.
